(** * langchain-serve: the tracing callbacks, the streaming handlers, the
    builtins interception scope and the command line front end.

    The Python sources are [lcserve/backend/langchain_helper.py] and
    [lcserve/__main__.py].  Python code is embedded as functions in a state
    and exception monad: a computation takes the state it runs in and gives
    back how it ended (a returned value or a raised exception) together with
    the state it left behind.  A raised exception does not roll the state
    back. *)

From Stdlib Require Import ZArith Ascii String List Bool Lia.
From stdpp Require Import base option list gmap strings pretty.

Set Default Proof Using "Type".
Set Warnings "-register-all".
Open Scope string_scope.
Open Scope list_scope.

(** ** Python values, exceptions and control flow *)

Module Py.

(** The values handed around by the callbacks ([Dict[str, Any]], [Any]).
    [VObject] is an instance of a class that [json] has no encoder for;
    [VJson v] is the [str] that [json.dumps] returns for [v].  A [string]
    stands for a Python [str] with one character for each code point, so
    that [String.length] is [len]; the strings covered are those whose
    code points are below 256. *)
Inductive Value : Type :=
| VNone
| VBool (b : bool)
| VInt (z : Z)
| VStr (s : string)
| VList (items : list Value)
| VDict (items : list (string * Value))
| VObject (cls : string)
| VJson (v : Value).

(** A scalar of a YAML document. *)
Inductive Scalar : Type :=
| SInt (z : Z)
| SStr (s : string).

(** The exceptions the embedded code raises or catches.
    [InvalidInstanceError] and [InvalidAutoscaleMinError] are the two
    conditions of [lcserve/errors.py], each carrying the offending value;
    [BadParameter] is [click.BadParameter]. *)
Inductive Exception : Type :=
| TypeError (msg : string)
| KeyError (key : string)
| AttributeError (attr : string)
| ValueError (msg : string)
| ValidationError
| RuntimeError (msg : string)
| FileNotFoundError (path : string)
| InvalidInstanceError (instance : string)
| InvalidAutoscaleMinError (min : Scalar)
| BadParameter (message : string).

Inductive Outcome (A : Type) : Type :=
| Return (a : A)
| Raise (e : Exception).
Arguments Return {A} a.
Arguments Raise {A} e.

Definition Eff (S A : Type) : Type := S -> Outcome A * S.

Section Control.
Context {S : Type}.

Definition ret {A} (a : A) : Eff S A := fun s => (Return a, s).

Definition raise {A} (e : Exception) : Eff S A := fun s => (Raise e, s).

Definition bind {A B} (m : Eff S A) (k : A -> Eff S B) : Eff S B :=
  fun s => match m s with
           | (Return a, s') => k a s'
           | (Raise e, s') => (Raise e, s')
           end.

Definition gets {A} (f : S -> A) : Eff S A := fun s => (Return (f s), s).

Definition modify (f : S -> S) : Eff S unit := fun s => (Return tt, f s).

(** A pure, possibly raising, expression evaluated in place. *)
Definition eval {A} (o : Outcome A) : Eff S A := fun s => (o, s).

(** [try: body / except C1: h1 / except C2: h2 ...].  [clauses] picks the
    handler of the first clause that names the exception, if any does; an
    exception raised by a handler is not offered to the other clauses. *)
Definition try_catch {A} (body : Eff S A)
    (clauses : Exception -> option (Eff S A)) : Eff S A :=
  fun s => match body s with
           | (Return a, s') => (Return a, s')
           | (Raise e, s') =>
               match clauses e with
               | Some handler => handler s'
               | None => (Raise e, s')
               end
           end.

(** [except Exception:] names every exception of the model. *)
Definition try_except {A} (body : Eff S A) (handler : Exception -> Eff S A)
    : Eff S A :=
  try_catch body (fun e => Some (handler e)).

(** [try: body / finally: final].  The final block runs on both ways out;
    when it raises itself, its exception replaces the pending one. *)
Definition try_finally {A} (body : Eff S A) (final : Eff S unit) : Eff S A :=
  fun s => match body s with
           | (r, s') => match final s' with
                        | (Return _, s'') => (r, s'')
                        | (Raise e, s'') => (Raise e, s'')
                        end
           end.

(** [for x in xs: body x]. *)
Fixpoint for_each {A} (xs : list A) (body : A -> Eff S unit) : Eff S unit :=
  match xs with
  | [] => ret tt
  | x :: rest => bind (body x) (fun _ => for_each rest body)
  end.

(** The [with] statement over the two methods of a context manager:
    [__enter__], then the body, then [__exit__] with the pending exception
    if there is one.  A true result of [__exit__] swallows the exception,
    and the statement then has no value. *)
Definition with_stmt {A B} (enter : Eff S A)
    (exit : option Exception -> Eff S bool) (body : A -> Eff S B)
    : Eff S (option B) :=
  bind enter (fun a s =>
    match body a s with
    | (Return b, s') =>
        match exit None s' with
        | (Return _, s'') => (Return (Some b), s'')
        | (Raise e, s'') => (Raise e, s'')
        end
    | (Raise e, s') =>
        match exit (Some e) s' with
        | (Return true, s'') => (Return None, s'')
        | (Return false, s'') => (Raise e, s'')
        | (Raise e', s'') => (Raise e', s'')
        end
    end).
End Control.

(** Running a computation over one component of a pair of states. *)
Definition on_snd {S T A} (m : Eff T A) : Eff (S * T) A :=
  fun st => match m (snd st) with (r, t') => (r, (fst st, t')) end.

(** An [async def] call builds a coroutine object and runs nothing; the
    body runs when the coroutine is awaited (or driven by [asyncio.run]). *)
Record Coroutine (S A : Type) : Type := Coro { coro_body : Eff S A }.
Arguments Coro {S A} coro_body.
Arguments coro_body {S A} c.

Definition await {S A} (c : Coroutine S A) : Eff S A := coro_body c.

(** [asyncio.run] as called from a thread in which no event loop is
    running: it runs the coroutine to its end.  (Called while a loop is
    running in the same thread it raises a [RuntimeError] instead; the
    state of the model has no event loops, and that call is not
    covered.) *)
Definition asyncio_run {S A} (c : Coroutine S A) : Eff S A := coro_body c.

(** [d[key]] and [d.get(key)] on a dict kept as its items in order. *)
Fixpoint dict_get (items : list (string * Value)) (key : string) : option Value :=
  match items with
  | [] => None
  | (k, v) :: rest => if String.eqb k key then Some v else dict_get rest key
  end.

(** [d[key] = v]: the value of a present key is replaced in place, a new
    key goes to the end. *)
Fixpoint dict_set (items : list (string * Value)) (key : string) (v : Value)
    : list (string * Value) :=
  match items with
  | [] => [(key, v)]
  | (k, x) :: rest =>
      if String.eqb k key then (k, v) :: rest else (k, x) :: dict_set rest key v
  end.

(** Whether [json.dumps] has an encoding for the value; it raises
    [TypeError] when it has none. *)
Fixpoint json_serializable (v : Value) : bool :=
  match v with
  | VNone | VBool _ | VInt _ | VStr _ | VJson _ => true
  | VObject _ => false
  | VList items => forallb json_serializable items
  | VDict items =>
      (fix all (kvs : list (string * Value)) : bool :=
         match kvs with
         | [] => true
         | (_, x) :: rest => json_serializable x && all rest
         end) items
  end.

Definition json_dumps (v : Value) : Outcome Value :=
  if json_serializable v then Return (VJson v)
  else Raise (TypeError "Object is not JSON serializable").

(** [s.split(sep)] for a one-character separator. *)
Fixpoint str_split (sep : Ascii.ascii) (s : string) : list string :=
  match s with
  | EmptyString => [EmptyString]
  | String c rest =>
      if Ascii.eqb c sep then EmptyString :: str_split sep rest
      else match str_split sep rest with
           | head :: tail => String c head :: tail
           | [] => [String c EmptyString]
           end
  end.

(** [sub in s]. *)
Definition contains (s sub : string) : Prop :=
  exists before after, s = before +:+ sub +:+ after.

(** The one-character string [\n]. *)
Definition newline : string := String (Ascii.ascii_of_nat 10) EmptyString.

End Py.

Import Py.

Declare Scope py_scope.
Delimit Scope py_scope with py.
Notation "x <- m ;; k" := (bind m (fun x => k))
  (at level 100, m at next level, right associativity) : py_scope.
Notation "m ;; k" := (bind m (fun _ => k))
  (at level 100, right associativity) : py_scope.

(** ** The tracing callback handlers ([langchain_helper.py]) *)

Module Tracing.

(** Run identifiers are UUIDs, 128-bit numbers; a span object is known by
    its reference into the store of spans. *)
Abbreviation UUID := N.
Abbreviation SpanRef := nat.

(** The part of [opentelemetry.trace] the handlers use. *)
Record SpanContext : Type := { trace_id : Z; span_id : Z }.

Record Span : Type := {
  span_name : string;
  span_context : SpanContext;
  attributes : list (string * Value);
  events : list (string * Value);
  status_error : bool;
  ended : bool
}.

Record Tracer : Type := {
  generate_trace_id : nat -> Z;
  generate_span_id : nat -> Z
}.

Definition with_attributes (s : Span) (a : list (string * Value)) : Span :=
  {| span_name := span_name s; span_context := span_context s;
     attributes := a; events := events s;
     status_error := status_error s; ended := ended s |}.

Definition with_events (s : Span) (e : list (string * Value)) : Span :=
  {| span_name := span_name s; span_context := span_context s;
     attributes := attributes s; events := e;
     status_error := status_error s; ended := ended s |}.

Definition with_status_error (s : Span) : Span :=
  {| span_name := span_name s; span_context := span_context s;
     attributes := attributes s; events := events s;
     status_error := true; ended := ended s |}.

Definition with_ended (s : Span) : Span :=
  {| span_name := span_name s; span_context := span_context s;
     attributes := attributes s; events := events s;
     status_error := status_error s; ended := true |}.

(** [int.__round__(ndigits)]: an int is its own rounding to a non-negative
    number of digits, and is rounded half to even to a power of ten
    otherwise. *)
Definition int_round (n ndigits : Z) : Z :=
  if (0 <=? ndigits)%Z then n
  else
    let p := (10 ^ (- ndigits))%Z in
    let q := (n / p)%Z in
    let r := (n mod p)%Z in
    if (2 * r <? p)%Z then (q * p)%Z
    else if (p <? 2 * r)%Z then ((q + 1) * p)%Z
    else if Z.even q then (q * p)%Z else ((q + 1) * p)%Z.

(** Python's [float] with the two operations [on_llm_end] applies to it:
    [round(x, ndigits)] and truth testing. *)
Class Float : Type := {
  float : Type;
  float_round : float -> Z -> float;
  float_bool : float -> bool
}.

Section WithFloat.
Context `{Float}.

Inductive Number : Type :=
| NInt (n : Z)
| NFloat (x : float).

Definition py_round (x : Number) (ndigits : Z) : Number :=
  match x with
  | NInt n => NInt (int_round n ndigits)
  | NFloat y => NFloat (float_round y ndigits)
  end.

Definition py_bool (x : Number) : bool :=
  match x with
  | NInt n => negb (n =? 0)%Z
  | NFloat y => float_bool y
  end.

(** The dataclass [TraceInfo]. *)
Record TraceInfo : Type := {
  trace : Z;
  span : Z;
  action : string;
  prompts : option (list string);
  outputs : string;
  tokens : option Number;
  cost : option Number
}.

(** What the logger named "tracing" has emitted.  [Json t] is the text
    [json.dumps(t.__dict__)]; every field of a [TraceInfo] built by the
    handlers has a JSON encoding. *)
Inductive Level : Type := INFO | ERROR.

Inductive Message : Type :=
| Text (s : string)
| Json (t : TraceInfo).

Record LogRecord : Type := {
  levelname : Level;
  msg : Message;
  exc_info : option Exception
}.

(** The state the handlers act on: the module-level dict [_span_map], the
    span objects, the span that is current in the tracing context, and the
    output of the logger. *)
Record World : Type := {
  _span_map : gmap UUID SpanRef;
  spans : list Span;
  current_span : option SpanRef;
  records : list LogRecord
}.

Definition set_span_map (m : gmap UUID SpanRef) (w : World) : World :=
  {| _span_map := m; spans := spans w;
     current_span := current_span w; records := records w |}.

Definition set_spans (l : list Span) (w : World) : World :=
  {| _span_map := _span_map w; spans := l;
     current_span := current_span w; records := records w |}.

Definition set_current_span (c : option SpanRef) (w : World) : World :=
  {| _span_map := _span_map w; spans := spans w;
     current_span := c; records := records w |}.

Definition set_records (r : list LogRecord) (w : World) : World :=
  {| _span_map := _span_map w; spans := spans w;
     current_span := current_span w; records := r |}.

Local Open Scope py_scope.

(** *** Logger *)

Definition logger_info (m : Message) : Eff World unit :=
  modify (fun w => set_records
    (records w ++ [{| levelname := INFO; msg := m; exc_info := None |}]) w).

Definition logger_error (m : string) (exc : Exception) : Eff World unit :=
  modify (fun w => set_records
    (records w ++ [{| levelname := ERROR; msg := Text m; exc_info := Some exc |}]) w).

(** *** Span objects *)

Definition update_span (ref : SpanRef) (f : Span -> Span) : Eff World unit :=
  modify (fun w => set_spans (alter f ref (spans w)) w).

Definition set_attribute (ref : SpanRef) (key : string) (v : Value)
    : Eff World unit :=
  update_span ref (fun s => with_attributes s (dict_set (attributes s) key v)).

Definition add_event (ref : SpanRef) (name : string) (attrs : Value)
    : Eff World unit :=
  update_span ref (fun s => with_events s (events s ++ [(name, attrs)])).

Definition record_exception (ref : SpanRef) (exc : Exception) : Eff World unit :=
  update_span ref (fun s => with_events s (events s ++ [("exception", VNone)])).

Definition set_status_error (ref : SpanRef) : Eff World unit :=
  update_span ref with_status_error.

Definition span_end (ref : SpanRef) : Eff World unit :=
  update_span ref with_ended.

Definition get_span_context (ref : SpanRef) : Eff World SpanContext :=
  fun w => match spans w !! ref with
           | Some s => (Return (span_context s), w)
           | None => (Raise (RuntimeError "dangling span reference"), w)
           end.

(** A method call on the result of [_current_span], which is [None] for
    an unregistered run: [None] has none of the span methods. *)
Definition on_span {A} (o : option SpanRef) (method : string)
    (call : SpanRef -> Eff World A) : Eff World A :=
  match o with
  | Some ref => call ref
  | None => raise (AttributeError method)
  end.

(** [tracer.start_span]: a new span object, in the trace of the parent
    when there is one. *)
Definition start_span (tr : Tracer) (name : string)
    (parent : option SpanContext) : Eff World SpanRef :=
  fun w =>
    let n := length (spans w) in
    let tid := match parent with
               | Some p => trace_id p
               | None => generate_trace_id tr n
               end in
    (Return n,
     set_spans (spans w ++
       [{| span_name := name;
           span_context := {| trace_id := tid; span_id := generate_span_id tr n |};
           attributes := []; events := [];
           status_error := false; ended := false |}]) w).

(** [with tracer.start_as_current_span(name, context=..., end_on_exit=...)
    as span: body]: the span is current while the body runs; an exception
    of the body is recorded on the span and raised again; the span is
    ended on the way out only when [end_on_exit] is set. *)
Definition start_as_current_span {B} (tr : Tracer) (name : string)
    (parent : option SpanContext) (end_on_exit : bool)
    (body : SpanRef -> Eff World B) : Eff World B :=
  ref <- start_span tr name parent ;;
  try_finally
    (try_except
       (token <- gets current_span ;;
        modify (set_current_span (Some ref)) ;;
        try_finally (body ref) (modify (set_current_span token)))
       (fun exc =>
          record_exception ref exc ;; set_status_error ref ;; raise exc))
    (if end_on_exit then span_end ref else ret tt).

(** *** Arguments of the callbacks *)

Record Generation : Type := { text : string }.

Record LLMResult : Type := {
  generations : list (list Generation);
  llm_output : option (list (string * Value))
}.

Record AgentAction : Type := {
  tool : string;
  tool_input : Value;
  log : string
}.

(** [response.llm_output["token_usage"]]: subscripting [None] is a
    [TypeError], a missing key a [KeyError]. *)
Definition llm_output_token_usage (response : LLMResult) : Outcome Value :=
  match llm_output response with
  | None => Raise (TypeError "'NoneType' object is not subscriptable")
  | Some d =>
      match dict_get d "token_usage" with
      | Some v => Return v
      | None => Raise (KeyError "token_usage")
      end
  end.

(** [token_usage.items()]: only a dict has the method. *)
Definition dict_items (v : Value) : Outcome (list (string * Value)) :=
  match v with
  | VDict items => Return items
  | VNone | VBool _ | VInt _ | VStr _ | VList _ | VObject _ | VJson _ =>
      Raise (AttributeError "items")
  end.

(** *** TracingCallbackHandlerMixin *)

Record Handler : Type := {
  tracer : option Tracer;
  parent_span : option SpanContext;
  total_tokens : Number;
  total_cost : Number
}.

Definition _register_span (run_id : UUID) (span : SpanRef) : Eff World unit :=
  modify (fun w => set_span_map (<[run_id := span]> (_span_map w)) w).

Definition _current_span (run_id : UUID) : Eff World (option SpanRef) :=
  gets (fun w => _span_map w !! run_id).

(** [span = _span_map.pop(run_id, None)], then [span.end()] when there was
    one (a span object is always true). *)
Definition _end_span (run_id : UUID) : Eff World unit :=
  span <- gets (fun w => _span_map w !! run_id) ;;
  modify (fun w => set_span_map (delete run_id (_span_map w)) w) ;;
  match span with
  | Some ref => span_end ref
  | None => ret tt
  end.

Definition error_message : string := "Error in tracing callback handler".

Definition on_llm_start (self : Handler) (serialized : Value)
    (prompts : list string) (run_id : UUID) (parent_run_id : option UUID)
    : Eff World unit :=
  match tracer self with
  | None => ret tt
  | Some tr =>
      let operation := "langchain.llm" in
      try_except
        (start_as_current_span tr "llm" (parent_span self) false (fun span =>
           set_attribute span "otel.operation.name" (VStr operation) ;;
           let prompts_len := list_sum (map String.length prompts) in
           set_attribute span "num_processed_prompts"
             (VInt (Z.of_nat (length prompts))) ;;
           set_attribute span "prompts_len" (VInt (Z.of_nat prompts_len)) ;;
           add_event span "prompts" (VDict [("data", VList (map VStr prompts))]) ;;
           ctx <- get_span_context span ;;
           let trace_info :=
             {| trace := trace_id ctx; span := span_id ctx;
                action := "on_llm_start"; prompts := Some prompts;
                outputs := ""; tokens := None; cost := None |} in
           logger_info (Json trace_info) ;;
           _register_span run_id span))
        (fun exc => logger_error error_message exc)
  end.

Definition on_llm_end (self : Handler) (response : LLMResult) (run_id : UUID)
    : Eff World unit :=
  match tracer self with
  | None => ret tt
  | Some _ =>
      try_finally
        (try_except
           (span <- _current_span run_id ;;
            token_usage <- eval (llm_output_token_usage response) ;;
            items <- eval (dict_items token_usage) ;;
            for_each items (fun kv =>
              on_span span "set_attribute"
                (fun ref => set_attribute ref (fst kv) (snd kv))) ;;
            let texts :=
              String.concat newline
                (map (fun lst => String.concat " " (map text lst))
                     (generations response)) in
            ctx <- on_span span "get_span_context" get_span_context ;;
            let trace_info :=
              {| trace := trace_id ctx; span := span_id ctx;
                 action := "on_llm_end"; prompts := None;
                 outputs := texts;
                 tokens := if py_bool (total_tokens self)
                           then Some (py_round (total_tokens self) 3) else None;
                 cost := if py_bool (total_cost self)
                         then Some (py_round (total_cost self) 3) else None |} in
            logger_info (Json trace_info) ;;
            on_span span "add_event"
              (fun ref => add_event ref "outputs" (VDict [("data", VStr texts)])))
           (fun exc => logger_error error_message exc))
        (_end_span run_id)
  end.

Definition on_chain_start (self : Handler) (serialized : Value)
    (inputs : Value) (run_id : UUID) (parent_run_id : option UUID)
    : Eff World unit :=
  match tracer self with
  | None => ret tt
  | Some tr =>
      let operation := "langchain.chain" in
      try_except
        (start_as_current_span tr "chain" (parent_span self) false (fun span =>
           set_attribute span "otel.operation.name" (VStr operation) ;;
           data <- eval (json_dumps inputs) ;;
           add_event span "inputs" (VDict [("data", data)]) ;;
           _register_span run_id span))
        (fun exc => logger_error error_message exc)
  end.

Definition on_chain_end (self : Handler) (outputs : Value) (run_id : UUID)
    (parent_run_id : option UUID) : Eff World unit :=
  match tracer self with
  | None => ret tt
  | Some _ =>
      try_finally
        (try_except
           (span <- _current_span run_id ;;
            on_span span "add_event" (fun ref =>
              data <- eval (json_dumps outputs) ;;
              add_event ref "outputs" (VDict [("data", data)])))
           (fun exc => logger_error error_message exc))
        (_end_span run_id)
  end.

Definition on_agent_action (self : Handler) (action : AgentAction)
    (run_id : UUID) (parent_run_id : option UUID) : Eff World unit :=
  match tracer self with
  | None => ret tt
  | Some _ =>
      try_except
        (span <- _current_span run_id ;;
         on_span span "add_event" (fun ref =>
           add_event ref "agent_action"
             (VDict [("data", VStr (tool action));
                     ("tool_input", tool_input action);
                     ("log", VStr (log action))])))
        (fun exc => logger_error error_message exc)
  end.

Definition on_tool_start (self : Handler) (serialized : Value)
    (input_str : string) (run_id : UUID) (parent_run_id : option UUID)
    : Eff World unit :=
  match tracer self with
  | None => ret tt
  | Some tr =>
      let operation := "langchain.tools" in
      try_except
        (start_as_current_span tr "tool" (parent_span self) false (fun span =>
           set_attribute span "otel.operation.name" (VStr operation) ;;
           add_event span "input" (VDict [("data", VStr input_str)]) ;;
           _register_span run_id span))
        (fun exc => logger_error error_message exc)
  end.

Definition on_tool_end (self : Handler) (output : string) (run_id : UUID)
    : Eff World unit :=
  try_finally
    (try_except
       (span <- _current_span run_id ;;
        on_span span "add_event" (fun ref =>
          add_event ref "output" (VDict [("data", VStr output)])))
       (fun exc => logger_error error_message exc))
    (_end_span run_id).

(** *** The lifecycle events a callback manager delivers *)

Inductive Event : Type :=
| LlmStart (serialized : Value) (prompts : list string)
    (run_id : UUID) (parent_run_id : option UUID)
| LlmEnd (response : LLMResult) (run_id : UUID)
| ChainStart (serialized inputs : Value)
    (run_id : UUID) (parent_run_id : option UUID)
| ChainEnd (outputs : Value) (run_id : UUID) (parent_run_id : option UUID)
| AgentActionEvent (action : AgentAction)
    (run_id : UUID) (parent_run_id : option UUID)
| ToolStart (serialized : Value) (input_str : string)
    (run_id : UUID) (parent_run_id : option UUID)
| ToolEnd (output : string) (run_id : UUID).

(** [TracingCallbackHandler] adds nothing to the mixin. *)
Definition TracingCallbackHandler_handle (self : Handler) (e : Event)
    : Eff World unit :=
  match e with
  | LlmStart serialized prompts run_id parent_run_id =>
      on_llm_start self serialized prompts run_id parent_run_id
  | LlmEnd response run_id => on_llm_end self response run_id
  | ChainStart serialized inputs run_id parent_run_id =>
      on_chain_start self serialized inputs run_id parent_run_id
  | ChainEnd outputs run_id parent_run_id =>
      on_chain_end self outputs run_id parent_run_id
  | AgentActionEvent action run_id parent_run_id =>
      on_agent_action self action run_id parent_run_id
  | ToolStart serialized input_str run_id parent_run_id =>
      on_tool_start self serialized input_str run_id parent_run_id
  | ToolEnd output run_id => on_tool_end self output run_id
  end.

(** *** OpenAITracingCallbackHandler *)

(** [OpenAICallbackHandler.on_llm_end] belongs to langchain.  It reads the
    response and updates the token and cost counters of the handler; it is
    taken as given. *)
Variable OpenAICallbackHandler_on_llm_end :
  LLMResult -> Number * Number -> Outcome (Number * Number).

Definition set_counters (self : Handler) (c : Number * Number) : Handler :=
  {| tracer := tracer self; parent_span := parent_span self;
     total_tokens := fst c; total_cost := snd c |}.

(** The counters live in [self]; the method gives back the handler it
    leaves behind together with the outcome and the world. *)
Definition OpenAITracingCallbackHandler_on_llm_end (self : Handler)
    (response : LLMResult) (run_id : UUID) (w : World)
    : Outcome unit * Handler * World :=
  match OpenAICallbackHandler_on_llm_end response
          (total_tokens self, total_cost self) with
  | Raise exc => (Raise exc, self, w)
  | Return c =>
      let self' := set_counters self c in
      let (r, w') := on_llm_end self' response run_id w in
      (r, self', w')
  end.

(** *** AsyncTracingCallbackHandler *)

Definition async_on_llm_start (self : Handler) (serialized : Value)
    (prompts : list string) (run_id : UUID) (parent_run_id : option UUID)
    : Coroutine World unit :=
  Coro (on_llm_start self serialized prompts run_id parent_run_id).

Definition async_on_llm_end (self : Handler) (response : LLMResult)
    (run_id : UUID) : Coroutine World unit :=
  Coro (on_llm_end self response run_id).

Definition async_on_chain_start (self : Handler) (serialized inputs : Value)
    (run_id : UUID) (parent_run_id : option UUID) : Coroutine World unit :=
  Coro (on_chain_start self serialized inputs run_id parent_run_id).

Definition async_on_chain_end (self : Handler) (outputs : Value)
    (run_id : UUID) (parent_run_id : option UUID) : Coroutine World unit :=
  Coro (on_chain_end self outputs run_id parent_run_id).

Definition async_on_agent_action (self : Handler) (action : AgentAction)
    (run_id : UUID) (parent_run_id : option UUID) : Coroutine World unit :=
  Coro (on_agent_action self action run_id parent_run_id).

Definition async_on_tool_start (self : Handler) (serialized : Value)
    (input_str : string) (run_id : UUID) (parent_run_id : option UUID)
    : Coroutine World unit :=
  Coro (on_tool_start self serialized input_str run_id parent_run_id).

Definition async_on_tool_end (self : Handler) (output : string)
    (run_id : UUID) : Coroutine World unit :=
  Coro (on_tool_end self output run_id).

Definition AsyncTracingCallbackHandler_handle (self : Handler) (e : Event)
    : Coroutine World unit :=
  match e with
  | LlmStart serialized prompts run_id parent_run_id =>
      async_on_llm_start self serialized prompts run_id parent_run_id
  | LlmEnd response run_id => async_on_llm_end self response run_id
  | ChainStart serialized inputs run_id parent_run_id =>
      async_on_chain_start self serialized inputs run_id parent_run_id
  | ChainEnd outputs run_id parent_run_id =>
      async_on_chain_end self outputs run_id parent_run_id
  | AgentActionEvent action run_id parent_run_id =>
      async_on_agent_action self action run_id parent_run_id
  | ToolStart serialized input_str run_id parent_run_id =>
      async_on_tool_start self serialized input_str run_id parent_run_id
  | ToolEnd output run_id => async_on_tool_end self output run_id
  end.

(** *** Start events and their matching end events *)

(** The run identifier of a start event. *)
Definition start_run_id (e : Event) : option UUID :=
  match e with
  | LlmStart _ _ run_id _ | ChainStart _ _ run_id _ | ToolStart _ _ run_id _ =>
      Some run_id
  | LlmEnd _ _ | ChainEnd _ _ _ | AgentActionEvent _ _ _ | ToolEnd _ _ => None
  end.

(** The run identifier of an end event. *)
Definition end_run_id (e : Event) : option UUID :=
  match e with
  | LlmEnd _ run_id | ChainEnd _ run_id _ | ToolEnd _ run_id => Some run_id
  | LlmStart _ _ _ _ | ChainStart _ _ _ _ | AgentActionEvent _ _ _
  | ToolStart _ _ _ _ => None
  end.

(** [matching_end s e]: [e] is the end event of the kind of the start event
    [s]. *)
Definition matching_end (s e : Event) : bool :=
  match s, e with
  | LlmStart _ _ _ _, LlmEnd _ _
  | ChainStart _ _ _ _, ChainEnd _ _ _
  | ToolStart _ _ _ _, ToolEnd _ _ => true
  | _, _ => false
  end.

(** Whether the steps of a start handler between opening the span and
    registering it go through: the only one that can raise is
    [json.dumps(inputs)] of [on_chain_start]. *)
Definition setup_succeeds (e : Event) : bool :=
  match e with
  | ChainStart _ inputs _ _ => json_serializable inputs
  | LlmStart _ _ _ _ | LlmEnd _ _ | ChainEnd _ _ _ | AgentActionEvent _ _ _
  | ToolStart _ _ _ _ | ToolEnd _ _ => true
  end.

Definition is_tool_end (e : Event) : bool :=
  match e with
  | ToolEnd _ _ => true
  | LlmStart _ _ _ _ | LlmEnd _ _ | ChainStart _ _ _ _ | ChainEnd _ _ _
  | AgentActionEvent _ _ _ | ToolStart _ _ _ _ => false
  end.

(** *** Steps that leave the registry and the number of spans alone *)

Definition quiet (w w' : World) : Prop :=
  _span_map w' = _span_map w /\ length (spans w') = length (spans w).

Definition Quiet {A} (m : Eff World A) : Prop :=
  forall w, quiet w (snd (m w)).

(** The record an [except Exception] clause of a handler logs, and the
    world after it has been logged. *)
Definition error_record (exc : Exception) : LogRecord :=
  {| levelname := ERROR; msg := Text error_message; exc_info := Some exc |}.

Definition logged_error (exc : Exception) (w : World) : World :=
  {| _span_map := _span_map w; spans := spans w;
     current_span := current_span w;
     records := records w ++ [error_record exc] |}.

(** The world [_end_span] leaves behind. *)
Definition ended_world (run_id : UUID) (w : World) : World :=
  match _span_map w !! run_id with
  | Some ref =>
      set_spans (alter with_ended ref (spans w))
        (set_span_map (delete run_id (_span_map w)) w)
  | None => set_span_map (delete run_id (_span_map w)) w
  end.

End WithFloat.

End Tracing.

(** ** The WebSocket streaming handlers ([langchain_helper.py]) *)

Module Streaming.

Local Open Scope py_scope.

(** The connection, seen from the handler: the payloads given to
    [send_json], in the order they were sent. *)
Record WebSocket : Type := { sent : list Value }.

Definition send_json (data : Value) : Eff WebSocket unit :=
  modify (fun ws => {| sent := sent ws ++ [data] |}).

(** [output_model] is the pydantic class given by the application;
    [output_model h result error] is [h.output_model(result=..., error=...)
    .dict()], which raises [ValidationError] when the class rejects a
    field. *)
Record Handler : Type := {
  output_model : Value -> Value -> Outcome Value
}.

Definition except_ValidationError {A} (handler : Eff WebSocket A)
    (e : Exception) : option (Eff WebSocket A) :=
  match e with
  | ValidationError => Some handler
  | TypeError _ | KeyError _ | AttributeError _ | ValueError _
  | RuntimeError _ | FileNotFoundError _ | InvalidInstanceError _
  | InvalidAutoscaleMinError _ | BadParameter _ => None
  end.

(** *** AsyncStreamingWebsocketCallbackHandler *)

Definition on_llm_new_token (self : Handler) (token : string)
    : Coroutine WebSocket unit :=
  Coro (data <- try_catch
                  (eval (output_model self (VStr token) (VStr "")))
                  (except_ValidationError
                     (ret (VDict [("result", VStr token); ("error", VStr "")]))) ;;
        send_json data).

Definition on_text (self : Handler) (text : string) : Coroutine WebSocket unit :=
  Coro (data <- try_catch
                  (eval (output_model self (VStr text) (VStr "")))
                  (except_ValidationError
                     (ret (VDict [("result", VStr text); ("error", VStr "")]))) ;;
        send_json data).

(** *** StreamingWebsocketCallbackHandler *)

Definition sync_on_llm_new_token (self : Handler) (token : string)
    : Eff WebSocket unit :=
  asyncio_run (on_llm_new_token self token).

Definition sync_on_text (self : Handler) (text : string) : Eff WebSocket unit :=
  asyncio_run (on_text self text).

End Streaming.

(** ** The builtins interception scope ([langchain_helper.py]) *)

Module Builtins.

Local Open Scope py_scope.

(** What a name of the [builtins] module can be bound to. *)
Inductive Callable : Type :=
| BuiltinFunction (name : string)
| PrintWrapper (loop websocket : nat) (output_model : string)
| InputWrapper (loop websocket recv_lock : nat)
| UserFunction (name : string).

(** The process-wide bindings, and the number of [asyncio.Lock] objects
    made so far (a new lock is known by its number). *)
Record Process : Type := {
  print : Callable;
  input : Callable;
  locks : nat
}.

(** An instance of [BuiltinsWrapper]; [_print] and [_input] are unset until
    [__enter__] stores the original bindings in them. *)
Record BuiltinsWrapper : Type := {
  loop : nat;
  websocket : nat;
  output_model : string;
  _wrap_print : bool;
  _wrap_input : bool;
  _print : option Callable;
  _input : option Callable
}.

Definition __init__ (loop websocket : nat) (output_model : string)
    (wrap_print wrap_input : bool) : BuiltinsWrapper :=
  {| loop := loop; websocket := websocket; output_model := output_model;
     _wrap_print := wrap_print; _wrap_input := wrap_input;
     _print := None; _input := None |}.

Definition set_print (c : Callable) (p : Process) : Process :=
  {| print := c; input := input p; locks := locks p |}.

Definition set_input (c : Callable) (p : Process) : Process :=
  {| print := print p; input := c; locks := locks p |}.

Definition store_print (c : Callable) (self : BuiltinsWrapper) : BuiltinsWrapper :=
  {| loop := loop self; websocket := websocket self;
     output_model := output_model self;
     _wrap_print := _wrap_print self; _wrap_input := _wrap_input self;
     _print := Some c; _input := _input self |}.

Definition store_input (c : Callable) (self : BuiltinsWrapper) : BuiltinsWrapper :=
  {| loop := loop self; websocket := websocket self;
     output_model := output_model self;
     _wrap_print := _wrap_print self; _wrap_input := _wrap_input self;
     _print := _print self; _input := Some c |}.

(** The state of a scope: the wrapper object and the process. *)
Abbreviation Scope := (BuiltinsWrapper * Process)%type.

Definition asyncio_Lock : Eff Scope nat :=
  fun st => (Return (locks (snd st)),
             (fst st, {| print := print (snd st); input := input (snd st);
                         locks := S (locks (snd st)) |})).

(** Reading an attribute that was never assigned is an [AttributeError]. *)
Definition getattr (field : BuiltinsWrapper -> option Callable) (name : string)
    : Eff Scope Callable :=
  fun st => match field (fst st) with
            | Some c => (Return c, st)
            | None => (Raise (AttributeError name), st)
            end.

Definition __enter__ : Eff Scope unit :=
  wrap_print <- gets (fun st : Scope => _wrap_print (fst st)) ;;
  (if wrap_print then
     modify (fun st : Scope => (store_print (print (snd st)) (fst st), snd st)) ;;
     modify (fun st : Scope =>
       (fst st, set_print (PrintWrapper (loop (fst st)) (websocket (fst st))
                             (output_model (fst st))) (snd st)))
   else ret tt) ;;
  wrap_input <- gets (fun st : Scope => _wrap_input (fst st)) ;;
  (if wrap_input then
     modify (fun st : Scope => (store_input (input (snd st)) (fst st), snd st)) ;;
     lock <- asyncio_Lock ;;
     modify (fun st : Scope =>
       (fst st, set_input (InputWrapper (loop (fst st)) (websocket (fst st)) lock)
                  (snd st)))
   else ret tt).

(** [__exit__] has no [return]: its result is [None], which is false, so a
    pending exception goes on after it. *)
Definition __exit__ (exc : option Exception) : Eff Scope bool :=
  wrap_print <- gets (fun st : Scope => _wrap_print (fst st)) ;;
  (if wrap_print then
     original <- getattr _print "_print" ;;
     modify (fun st : Scope => (fst st, set_print original (snd st)))
   else ret tt) ;;
  wrap_input <- gets (fun st : Scope => _wrap_input (fst st)) ;;
  (if wrap_input then
     original <- getattr _input "_input" ;;
     modify (fun st : Scope => (fst st, set_input original (snd st)))
   else ret tt) ;;
  ret false.

(** [with BuiltinsWrapper(...): body].  The body is code of the application:
    it runs in the process and has no name for the wrapper object. *)
Definition with_BuiltinsWrapper {B} (body : Eff Process B)
    : Eff Scope (option B) :=
  with_stmt __enter__ __exit__ (fun _ => on_snd body).

(** [with wrapper: body] for a wrapper object that has a name ([wrapper =
    BuiltinsWrapper(...)] before the statement): the body can reach the
    object as well as the process, so it can assign to its attributes or
    enter it again. *)
Definition with_wrapper_object {B} (body : Eff Scope B) : Eff Scope (option B) :=
  with_stmt __enter__ __exit__ (fun _ => body).

(** The attributes of the wrapper object that [__exit__] reads. *)
Definition exit_attributes (self : BuiltinsWrapper)
    : bool * bool * option Callable * option Callable :=
  (_wrap_print self, _wrap_input self, _print self, _input self).

End Builtins.

(** ** The command line front end ([__main__.py]) *)

Module Cli.

Local Open Scope py_scope.

(** *** The Deployment Config and its validator *)

(** Modelled from the spec: the Deployment Config document that
    [lcserve/utils.py] (not among the sources) reads from the file: its
    instance-tier values and its autoscale-minimum values, in document
    order. *)
Record DeploymentConfig : Type := {
  instance : list string;
  autoscale_min : list Scalar
}.

(** The files the command can read, and the paths it has opened. *)
Record FileSystem : Type := {
  files : gmap string DeploymentConfig;
  opened : list string
}.

(** Modelled from the spec: the validator of [lcserve/utils.py] reads the
    document "from a file". *)
Definition load_config (path : string) : Eff FileSystem DeploymentConfig :=
  fun fs => match files fs !! path with
            | Some c => (Return c,
                         {| files := files fs; opened := opened fs ++ [path] |})
            | None => (Raise (FileNotFoundError path), fs)
            end.

Section Validator.
(** The fixed set of instance tiers the platform recognizes. *)
Variable recognized_tiers : list string.

(** Modelled from the spec: "instance tier must be one of a fixed
    enumerated set"; the test of [lcserve/utils.py] is not among the
    sources. *)
Definition recognized (tier : string) : bool :=
  bool_decide (tier ∈ recognized_tiers).

(** Modelled from the spec: "autoscale minimum must be a non-negative
    number", a "negative or non-numeric" one being invalid; part of the
    validator of [lcserve/utils.py]. *)
Definition non_negative_number (m : Scalar) : bool :=
  match m with
  | SInt z => (0 <=? z)%Z
  | SStr _ => false
  end.

(** Modelled from the spec: the instance check of the validator of
    [lcserve/utils.py], "every instance-tier value in the document is a
    recognized platform tier", raising [InvalidInstanceError] "carrying the
    offending tier name". *)
Fixpoint check_instances (tiers : list string) : Outcome unit :=
  match tiers with
  | [] => Return tt
  | tier :: rest =>
      if recognized tier then check_instances rest
      else Raise (InvalidInstanceError tier)
  end.

(** Modelled from the spec: the autoscale check of the validator of
    [lcserve/utils.py], "every autoscale-minimum value is a number >= 0",
    raising [InvalidAutoscaleMinError] "carrying the offending value". *)
Fixpoint check_autoscale_min (mins : list Scalar) : Outcome unit :=
  match mins with
  | [] => Return tt
  | m :: rest =>
      if non_negative_number m then check_autoscale_min rest
      else Raise (InvalidAutoscaleMinError m)
  end.

(** Modelled from the spec: the Config Validator [validate_jcloud_config] of
    [lcserve/utils.py], which is not among the sources.  "Checks: every
    instance-tier value in the document is a recognized platform tier; every
    autoscale-minimum value is a number >= 0.  On violation, raises a typed
    failure ([InvalidInstanceError] carrying the offending tier name;
    [InvalidAutoscaleMinError] carrying the offending value)".  The checks
    run in the order the spec lists them. *)
Definition validate_jcloud_config (config_path : string) : Eff FileSystem unit :=
  config <- load_config config_path ;;
  eval (check_instances (instance config)) ;;
  eval (check_autoscale_min (autoscale_min config)).

(** [str(x)] as an f-string formats a scalar. *)
Definition format_scalar (x : Scalar) : string :=
  match x with
  | SInt z => pretty z
  | SStr s => s
  end.

Definition docs_url : string :=
  "https://docs.jina.ai/concepts/jcloud/configuration/#cpu-tiers".

Definition except_config_errors {A} (e : Exception)
    : option (Eff FileSystem A) :=
  match e with
  | InvalidInstanceError instance =>
      Some (raise (BadParameter
        ("Invalid instance '" +:+ instance +:+
         "' found in config file', please refer to " +:+ docs_url +:+
         " for instance definition.")))
  | InvalidAutoscaleMinError min =>
      Some (raise (BadParameter
        ("Invalid instance '" +:+ format_scalar min +:+
         "' found in config file', it should be a number >= 0.")))
  | TypeError _ | KeyError _ | AttributeError _ | ValueError _
  | ValidationError | RuntimeError _ | FileNotFoundError _
  | BadParameter _ => None
  end.

(** [if not value: return None] covers both no value and the empty path. *)
Definition validate_jcloud_config_callback (ctx param : Value)
    (value : option string) : Eff FileSystem (option string) :=
  match value with
  | None => ret None
  | Some path =>
      if String.eqb path "" then ret None
      else
        try_catch (validate_jcloud_config path) except_config_errors ;;
        ret (Some path)
  end.

End Validator.

(** *** The deployment module, as the commands call it *)

Inductive ModuleRef : Type :=
| OneModule (path : string)
| ManyModules (paths : list string).

Record PushArgs : Type := {
  push_app : string;
  push_app_dir : string;
  push_requirements : option (list string);
  push_tag : string;
  push_version : string;
  push_platform : option string;
  push_verbose : bool
}.

Record FlowArgs : Type := {
  flow_module : ModuleRef;
  flow_jcloud : bool;
  flow_port : Z;
  flow_name : string;
  flow_timeout : Z;
  flow_app_id : option string;
  flow_gateway_id : string;
  flow_is_websocket : bool;
  flow_jcloud_config_path : option string
}.

(** The functions of [lcserve/flow.py] and [get_random_tag] that the
    commands use; they act on a state of their own (the registry, the
    platform, the source of randomness) and may raise.  [FlowDict] is the
    flow description [get_flow_dict] builds. *)
Record Flow (Ext FlowDict : Type) : Type := {
  get_app_dir : ModuleRef -> Eff Ext (string * string);
  resolve_jcloud_config : option string -> string -> Eff Ext (option string);
  get_random_tag : Eff Ext string;
  push_app_to_hubble : PushArgs -> Eff Ext (string * bool);
  get_flow_dict : FlowArgs -> Eff Ext FlowDict;
  deploy_app_on_jcloud :
    FlowDict -> option string -> bool -> Eff Ext (string * Value);
  get_app_status_on_jcloud : string -> Eff Ext unit;
  list_apps_on_jcloud : string -> option string -> Eff Ext unit
}.
Arguments get_app_dir {Ext FlowDict} _ _.
Arguments resolve_jcloud_config {Ext FlowDict} _ _ _.
Arguments get_random_tag {Ext FlowDict} _.
Arguments push_app_to_hubble {Ext FlowDict} _ _.
Arguments get_flow_dict {Ext FlowDict} _ _.
Arguments deploy_app_on_jcloud {Ext FlowDict} _ _ _ _.
Arguments get_app_status_on_jcloud {Ext FlowDict} _ _.
Arguments list_apps_on_jcloud {Ext FlowDict} _ _ _.

Section Commands.
Context {Ext FlowDict : Type}.
Variable flow : Flow Ext FlowDict.

(** Every call into the deployment module is observed twice: when it is
    entered, with its arguments, and when it is left, with how it ended. *)
Inductive Call : Type :=
| GetAppDir (module : ModuleRef)
| ResolveJcloudConfig (config : option string) (app_dir : string)
| GetRandomTag
| PushAppToHubble (args : PushArgs)
| GetFlowDict (args : FlowArgs)
| DeployAppOnJcloud (flow_dict : FlowDict) (app_id : option string)
    (verbose : bool)
| GetAppStatusOnJcloud (app_id : string)
| ListAppsOnJcloud (phase : string) (name : option string).

Inductive Result : Type :=
| RAppDir (app app_dir : string)
| RConfig (config : option string)
| RTag (tag : string)
| RPushed (gateway_id : string) (is_websocket : bool)
| RFlowDict (flow_dict : FlowDict)
| RDeployed (app_id : string)
| RDone.

Inductive TraceEvent : Type :=
| Enter (c : Call)
| Leave (c : Call) (r : Outcome Result).

Record Run : Type := {
  ext : Ext;
  trace : list TraceEvent
}.

Definition call {A} (c : Call) (result : A -> Result) (m : Eff Ext A)
    : Eff Run A :=
  fun run =>
    match m (ext run) with
    | (Return a, ext') =>
        (Return a,
         {| ext := ext';
            trace := trace run ++ [Enter c; Leave c (Return (result a))] |})
    | (Raise e, ext') =>
        (Raise e,
         {| ext := ext'; trace := trace run ++ [Enter c; Leave c (Raise e)] |})
    end.

(** The trace of a sequence of calls each of which is over before the next
    begins. *)
Definition completed (calls : list (Call * Outcome Result)) : list TraceEvent :=
  flat_map (fun cr => [Enter (fst cr); Leave (fst cr) (snd cr)]) calls.

(** The three stages of the remote deploy pipeline. *)
Inductive Stage : Type := Push | Submit | Poll.

Definition stage_of (c : Call) : option Stage :=
  match c with
  | PushAppToHubble _ => Some Push
  | DeployAppOnJcloud _ _ _ => Some Submit
  | GetAppStatusOnJcloud _ => Some Poll
  | GetAppDir _ | ResolveJcloudConfig _ _ | GetRandomTag | GetFlowDict _
  | ListAppsOnJcloud _ _ => None
  end.

Definition stages (calls : list (Call * Outcome Result)) : list Stage :=
  omap (fun cr => stage_of (fst cr)) calls.

Definition serve_on_jcloud (module : ModuleRef) (name : string)
    (requirements : option (list string)) (app_id : option string)
    (version : string) (timeout : Z) (platform : option string)
    (config : option string) (verbose : bool) : Coroutine Run string :=
  Coro (
    located <- call (GetAppDir module) (fun r => RAppDir (fst r) (snd r))
                 (get_app_dir flow module) ;;
    let app := fst located in
    let app_dir := snd located in
    config <- call (ResolveJcloudConfig config app_dir) RConfig
                (resolve_jcloud_config flow config app_dir) ;;
    tag <- call GetRandomTag RTag (get_random_tag flow) ;;
    let push_args :=
      {| push_app := app; push_app_dir := app_dir;
         push_requirements := requirements; push_tag := tag;
         push_version := version; push_platform := platform;
         push_verbose := verbose |} in
    pushed <- call (PushAppToHubble push_args)
                (fun r => RPushed (fst r) (snd r))
                (push_app_to_hubble flow push_args) ;;
    let gateway_id_wo_tag := fst pushed in
    let is_websocket := snd pushed in
    let flow_args :=
      {| flow_module := module; flow_jcloud := true; flow_port := 8080;
         flow_name := name; flow_timeout := timeout; flow_app_id := app_id;
         flow_gateway_id := gateway_id_wo_tag +:+ ":" +:+ tag;
         flow_is_websocket := is_websocket;
         flow_jcloud_config_path := config |} in
    flow_dict <- call (GetFlowDict flow_args) RFlowDict
                   (get_flow_dict flow flow_args) ;;
    deployed <- call (DeployAppOnJcloud flow_dict app_id verbose)
                  (fun r => RDeployed (fst r))
                  (deploy_app_on_jcloud flow flow_dict app_id verbose) ;;
    let app_id := fst deployed in
    call (GetAppStatusOnJcloud app_id) (fun _ => RDone)
      (get_app_status_on_jcloud flow app_id) ;;
    ret app_id).

(** *** The [list] command *)

(** Modelled from the spec: the members of [jcloud.constants.Phase] that the
    command names, "Serving, Failed, Starting, Updating, Paused"; each is a
    [str] whose value is its name. *)
Inductive Phase : Type := Serving | Failed | Starting | Updating | Paused.

Definition Phase_value (p : Phase) : string :=
  match p with
  | Serving => "Serving"
  | Failed => "Failed"
  | Starting => "Starting"
  | Updating => "Updating"
  | Paused => "Paused"
  end.

(** The default of the [--phase] option. *)
Definition phase_default : string :=
  String.concat "," (map Phase_value [Serving; Failed; Starting; Updating; Paused]).

(** click gives an option that is left out of the command line its
    default. *)
Definition click_option {A} (default : A) (given : option A) : A :=
  match given with
  | Some v => v
  | None => default
  end.

(** Modelled from the spec: the decorator [syncify] of [lcserve/flow.py],
    which "adapts an asynchronous operation so it can be invoked
    synchronously from the command layer, running it to completion on a
    dedicated event loop and propagating its result or failure". *)
Definition syncify {A} (c : Coroutine Run A) : Eff Run A := asyncio_run c.

(** The command function [list] of the source; the name [list] is taken. *)
Definition list_ (phase : string) (name : option string) : Coroutine Run unit :=
  Coro (call (ListAppsOnJcloud phase name) (fun _ => RDone)
          (list_apps_on_jcloud flow phase name)).

(** [lc-serve list [--phase ...] [--name ...]]; the default of [--name] is
    [None]. *)
Definition invoke_list (phase name : option string) : Eff Run unit :=
  syncify (list_ (click_option phase_default phase) name).

End Commands.

End Cli.

(** ** Concrete handlers, worlds and events *)

Module Samples.

Import Tracing.

(** Counters that only ever hold ints need no [float] value at all. *)
Definition int_counters : Float :=
  {| float := Empty_set;
     float_round := fun x _ => x;
     float_bool := fun x => match x with end |}.

Definition sample_tracer : Tracer :=
  {| generate_trace_id := fun n => (1000 + Z.of_nat n)%Z;
     generate_span_id := fun n => Z.of_nat n |}.

Definition traced : @Handler int_counters :=
  {| tracer := Some sample_tracer; parent_span := None;
     total_tokens := NInt 0; total_cost := NInt 0 |}.

Definition untraced : @Handler int_counters :=
  {| tracer := None; parent_span := None;
     total_tokens := NInt 0; total_cost := NInt 0 |}.

Definition empty_world : @World int_counters :=
  {| _span_map := ∅; spans := []; current_span := None; records := [] |}.

Definition open_span : Span :=
  {| span_name := "tool";
     span_context := {| trace_id := 1000; span_id := 0 |};
     attributes := []; events := [];
     status_error := false; ended := false |}.

(** A world in which run 7 already has a registered span. *)
Definition world_with_run_7 : @World int_counters :=
  {| _span_map := {[ 7%N := 0 ]}; spans := [open_span];
     current_span := None; records := [] |}.

(** Chain inputs holding an object that [json] cannot encode. *)
Definition inputs_with_document : Value :=
  VDict [("question", VStr "why"); ("context", VObject "Document")].

(** A model response that reports [total_tokens] tokens. *)
Definition response_reporting (total : Z) : LLMResult :=
  {| generations := [[ {| text := "Hello" |} ]];
     llm_output := Some [("token_usage", VDict [("total_tokens", VInt total)])] |}.

(** A model response without usage information. *)
Definition response_without_usage : LLMResult :=
  {| generations := [[ {| text := "Hello" |} ]]; llm_output := None |}.

(** Token accounting in the manner of langchain's [OpenAICallbackHandler]:
    the reported [total_tokens] is added to the token counter. *)
Definition add_total_tokens (response : LLMResult)
    (c : @Number int_counters * @Number int_counters)
    : Outcome (@Number int_counters * @Number int_counters) :=
  match llm_output response with
  | Some d =>
      match dict_get d "token_usage" with
      | Some (VDict usage) =>
          match dict_get usage "total_tokens", fst c with
          | Some (VInt n), NInt t => Return (NInt (t + n), snd c)
          | _, _ => Return c
          end
      | _ => Return c
      end
  | None => Return c
  end.

(** An output model whose [result] field has to be an int. *)
Definition int_result_model : Streaming.Handler :=
  {| Streaming.output_model := fun result error =>
       match result with
       | VInt _ => Return (VDict [("result", result); ("error", error)])
       | VNone | VBool _ | VStr _ | VList _ | VDict _ | VObject _ | VJson _ =>
           Raise ValidationError
       end |}.

(** A platform with three tiers, and a config file that asks for a
    fourth. *)
Definition three_tiers : list string := ["C1"; "C2"; "C3"].

Definition config_with_C9 : Cli.DeploymentConfig :=
  {| Cli.instance := ["C9"]; Cli.autoscale_min := [SInt 1] |}.

Definition disk : Cli.FileSystem :=
  {| Cli.files := {[ "jcloud.yml" := config_with_C9 ]}; Cli.opened := [] |}.

(** A deployment module that always succeeds; its state counts the calls
    made, and its flow description is the arguments it was built from. *)
Definition sample_flow : Cli.Flow nat Cli.FlowArgs :=
  {| Cli.get_app_dir := fun _ n => (Return ("app", "/work"), S n);
     Cli.resolve_jcloud_config := fun config _ n => (Return config, S n);
     Cli.get_random_tag := fun n => (Return "t1", S n);
     Cli.push_app_to_hubble := fun _ n => (Return ("gw", true), S n);
     Cli.get_flow_dict := fun args n => (Return args, S n);
     Cli.deploy_app_on_jcloud := fun _ _ _ n => (Return ("app-1", VNone), S n);
     Cli.get_app_status_on_jcloud := fun _ n => (Return tt, S n);
     Cli.list_apps_on_jcloud := fun _ _ n => (Return tt, S n) |}.

(** The same module with a registry that refuses the push. *)
Definition failing_push_flow : Cli.Flow nat Cli.FlowArgs :=
  {| Cli.get_app_dir := Cli.get_app_dir sample_flow;
     Cli.resolve_jcloud_config := Cli.resolve_jcloud_config sample_flow;
     Cli.get_random_tag := Cli.get_random_tag sample_flow;
     Cli.push_app_to_hubble := fun _ n => (Raise (RuntimeError "push failed"), S n);
     Cli.get_flow_dict := Cli.get_flow_dict sample_flow;
     Cli.deploy_app_on_jcloud := Cli.deploy_app_on_jcloud sample_flow;
     Cli.get_app_status_on_jcloud := Cli.get_app_status_on_jcloud sample_flow;
     Cli.list_apps_on_jcloud := Cli.list_apps_on_jcloud sample_flow |}.

Definition fresh_run : @Cli.Run nat Cli.FlowArgs :=
  {| Cli.ext := 0; Cli.trace := [] |}.

End Samples.

(** ** Further parts of [langchain_helper.py] *)

(** *** The logger of the tracing handlers *)

Module Logging.

Local Open Scope py_scope.

(** The levels of the [logging] module. *)
Inductive LogLevel : Type := NOTSET | DEBUG | INFO | WARNING | ERROR | CRITICAL.

(** A handler of a logger: where it writes and the format string of its
    formatter, if it has one. *)
Record LogHandler : Type := {
  stream : string;
  formatter : option string
}.

Record Logger : Type := {
  level : LogLevel;
  propagate : bool;
  handlers : list LogHandler
}.

(** The loggers of the process, by name. *)
Abbreviation Loggers := (gmap string Logger).

(** [logging.getLogger(name)]: the logger of that name, made on first use
    with no level, propagation on and no handlers. *)
Definition new_logger : Logger :=
  {| level := NOTSET; propagate := true; handlers := [] |}.

Definition getLogger (name : string) : Eff Loggers Logger :=
  fun ls => match ls !! name with
            | Some l => (Return l, ls)
            | None => (Return new_logger, <[name := new_logger]> ls)
            end.

(** Assignments to the logger object behind a name. *)
Definition update_logger (name : string) (f : Logger -> Logger)
    : Eff Loggers unit :=
  modify (fun ls => alter f name ls).

Definition setLevel (name : string) (lvl : LogLevel) : Eff Loggers unit :=
  update_logger name (fun l =>
    {| level := lvl; propagate := propagate l; handlers := handlers l |}).

Definition set_propagate (name : string) (b : bool) : Eff Loggers unit :=
  update_logger name (fun l =>
    {| level := level l; propagate := b; handlers := handlers l |}).

(** [logger.addHandler(h)] for a handler object that was just made, which
    is in no list of handlers yet. *)
Definition addHandler (name : string) (h : LogHandler) : Eff Loggers unit :=
  update_logger name (fun l =>
    {| level := level l; propagate := propagate l;
       handlers := handlers l ++ [h] |}).

(** [logger.handlers], read again after the assignments. *)
Definition get_handlers (name : string) : Eff Loggers (list LogHandler) :=
  gets (fun ls => match ls !! name with
                  | Some l => handlers l
                  | None => []
                  end).

Definition get_tracing_logger : Eff Loggers string :=
  let name := "tracing" in
  getLogger name ;;
  setLevel name INFO ;;
  set_propagate name false ;;
  hs <- get_handlers name ;;
  (match hs with
   | [] =>
       let formatter := "%(name)s: %(message)s" in
       let handler := {| stream := "stderr"; formatter := Some formatter |} in
       addHandler name handler
   | _ :: _ => ret tt
   end) ;;
  ret name.

(** The logger [get_tracing_logger] leaves behind for a logger it found
    (or made): level and propagation set, and the stream handler added only
    to a logger that had no handler. *)
Definition tracing_handler : LogHandler :=
  {| stream := "stderr"; formatter := Some "%(name)s: %(message)s" |}.

Definition configured (l : Logger) : Logger :=
  {| level := INFO; propagate := false;
     handlers := match handlers l with
                 | [] => [tracing_handler]
                 | h :: hs => h :: hs
                 end |}.

End Logging.

(** *** Handlers as [__init__] makes them, and what handler steps keep *)

Module TracingSupport.

Import Tracing.

Section WithFloat.
Context `{Float}.

(** [TracingCallbackHandlerMixin.__init__]: both counters start at the int
    0.  The logger it fetches is the one whose output is [records]. *)
Definition __init__ (tracer : option Tracer) (parent_span : option SpanContext)
    : Handler :=
  {| tracer := tracer; parent_span := parent_span;
     total_tokens := NInt 0; total_cost := NInt 0 |}.

(** A computation keeps a relation between the world before and after. *)
Definition Keeps (R : World -> World -> Prop) {A} (m : Eff World A) : Prop :=
  forall w, R w (snd (m w)).

(** Nothing was logged. *)
Definition same_records (w w' : World) : Prop := records w' = records w.

(** The registry is as before and no span but the given one was touched. *)
Definition only_span (o : option SpanRef) (w w' : World) : Prop :=
  _span_map w' = _span_map w
  /\ current_span w' = current_span w
  /\ forall i, o <> Some i -> spans w' !! i = spans w !! i.

Definition info_record (t : TraceInfo) : LogRecord :=
  {| levelname := INFO; msg := Json t; exc_info := None |}.

(** The computation logs nothing, or it logs one Trace Info record that
    satisfies [P] and then returns. *)
Definition LogsAtMost (P : TraceInfo -> Prop) {A} (m : Eff World A) : Prop :=
  forall w,
    records (snd (m w)) = records w
    \/ exists t, P t
         /\ records (snd (m w)) = records w ++ [info_record t]
         /\ exists a, fst (m w) = Return a.

(** Events of the model calls, the only ones whose handlers build a
    [TraceInfo]. *)
Definition is_llm_event (e : Event) : bool :=
  match e with
  | LlmStart _ _ _ _ | LlmEnd _ _ => true
  | ChainStart _ _ _ _ | ChainEnd _ _ _ | AgentActionEvent _ _ _
  | ToolStart _ _ _ _ | ToolEnd _ _ => false
  end.

(** What the Trace Info record of an event says: only the model events have
    one, and the token count and the cost are those of the handler. *)
Definition describes (self : Handler) (e : Event) (t : TraceInfo) : Prop :=
  match e with
  | LlmStart _ ps _ _ =>
      action t = "on_llm_start" /\ prompts t = Some ps
      /\ tokens t = None /\ cost t = None
  | LlmEnd _ _ =>
      action t = "on_llm_end" /\ prompts t = None
      /\ tokens t = (if py_bool (total_tokens self)
                     then Some (py_round (total_tokens self) 3) else None)
      /\ cost t = (if py_bool (total_cost self)
                   then Some (py_round (total_cost self) 3) else None)
  | ChainStart _ _ _ _ | ChainEnd _ _ _ | AgentActionEvent _ _ _
  | ToolStart _ _ _ _ | ToolEnd _ _ => False
  end.

End WithFloat.

End TracingSupport.

(** *** [PrintWrapper] *)

Module Wrappers.

Import Streaming.

Local Open Scope py_scope.

Section WithJsonText.
(** The text [json.dumps] yields for a value. *)
Variable json_text : Value -> string.

(** The [str] behind a value, if it is one. *)
Definition as_str (v : Value) : option string :=
  match v with
  | VStr s => Some s
  | VJson x => Some (json_text x)
  | VNone | VBool _ | VInt _ | VList _ | VDict _ | VObject _ => None
  end.

Fixpoint as_strs (parts : list Value) : option (list string) :=
  match parts with
  | [] => Some []
  | v :: rest =>
      match as_str v, as_strs rest with
      | Some s, Some ss => Some (s :: ss)
      | _, _ => None
      end
  end.

(** [sep.join(parts)]: a part that is not a [str] is a [TypeError]. *)
Definition str_join (sep : string) (parts : list Value) : Outcome string :=
  match as_strs parts with
  | Some ss => Return (String.concat sep ss)
  | None => Raise (TypeError "sequence item: expected str instance")
  end.

(** [output_model p result error stdout] is
    [p.output_model(result=..., error=..., stdout=...).dict()]. *)
Record PrintWrapper : Type := {
  output_model : Value -> Value -> Value -> Outcome Value
}.

(** [PrintWrapper.__acall__], given the positional and the keyword
    arguments of the call of [print]. *)
Definition __acall__ (self : PrintWrapper) (args : list Value)
    (kwds : list (string * Value)) : Coroutine WebSocket unit :=
  Coro (stdout <- eval (str_join " " args) ;;
        data <- eval (output_model self (VStr "") (VStr "") (VStr stdout)) ;;
        send_json data).

End WithJsonText.

End Wrappers.

(** *** Scopes of [BuiltinsWrapper] as statements of the process *)

Module Scopes.

Import Builtins.

(** [with self: body], for a wrapper object that nothing else refers to. *)
Definition scope {B} (self : BuiltinsWrapper) (body : Eff Process B)
    : Eff Process (option B) :=
  fun p => match with_BuiltinsWrapper body (self, p) with
           | (r, (_, p')) => (r, p')
           end.

(** [with self: with self: body], the same wrapper object entered twice. *)
Definition reentered {B} (body : Eff Process B) : Eff Scope (option (option B)) :=
  with_stmt __enter__ __exit__ (fun _ => with_BuiltinsWrapper body).

End Scopes.

(** ** Further parts of [__main__.py] *)

Module Apps.

Import Cli.

Local Open Scope py_scope.

(** [os.path.join] on POSIX paths. *)
Definition starts_with_slash (s : string) : bool :=
  match s with
  | String c _ => Ascii.eqb c "/"%char
  | EmptyString => false
  end.

Fixpoint ends_with_slash (s : string) : bool :=
  match s with
  | EmptyString => false
  | String c EmptyString => Ascii.eqb c "/"%char
  | String _ rest => ends_with_slash rest
  end.

Definition path_join2 (path b : string) : string :=
  if starts_with_slash b then b
  else if String.eqb path "" || ends_with_slash path then path +:+ b
  else path +:+ "/" +:+ b.

Definition os_path_join (a : string) (p : list string) : string :=
  fold_left path_join2 p a.

(** [requirements or []]. *)
Definition or_empty (requirements : option (list string)) : list string :=
  match requirements with
  | Some (r :: rest) => r :: rest
  | Some [] | None => []
  end.

(** [add_jcloud_shared_options]: the decorators of the list are applied to
    the function from the last to the first. *)
Definition add_jcloud_shared_options {F} (jcloud_shared_options : list (F -> F))
    (func : F) : F :=
  fold_left (fun f option => option f) (rev jcloud_shared_options) func.

Section Bundled.
Context {Ext FlowDict : Type}.
Variable flow : Flow Ext FlowDict.
(** [update_requirements] of [lcserve/flow.py] and the directory of the
    package, [os.path.dirname(__file__)]. *)
Variable update_requirements : string -> list string -> Eff Ext unit.
Variable package_dir : string.

(** The calls of a bundled deploy: those of the pipeline, and the update of
    the requirements file. *)
Inductive AppEvent : Type :=
| Pipeline (e : @TraceEvent FlowDict)
| EnterUpdateRequirements (path : string) (requirements : list string)
| LeaveUpdateRequirements (r : Outcome unit).

Record Session : Type := {
  session_ext : Ext;
  session_trace : list AppEvent
}.

(** A computation of the pipeline, run inside a session. *)
Definition in_session {A} (m : Eff (@Run Ext FlowDict) A) : Eff Session A :=
  fun s =>
    match m {| ext := session_ext s; trace := [] |} with
    | (r, run) =>
        (r, {| session_ext := ext run;
               session_trace := session_trace s ++ map Pipeline (trace run) |})
    end.

Definition call_update_requirements (path : string) (requirements : list string)
    : Eff Session unit :=
  fun s =>
    match update_requirements path requirements (session_ext s) with
    | (r, ext') =>
        (r, {| session_ext := ext';
               session_trace := session_trace s ++
                 [EnterUpdateRequirements path requirements;
                  LeaveUpdateRequirements r] |})
    end.

Definition serve_babyagi_on_jcloud (name : string)
    (requirements : option (list string)) (app_id : option string)
    (version : string) (timeout : Z) (platform : option string)
    (config : option string) (verbose : bool) : Coroutine Session unit :=
  Coro (
    let requirements := or_empty requirements in
    call_update_requirements
      (os_path_join package_dir ["apps"; "babyagi"; "requirements.txt"])
      requirements ;;
    in_session (await (serve_on_jcloud flow
      (OneModule "lcserve.apps.babyagi.app") name (Some requirements) app_id
      version timeout platform config verbose)) ;;
    ret tt).

Definition serve_autogpt_on_jcloud (name : string)
    (requirements : option (list string)) (app_id : option string)
    (version : string) (timeout : Z) (platform : option string)
    (config : option string) (verbose : bool) : Coroutine Session unit :=
  Coro (
    let requirements := or_empty requirements in
    call_update_requirements
      (os_path_join package_dir ["apps"; "autogpt"; "requirements.txt"])
      requirements ;;
    in_session (await (serve_on_jcloud flow
      (OneModule "lcserve.apps.autogpt.app") name (Some requirements) app_id
      version timeout platform config verbose)) ;;
    ret tt).

Definition serve_pdf_qna_on_jcloud (name : string) (app_id : option string)
    (version : string) (timeout : Z) (platform : option string)
    (config : option string) (verbose : bool) : Coroutine Session unit :=
  Coro (
    in_session (await (serve_on_jcloud flow
      (OneModule "lcserve.apps.pdf_qna.app") name None app_id
      version timeout platform config verbose)) ;;
    ret tt).

Definition serve_pandas_ai_on_jcloud (name : string) (app_id : option string)
    (version : string) (timeout : Z) (platform : option string)
    (config : option string) (verbose : bool) : Coroutine Session unit :=
  Coro (
    in_session (await (serve_on_jcloud flow
      (OneModule "lcserve.apps.pandas_ai.api") name None app_id
      version timeout platform config verbose)) ;;
    ret tt).

(** What it is for a bundled deploy [serve], run from the session [s], to
    update the requirements file at [path] with [reqs] before it deploys
    [module]: the update is the first call; when it raises, its exception is
    the outcome and no call of the pipeline is made; when it returns, the
    pipeline runs for [module] with [reqs] from the state the update left,
    and its app id is dropped. *)
Definition updates_requirements_first (serve : Coroutine Session unit)
    (path : string) (reqs : list string) (module : ModuleRef) (name : string)
    (app_id : option string) (version : string) (timeout : Z)
    (platform config : option string) (verbose : bool) (s : Session) : Prop :=
  let updated := update_requirements path reqs (session_ext s) in
  let piped :=
    await (serve_on_jcloud flow module name (Some reqs) app_id version timeout
             platform config verbose)
      {| ext := snd updated; trace := [] |} in
  match fst updated with
  | Raise e =>
      await serve s =
        (Raise e,
         {| session_ext := snd updated;
            session_trace := session_trace s ++
              [EnterUpdateRequirements path reqs;
               LeaveUpdateRequirements (Raise e)] |})
  | Return u =>
      await serve s =
        (match fst piped with
         | Return _ => Return tt
         | Raise e => Raise e
         end,
         {| session_ext := ext (snd piped);
            session_trace := session_trace s ++
              [EnterUpdateRequirements path reqs;
               LeaveUpdateRequirements (Return u)] ++
              map Pipeline (trace (snd piped)) |})
  end.

(** The pipeline events of a session, in order. *)
Definition pipeline_events (events : list AppEvent) : list (@TraceEvent FlowDict) :=
  omap (fun e => match e with
                 | Pipeline t => Some t
                 | EnterUpdateRequirements _ _ | LeaveUpdateRequirements _ => None
                 end) events.

End Bundled.

End Apps.

(** ** More concrete values *)

Module MoreSamples.

(** An output model that takes every field as it comes. *)
Definition echo_model : Wrappers.PrintWrapper :=
  {| Wrappers.output_model := fun result error stdout =>
       Return (VDict [("result", result); ("error", error);
                      ("stdout", stdout)]) |}.

(** A stand-in for the text of JSON encodings, which no example prints. *)
Definition no_json_text (v : Value) : string := "".

(** A process with the bindings Python starts with. *)
Definition python_process : Builtins.Process :=
  {| Builtins.print := Builtins.BuiltinFunction "print";
     Builtins.input := Builtins.BuiltinFunction "input";
     Builtins.locks := 0 |}.

(** A wrapper object as [BuiltinsWrapper(loop, websocket, output_model)]
    makes it, and the same object after an earlier scope of it has been
    left: what that scope saved is still in [_print] and [_input]. *)
Definition new_wrapper : Builtins.BuiltinsWrapper :=
  Builtins.__init__ 1 2 "Output" true true.

Definition used_wrapper : Builtins.BuiltinsWrapper :=
  Builtins.store_input (Builtins.UserFunction "earlier_input")
    (Builtins.store_print (Builtins.UserFunction "earlier_print") new_wrapper).

(** A body that rebinds [print] itself and then fails. *)
Definition rebind_and_fail : Eff Builtins.Process unit :=
  fun p => (Raise (ValueError "boom"),
            Builtins.set_print (Builtins.UserFunction "mine") p).

(** Chain outputs. *)
Definition answer : Value := VDict [("text", VStr "42")].

End MoreSamples.

(** * Properties *)

(** ** The tracing handlers *)

Module TracingFacts.

Import Tracing.

Section Facts.
Context `{Float}.

(** *** The store of spans *)

Lemma alter_last {A} (f : A -> A) (l : list A) (x : A) :
  alter f (length l) (l ++ [x]) = l ++ [f x].
Proof.
  induction l as [|y l IH]; simpl; [reflexivity|].
  f_equal. exact IH.
Qed.

Lemma lookup_last {A} (l : list A) (x : A) : (l ++ [x]) !! length l = Some x.
Proof.
  induction l as [|y l IH]; simpl; [reflexivity|exact IH].
Qed.

(** *** Start handlers *)

Lemma on_llm_start_registers self tr serialized prompts run_id parent w :
  tracer self = Some tr ->
  exists s1 r1,
    on_llm_start self serialized prompts run_id parent w =
      (Return tt,
       {| _span_map := <[run_id := length (spans w)]> (_span_map w);
          spans := spans w ++ [s1];
          current_span := current_span w;
          records := records w ++ [r1] |})
    /\ ended s1 = false.
Proof.
  intros Ht. unfold on_llm_start. rewrite Ht.
  cbv [try_except try_catch start_as_current_span bind start_span try_finally
       gets modify set_attribute add_event update_span _register_span ret
       get_span_context logger_info].
  cbn. rewrite !alter_last, lookup_last. cbn.
  eexists _, _. split; [reflexivity|reflexivity].
Qed.

Lemma on_chain_start_registers self tr serialized inputs run_id parent w :
  tracer self = Some tr ->
  json_serializable inputs = true ->
  exists s1,
    on_chain_start self serialized inputs run_id parent w =
      (Return tt,
       {| _span_map := <[run_id := length (spans w)]> (_span_map w);
          spans := spans w ++ [s1];
          current_span := current_span w;
          records := records w |})
    /\ ended s1 = false.
Proof.
  intros Ht Hj. unfold on_chain_start. rewrite Ht.
  cbv [try_except try_catch start_as_current_span bind start_span try_finally
       gets modify set_attribute add_event update_span _register_span ret
       eval json_dumps].
  rewrite Hj. cbn. rewrite !alter_last.
  eexists. split; [reflexivity|reflexivity].
Qed.

Lemma on_tool_start_registers self tr serialized input_str run_id parent w :
  tracer self = Some tr ->
  exists s1,
    on_tool_start self serialized input_str run_id parent w =
      (Return tt,
       {| _span_map := <[run_id := length (spans w)]> (_span_map w);
          spans := spans w ++ [s1];
          current_span := current_span w;
          records := records w |})
    /\ ended s1 = false.
Proof.
  intros Ht. unfold on_tool_start. rewrite Ht.
  cbv [try_except try_catch start_as_current_span bind start_span try_finally
       gets modify set_attribute add_event update_span _register_span ret].
  cbn. rewrite !alter_last.
  eexists. split; [reflexivity|reflexivity].
Qed.

(** *** Steps that leave the registry alone *)

Lemma quiet_refl w : quiet w w.
Proof. split; reflexivity. Qed.

Lemma quiet_trans w1 w2 w3 : quiet w1 w2 -> quiet w2 w3 -> quiet w1 w3.
Proof. intros [A1 B1] [A2 B2]. split; congruence. Qed.

Lemma Quiet_ret {A} (a : A) : Quiet (ret a).
Proof. intros w. apply quiet_refl. Qed.

Lemma Quiet_raise {A} e : Quiet (@raise World A e).
Proof. intros w. apply quiet_refl. Qed.

Lemma Quiet_eval {A} (o : Outcome A) : Quiet (eval o).
Proof. intros w. apply quiet_refl. Qed.

Lemma Quiet_gets {A} (f : World -> A) : Quiet (gets f).
Proof. intros w. apply quiet_refl. Qed.

Lemma Quiet_bind {A B} (m : Eff World A) (k : A -> Eff World B) :
  Quiet m -> (forall a, Quiet (k a)) -> Quiet (bind m k).
Proof.
  intros Hm Hk w. unfold bind. specialize (Hm w).
  destruct (m w) as [[a|e] w1]; simpl in *; [|exact Hm].
  eapply quiet_trans; [exact Hm|apply Hk].
Qed.

Lemma Quiet_try_except {A} (body : Eff World A) handler :
  Quiet body -> (forall e, Quiet (handler e)) -> Quiet (try_except body handler).
Proof.
  intros Hb Hh w. unfold try_except, try_catch. specialize (Hb w).
  destruct (body w) as [[a|e] w1]; simpl in *; [exact Hb|].
  eapply quiet_trans; [exact Hb|apply Hh].
Qed.

Lemma Quiet_for_each {A} (xs : list A) (body : A -> Eff World unit) :
  (forall x, Quiet (body x)) -> Quiet (for_each xs body).
Proof.
  intros Hb. induction xs as [|x xs IH]; simpl.
  - apply Quiet_ret.
  - apply Quiet_bind; [apply Hb|intros _; exact IH].
Qed.

Lemma Quiet_update_span ref f : Quiet (update_span ref f).
Proof.
  intros w. split; simpl; [reflexivity|apply length_alter].
Qed.

Lemma Quiet_set_attribute ref k v : Quiet (set_attribute ref k v).
Proof. apply Quiet_update_span. Qed.

Lemma Quiet_add_event ref name attrs : Quiet (add_event ref name attrs).
Proof. apply Quiet_update_span. Qed.

Lemma Quiet_logger_info m : Quiet (logger_info m).
Proof. intros w. split; reflexivity. Qed.

Lemma Quiet_logger_error m e : Quiet (logger_error m e).
Proof. intros w. split; reflexivity. Qed.

Lemma Quiet_get_span_context ref : Quiet (get_span_context ref).
Proof.
  intros w. unfold get_span_context.
  destruct (spans w !! ref); apply quiet_refl.
Qed.

Lemma Quiet_current_span run_id : Quiet (_current_span run_id).
Proof. apply Quiet_gets. Qed.

Lemma Quiet_on_span {A} o method (call : SpanRef -> Eff World A) :
  (forall ref, Quiet (call ref)) -> Quiet (on_span o method call).
Proof.
  intros Hc. destruct o; simpl; [apply Hc|apply Quiet_raise].
Qed.

Create HintDb quiet.
#[local] Hint Resolve Quiet_ret Quiet_raise Quiet_eval Quiet_gets
  Quiet_set_attribute Quiet_add_event Quiet_logger_info Quiet_logger_error
  Quiet_get_span_context Quiet_current_span : quiet.

Ltac quiet_steps :=
  repeat first
    [ apply Quiet_bind; [|intros ?]
    | apply Quiet_for_each; intros ?
    | apply Quiet_on_span; intros ?
    | solve [auto with quiet] ].

(** *** End handlers *)

Lemma end_span_runs run_id w :
  _end_span run_id w = (Return tt, ended_world run_id w).
Proof.
  unfold _end_span, ended_world, bind, gets, modify. simpl.
  destruct (_span_map w !! run_id); reflexivity.
Qed.

Lemma ended_world_map run_id w :
  _span_map (ended_world run_id w) = delete run_id (_span_map w).
Proof. unfold ended_world. destruct (_span_map w !! run_id); reflexivity. Qed.

Lemma ended_world_length run_id w :
  length (spans (ended_world run_id w)) = length (spans w).
Proof.
  unfold ended_world. destruct (_span_map w !! run_id); simpl;
    [apply length_alter|reflexivity].
Qed.

Lemma ended_world_closed run_id w ref :
  _span_map w !! run_id = Some ref ->
  ref < length (spans w) ->
  exists s, spans (ended_world run_id w) !! ref = Some s /\ ended s = true.
Proof.
  intros Hreg Hlt. unfold ended_world. rewrite Hreg. simpl.
  rewrite list_lookup_alter_eq.
  destruct (lookup_lt_is_Some_2 (spans w) ref Hlt) as [s Hs].
  rewrite Hs. simpl. eexists. split; reflexivity.
Qed.

(** The shape shared by the three end handlers: whatever the attribute
    steps do, the handler returns and the registry entry is gone. *)
Lemma guarded_end (body : Eff World unit) run_id w :
  Quiet body ->
  exists w2,
    try_finally (try_except body (logger_error error_message))
      (_end_span run_id) w = (Return tt, w2)
    /\ _span_map w2 = delete run_id (_span_map w)
    /\ length (spans w2) = length (spans w)
    /\ (forall ref, _span_map w !! run_id = Some ref ->
          ref < length (spans w) ->
          exists s, spans w2 !! ref = Some s /\ ended s = true).
Proof.
  intros HQ.
  assert (Hq : quiet w (snd (try_except body (logger_error error_message) w))).
  { apply Quiet_try_except; [exact HQ|intros e; apply Quiet_logger_error]. }
  assert (Hr : fst (try_except body (logger_error error_message) w) = Return tt).
  { unfold try_except, try_catch.
    destruct (body w) as [[[]|e] w1]; reflexivity. }
  unfold try_finally.
  destruct (try_except body (logger_error error_message) w) as [r w1].
  simpl in Hq, Hr. subst r. destruct Hq as [Hmap Hlen].
  rewrite end_span_runs. eexists. split; [reflexivity|].
  rewrite ended_world_map, ended_world_length, Hmap, Hlen.
  split; [reflexivity|]. split; [reflexivity|].
  intros ref Hreg Hlt. apply ended_world_closed; [rewrite Hmap|rewrite Hlen]; assumption.
Qed.

Lemma end_removes self e run_id w :
  end_run_id e = Some run_id ->
  is_Some (tracer self) \/ is_tool_end e = true ->
  exists w2,
    TracingCallbackHandler_handle self e w = (Return tt, w2)
    /\ _span_map w2 = delete run_id (_span_map w)
    /\ length (spans w2) = length (spans w)
    /\ (forall ref, _span_map w !! run_id = Some ref ->
          ref < length (spans w) ->
          exists s, spans w2 !! ref = Some s /\ ended s = true).
Proof.
  intros He Hrun.
  destruct e; simpl in He; try discriminate; injection He as <-; simpl.
  - destruct Hrun as [[tr Ht]|Hx]; [|discriminate].
    unfold on_llm_end. rewrite Ht. apply guarded_end. quiet_steps.
  - destruct Hrun as [[tr Ht]|Hx]; [|discriminate].
    unfold on_chain_end. rewrite Ht. apply guarded_end. quiet_steps.
  - unfold on_tool_end. apply guarded_end. quiet_steps.
Qed.

(** *** A start event and its matching end event *)

Lemma start_registers self tr s run_id w :
  tracer self = Some tr ->
  start_run_id s = Some run_id ->
  setup_succeeds s = true ->
  exists s1 rs,
    TracingCallbackHandler_handle self s w =
      (Return tt,
       {| _span_map := <[run_id := length (spans w)]> (_span_map w);
          spans := spans w ++ [s1];
          current_span := current_span w;
          records := records w ++ rs |})
    /\ ended s1 = false.
Proof.
  intros Ht Hs Hok.
  destruct s as [ser ps rid par| |ser inp rid par| | |ser inp rid par|];
    simpl in Hs; try discriminate; injection Hs as <-; simpl.
  - destruct (on_llm_start_registers self tr ser ps rid par w Ht)
      as (s1 & r1 & -> & Hopen).
    exists s1, [r1]. split; [reflexivity|exact Hopen].
  - destruct (on_chain_start_registers self tr ser inp rid par w Ht Hok)
      as (s1 & -> & Hopen).
    exists s1, []. rewrite app_nil_r. split; [reflexivity|exact Hopen].
  - destruct (on_tool_start_registers self tr ser inp rid par w Ht)
      as (s1 & -> & Hopen).
    exists s1, []. rewrite app_nil_r. split; [reflexivity|exact Hopen].
Qed.


(** *** An end event for a run that was never started *)

Lemma ended_world_unregistered run_id w :
  _span_map w !! run_id = None ->
  ended_world run_id w = w.
Proof.
  intros Hnone. unfold ended_world. rewrite Hnone.
  unfold set_span_map. rewrite delete_id by exact Hnone.
  destruct w; reflexivity.
Qed.

(** When the attribute steps raise without a change to the world, the
    handler logs the error and ends the span of the run. *)
Lemma guarded_end_raise (body : Eff World unit) run_id w exc :
  body w = (Raise exc, w) ->
  try_finally (try_except body (logger_error error_message))
    (_end_span run_id) w = (Return tt, ended_world run_id (logged_error exc w)).
Proof.
  intros Hb. unfold try_finally, try_except, try_catch. rewrite Hb.
  unfold logger_error, modify. rewrite end_span_runs. reflexivity.
Qed.

Lemma on_llm_end_unregistered self tr response run_id w :
  tracer self = Some tr ->
  _span_map w !! run_id = None ->
  exists exc,
    on_llm_end self response run_id w = (Return tt, logged_error exc w)
    /\ (forall d usage,
          llm_output response = Some d ->
          dict_get d "token_usage" = Some (VDict usage) ->
          exc = AttributeError (match usage with
                                | [] => "get_span_context"
                                | _ :: _ => "set_attribute"
                                end)).
Proof.
  intros Ht Hnone. unfold on_llm_end. rewrite Ht.
  assert (Hnone' : forall exc, _span_map (logged_error exc w) !! run_id = None)
    by (intros exc; exact Hnone).
  cut (exists exc,
    (span <- _current_span run_id ;;
     token_usage <- eval (llm_output_token_usage response) ;;
     items <- eval (dict_items token_usage) ;;
     for_each items (fun kv =>
       on_span span "set_attribute"
         (fun ref => set_attribute ref (fst kv) (snd kv))) ;;
     ctx <- on_span span "get_span_context" get_span_context ;;
     logger_info (Json
       {| trace := trace_id ctx; span := span_id ctx;
          action := "on_llm_end"; prompts := None;
          outputs := String.concat newline
            (map (fun lst => String.concat " " (map text lst))
                 (generations response));
          tokens := if py_bool (total_tokens self)
                    then Some (py_round (total_tokens self) 3) else None;
          cost := if py_bool (total_cost self)
                  then Some (py_round (total_cost self) 3) else None |}) ;;
     on_span span "add_event"
       (fun ref => add_event ref "outputs"
          (VDict [("data", VStr (String.concat newline
            (map (fun lst => String.concat " " (map text lst))
                 (generations response))))])))%py w = (Raise exc, w)
    /\ (forall d usage,
          llm_output response = Some d ->
          dict_get d "token_usage" = Some (VDict usage) ->
          exc = AttributeError (match usage with
                                | [] => "get_span_context"
                                | _ :: _ => "set_attribute"
                                end))).
  { intros (exc & Hb & Hexc). exists exc. split; [|exact Hexc].
    erewrite guarded_end_raise by exact Hb.
    rewrite ended_world_unregistered by apply Hnone'. reflexivity. }
  unfold bind at 1. unfold _current_span, gets. rewrite Hnone.
  unfold bind at 1. unfold eval at 1, llm_output_token_usage.
  destruct (llm_output response) as [d|];
    [|eexists; split; [reflexivity|intros ? ? [=]]].
  destruct (dict_get d "token_usage") as [v|] eqn:Hv;
    [|eexists; split; [reflexivity|intros ? ? [= <-] Hu; congruence]].
  unfold bind at 1. unfold eval at 1.
  destruct v as [| | | | |items| |]; simpl;
    try (eexists; split; [reflexivity|intros ? ? [= <-] Hu; congruence]).
  destruct items as [|kv items]; eexists;
    (split; [reflexivity|
             intros ? ? [= <-] Hu; rewrite Hv in Hu; injection Hu as <-;
             reflexivity]).
Qed.

Lemma on_chain_end_unregistered self tr outputs run_id parent w :
  tracer self = Some tr ->
  _span_map w !! run_id = None ->
  on_chain_end self outputs run_id parent w =
    (Return tt, logged_error (AttributeError "add_event") w).
Proof.
  intros Ht Hnone. unfold on_chain_end. rewrite Ht.
  erewrite guarded_end_raise.
  - rewrite ended_world_unregistered by exact Hnone. reflexivity.
  - unfold bind, _current_span, gets. rewrite Hnone. reflexivity.
Qed.

Lemma on_tool_end_unregistered self output run_id w :
  _span_map w !! run_id = None ->
  on_tool_end self output run_id w =
    (Return tt, logged_error (AttributeError "add_event") w).
Proof.
  intros Hnone. unfold on_tool_end.
  erewrite guarded_end_raise.
  - rewrite ended_world_unregistered by exact Hnone. reflexivity.
  - unfold bind, _current_span, gets. rewrite Hnone. reflexivity.
Qed.

(** C2 (amended).  An end handler ([on_llm_end], [on_chain_end],
    [on_tool_end]) called for a run identifier that has no registered span
    returns normally, with the registry and the spans as before.  When its
    body runs, that is when the tracer is set or the handler is
    [on_tool_end], which has no tracer guard, the failure inside it is
    caught and logged as one error record; for [on_chain_end] and
    [on_tool_end], and for [on_llm_end] on a response that carries a
    token-usage dict, the failure logged is the [AttributeError] of the
    first method called on the missing span.  With the tracer unset,
    [on_llm_end] and [on_chain_end] leave at their guard: nothing fails and
    nothing is logged. *)
Theorem end_without_start self e run_id w :
  end_run_id e = Some run_id ->
  _span_map w !! run_id = None ->
  exists w2,
    TracingCallbackHandler_handle self e w = (Return tt, w2)
    /\ _span_map w2 = _span_map w
    /\ spans w2 = spans w
    /\ (is_Some (tracer self) \/ is_tool_end e = true ->
        exists exc,
          records w2 = records w ++ [error_record exc]
          /\ match e with
             | LlmEnd response _ =>
                 forall d usage,
                   llm_output response = Some d ->
                   dict_get d "token_usage" = Some (VDict usage) ->
                   exc = AttributeError (match usage with
                                         | [] => "get_span_context"
                                         | _ :: _ => "set_attribute"
                                         end)
             | ChainEnd _ _ _ => exc = AttributeError "add_event"
             | ToolEnd _ _ => exc = AttributeError "add_event"
             | LlmStart _ _ _ _ | ChainStart _ _ _ _ | AgentActionEvent _ _ _
             | ToolStart _ _ _ _ => True
             end)
    /\ (tracer self = None -> is_tool_end e = false -> w2 = w).
Proof.
  intros He Hnone.
  destruct e as [| response rid | | outputs rid par | | | output rid];
    simpl in He; try discriminate; injection He as <-; simpl.
  - destruct (tracer self) as [tr|] eqn:Ht.
    + destruct (on_llm_end_unregistered self tr response rid w Ht Hnone)
        as (exc & Hrun & Hexc).
      rewrite Hrun. eexists. split; [reflexivity|]. simpl.
      repeat split; eauto. discriminate.
    + unfold on_llm_end. rewrite Ht. exists w.
      repeat split; try reflexivity.
      intros [[tr Hx]|Hx]; discriminate.
  - destruct (tracer self) as [tr|] eqn:Ht.
    + rewrite (on_chain_end_unregistered self tr outputs rid par w Ht Hnone).
      eexists. split; [reflexivity|]. simpl.
      repeat split; eauto. discriminate.
    + unfold on_chain_end. rewrite Ht. exists w.
      repeat split; try reflexivity.
      intros [[tr Hx]|Hx]; discriminate.
  - rewrite (on_tool_end_unregistered self output rid w Hnone).
    eexists. split; [reflexivity|]. simpl.
    repeat split; eauto. discriminate.
Qed.

(** *** The tool end handler and the tracer guard *)


(** *** The asynchronous adapter *)

(** C7.  For every lifecycle event, awaiting the coroutine that the handler
    of [AsyncTracingCallbackHandler] builds has, from every world, the
    outcome and the effect on the world (registry, spans, log) of the
    handler of [TracingCallbackHandler] for the same event and
    arguments. *)
Theorem async_handler_delegates self e w :
  await (AsyncTracingCallbackHandler_handle self e) w =
    TracingCallbackHandler_handle self e w.
Proof.
  destruct e; reflexivity.
Qed.

(** *** Token accounting *)

Lemma set_attributes_run ref (items : list (string * Value)) w :
  exists l,
    for_each items (fun kv =>
      on_span (Some ref) "set_attribute"
        (fun r => set_attribute r (fst kv) (snd kv))) w =
      (Return tt, set_spans l w)
    /\ (forall s, spans w !! ref = Some s ->
          exists s', l !! ref = Some s' /\ span_context s' = span_context s).
Proof.
  revert w. induction items as [|kv items IH]; intros w.
  - exists (spans w). split; [destruct w; reflexivity|].
    intros s Hs. exists s. split; [exact Hs|reflexivity].
  - simpl. unfold bind at 1. unfold set_attribute, update_span, modify.
    destruct (IH (set_spans (alter (fun s => with_attributes s
                (dict_set (attributes s) (fst kv) (snd kv))) ref (spans w)) w))
      as (l & Hrun & Hctx).
    exists l. split; [etransitivity; [exact Hrun|reflexivity]|].
    intros s Hs. simpl in Hctx.
    destruct (Hctx (with_attributes s (dict_set (attributes s) (fst kv) (snd kv))))
      as (s' & Hs' & Heq).
    { rewrite list_lookup_alter_eq, Hs. reflexivity. }
    exists s'. split; [exact Hs'|exact Heq].
Qed.

Lemma on_llm_end_logs self tr response run_id w ref s d usage :
  tracer self = Some tr ->
  _span_map w !! run_id = Some ref ->
  spans w !! ref = Some s ->
  llm_output response = Some d ->
  dict_get d "token_usage" = Some (VDict usage) ->
  exists w2 info,
    on_llm_end self response run_id w = (Return tt, w2)
    /\ records w2 =
         records w ++ [{| levelname := INFO; msg := Json info; exc_info := None |}]
    /\ trace info = trace_id (span_context s)
    /\ span info = span_id (span_context s)
    /\ action info = "on_llm_end"
    /\ tokens info = (if py_bool (total_tokens self)
                      then Some (py_round (total_tokens self) 3) else None)
    /\ cost info = (if py_bool (total_cost self)
                    then Some (py_round (total_cost self) 3) else None).
Proof.
  intros Ht Hreg Hs Hout Husage.
  unfold on_llm_end. rewrite Ht.
  unfold try_finally, try_except, try_catch.
  unfold bind at 1. unfold _current_span, gets. rewrite Hreg.
  unfold bind at 1. unfold eval at 1, llm_output_token_usage.
  rewrite Hout, Husage.
  unfold bind at 1. unfold eval at 1, dict_items.
  unfold bind at 1.
  destruct (set_attributes_run ref usage w) as (l & Hrun & Hctx).
  rewrite Hrun.
  destruct (Hctx s Hs) as (s' & Hs' & Heq).
  unfold bind at 1. unfold on_span at 1, get_span_context. simpl.
  rewrite Hs'. unfold bind at 1. unfold logger_info, modify.
  unfold on_span, add_event, update_span, modify.
  rewrite end_span_runs.
  eexists _, _. split; [reflexivity|].
  unfold ended_world. simpl. rewrite Hreg. simpl. rewrite Heq.
  repeat split.
Qed.

(** C5 (amended).  On a model-call-end event the OpenAI-backed adapter first
    lets the token-accounting handler update the cumulative counters and
    then runs the generic end logic on the handler so updated.  When the
    accounting returns, the tracer is set, the run has a registered span
    and the response carries a token-usage dict, the adapter returns
    having logged one Trace Info record with action [on_llm_end] whose
    token count and cost are the updated counters rounded to 3 decimal
    places, each being null instead while its counter is zero. *)
Theorem openai_on_llm_end_logs_updated_counters
    accounting self response run_id w c tr ref s d usage :
  accounting response (total_tokens self, total_cost self) = Return c ->
  tracer self = Some tr ->
  _span_map w !! run_id = Some ref ->
  spans w !! ref = Some s ->
  llm_output response = Some d ->
  dict_get d "token_usage" = Some (VDict usage) ->
  exists w2 info,
    OpenAITracingCallbackHandler_on_llm_end accounting self response run_id w =
      (Return tt, set_counters self c, w2)
    /\ on_llm_end (set_counters self c) response run_id w = (Return tt, w2)
    /\ records w2 =
         records w ++ [{| levelname := INFO; msg := Json info; exc_info := None |}]
    /\ action info = "on_llm_end"
    /\ tokens info = (if py_bool (fst c) then Some (py_round (fst c) 3) else None)
    /\ cost info = (if py_bool (snd c) then Some (py_round (snd c) 3) else None).
Proof.
  intros Hacc Ht Hreg Hs Hout Husage.
  destruct (on_llm_end_logs (set_counters self c) tr response run_id w ref s d
              usage Ht Hreg Hs Hout Husage)
    as (w2 & info & Hrun & Hrec & _ & _ & Hact & Htok & Hcost).
  exists w2, info.
  unfold OpenAITracingCallbackHandler_on_llm_end. rewrite Hacc, Hrun.
  repeat split; assumption.
Qed.

End Facts.

(** *** Instances *)

Import Samples.

Example int_round_three_digits : int_round 42 3 = 42%Z.
Proof. reflexivity. Qed.

Example int_round_half_to_even : int_round 25 (-1) = 20%Z /\ int_round 35 (-1) = 40%Z.
Proof. split; reflexivity. Qed.

(** A model start logs its Trace Info record and registers span 0. *)
Example llm_start_on_empty_world :
  let w1 := snd (TracingCallbackHandler_handle traced
                   (LlmStart VNone ["hi"; "there"] 7%N None) empty_world) in
  _span_map w1 !! 7%N = Some 0
  /\ attributes <$> spans w1 !! 0 =
       Some [("otel.operation.name", VStr "langchain.llm");
             ("num_processed_prompts", VInt 2); ("prompts_len", VInt 7)]
  /\ records w1 =
       [{| levelname := INFO;
           msg := Json {| trace := 1000; span := 0; action := "on_llm_start";
                          prompts := Some ["hi"; "there"]; outputs := "";
                          tokens := None; cost := None |};
           exc_info := None |}].
Proof. vm_compute. repeat split. Qed.

(** A model end without usage information: the error is logged, the span is
    ended and its entry is gone. *)
Example llm_end_without_usage :
  let w2 := snd (TracingCallbackHandler_handle traced
                   (LlmEnd response_without_usage 7%N) world_with_run_7) in
  _span_map w2 !! 7%N = None
  /\ ended <$> spans w2 !! 0 = Some true
  /\ records w2 =
       [error_record (TypeError "'NoneType' object is not subscriptable")].
Proof. vm_compute. repeat split. Qed.



Lemma end_without_start_witness :
  exists w2,
    TracingCallbackHandler_handle traced (LlmEnd (response_reporting 42) 7%N)
      empty_world = (Return tt, w2)
    /\ _span_map w2 = ∅
    /\ spans w2 = []
    /\ records w2 = [error_record (AttributeError "set_attribute")].
Proof.
  destruct (end_without_start traced (LlmEnd (response_reporting 42) 7%N) 7%N
              empty_world eq_refl eq_refl)
    as (w2 & Hrun & Hmap & Hspans & Hlog & _).
  exists w2. split; [exact Hrun|]. split; [exact Hmap|]. split; [exact Hspans|].
  destruct (Hlog (or_introl (ex_intro _ sample_tracer eq_refl)))
    as (exc & Hrec & Hexc).
  rewrite Hrec, (Hexc _ _ eq_refl eq_refl). reflexivity.
Defined.

(** C2 as stated fails on the code where it says that the failure is caught
    and logged.  With the tracer unset, [on_llm_end] and [on_chain_end] for
    a run identifier that has no registered span leave at their guard
    before anything can fail: they return with the world as it was, the
    log included, which holds no record. *)
Lemma end_without_start_counterexample :
  _span_map empty_world !! 7%N = None
  /\ TracingCallbackHandler_handle untraced (LlmEnd (response_reporting 42) 7%N)
       empty_world = (Return tt, empty_world)
  /\ TracingCallbackHandler_handle untraced
       (ChainEnd MoreSamples.answer 7%N None) empty_world =
       (Return tt, empty_world)
  /\ records empty_world = [].
Proof.
  vm_compute. repeat split.
Qed.


Lemma openai_on_llm_end_logs_updated_counters_witness :
  exists w2 info,
    OpenAITracingCallbackHandler_on_llm_end add_total_tokens traced
      (response_reporting 42) 7%N world_with_run_7 =
      (Return tt, set_counters traced (NInt 42, NInt 0), w2)
    /\ records w2 = [{| levelname := INFO; msg := Json info; exc_info := None |}]
    /\ tokens info = Some (NInt 42)
    /\ cost info = None.
Proof.
  destruct (openai_on_llm_end_logs_updated_counters add_total_tokens traced
              (response_reporting 42) 7%N world_with_run_7 (NInt 42, NInt 0)
              sample_tracer 0 open_span _ _
              eq_refl eq_refl eq_refl eq_refl eq_refl eq_refl)
    as (w2 & info & Hrun & _ & Hrec & _ & Htok & Hcost).
  exists w2, info. split; [exact Hrun|]. split; [exact Hrec|].
  split; [exact Htok|exact Hcost].
Defined.

(** C5 as stated fails on the code in two ways.  With the tracer unset the
    counters are updated (42 tokens) and the generic end logic leaves at its
    guard without logging any Trace Info record; and while a counter is
    zero, the record that is logged carries null in its place. *)
Lemma openai_on_llm_end_counterexample :
  (let '(r, self', w') :=
     OpenAITracingCallbackHandler_on_llm_end add_total_tokens untraced
       (response_reporting 42) 7%N world_with_run_7 in
   total_tokens self' = NInt 42 /\ records w' = [])
  /\ (let '(r, self', w') :=
        OpenAITracingCallbackHandler_on_llm_end add_total_tokens traced
          (response_reporting 0) 7%N world_with_run_7 in
      total_tokens self' = NInt 0
      /\ exists info,
           records w' = [{| levelname := INFO; msg := Json info; exc_info := None |}]
           /\ tokens info = None).
Proof.
  vm_compute. repeat split. eexists. split; reflexivity.
Qed.

End TracingFacts.

(** ** The streaming handlers *)

Module StreamingFacts.

Import Streaming.

(** C4.  When the output model rejects a token (or text chunk) with a
    validation error, [on_llm_new_token] (and [on_text]) returns normally
    having sent exactly one message, the dict whose [result] is that token
    and whose [error] is empty; the validation error does not reach the
    caller.  The same holds for the synchronous variants. *)
Theorem rejected_token_is_sent_raw self token ws :
  output_model self (VStr token) (VStr "") = Raise ValidationError ->
  let message := VDict [("result", VStr token); ("error", VStr "")] in
  await (on_llm_new_token self token) ws =
    (Return tt, {| sent := sent ws ++ [message] |})
  /\ await (on_text self token) ws =
       (Return tt, {| sent := sent ws ++ [message] |})
  /\ sync_on_llm_new_token self token ws =
       (Return tt, {| sent := sent ws ++ [message] |})
  /\ sync_on_text self token ws =
       (Return tt, {| sent := sent ws ++ [message] |}).
Proof.
  intros Hrej message.
  assert (Hrun : await (on_llm_new_token self token) ws =
                   (Return tt, {| sent := sent ws ++ [message] |})).
  { unfold await, on_llm_new_token, coro_body, bind, try_catch, eval.
    rewrite Hrej. reflexivity. }
  repeat split; exact Hrun.
Qed.

Lemma rejected_token_is_sent_raw_witness :
  await (on_llm_new_token Samples.int_result_model "Hello") {| sent := [] |} =
    (Return tt,
     {| sent := [VDict [("result", VStr "Hello"); ("error", VStr "")]] |}).
Proof.
  exact (proj1 (rejected_token_is_sent_raw Samples.int_result_model "Hello"
                  {| sent := [] |} eq_refl)).
Defined.

End StreamingFacts.

(** ** The builtins interception scope *)

Module BuiltinsFacts.

Import Builtins.

Lemma enter_wraps lp ws om p :
  __enter__ (__init__ lp ws om true true, p) =
    (Return tt,
     (store_input (input p) (store_print (print p) (__init__ lp ws om true true)),
      {| print := PrintWrapper lp ws om;
         input := InputWrapper lp ws (locks p);
         locks := S (locks p) |})).
Proof. reflexivity. Qed.

Lemma exit_restores lp ws om p exc p' :
  __exit__ exc
    (store_input (input p) (store_print (print p) (__init__ lp ws om true true)),
     p') =
    (Return false,
     (store_input (input p) (store_print (print p) (__init__ lp ws om true true)),
      set_input (input p) (set_print (print p) p'))).
Proof. reflexivity. Qed.

Lemma enter_flagged self p :
  _wrap_print self = true ->
  _wrap_input self = true ->
  __enter__ (self, p) =
    (Return tt,
     (store_input (input p) (store_print (print p) self),
      {| print := PrintWrapper (loop self) (websocket self) (output_model self);
         input := InputWrapper (loop self) (websocket self) (locks p);
         locks := S (locks p) |})).
Proof.
  destruct self; simpl. intros -> ->. reflexivity.
Qed.

Lemma exit_flagged exc self p original_print original_input :
  exit_attributes self = (true, true, Some original_print, Some original_input) ->
  __exit__ exc (self, p) =
    (Return false, (self, set_input original_input (set_print original_print p))).
Proof.
  destruct self; unfold exit_attributes; simpl. intros [= -> -> -> ->].
  reflexivity.
Qed.

(** A body of the application, which has no name for the wrapper object,
    leaves the object as it is. *)
Lemma on_snd_keeps_wrapper {B} (body : Eff Process B) (st : Scope) :
  fst (snd (on_snd body st)) = fst st.
Proof.
  unfold on_snd. destruct (body (snd st)) as [r p']. reflexivity.
Qed.

(** C3 (amended).  A scope of a [BuiltinsWrapper] object whose two flags
    are set, new or used before, runs its body with [print] and [input]
    bound to the wrappers.  When the body leaves the attributes that
    [__exit__] reads (the two flags, [_print] and [_input]) as [__enter__]
    set them, which is so for every body that does not enter the same
    object again and does not assign to them, then on the way out, whether
    the body returns or raises, [print] and [input] are bound to what they
    were bound to before the scope; an exception of the body goes on to the
    caller after that. *)
Theorem originals_restored_on_exit {B} (body : Eff Scope B) self p :
  let st1 := snd (__enter__ (self, p)) in
  _wrap_print self = true ->
  _wrap_input self = true ->
  exit_attributes (fst (snd (body st1))) = exit_attributes (fst st1) ->
  exists self2 p2,
    print (snd st1) =
      PrintWrapper (loop self) (websocket self) (output_model self)
    /\ input (snd st1) = InputWrapper (loop self) (websocket self) (locks p)
    /\ with_wrapper_object body (self, p) =
         (match fst (body st1) with
          | Return b => Return (Some b)
          | Raise e => Raise e
          end, (self2, p2))
    /\ print p2 = print p
    /\ input p2 = input p.
Proof.
  intros st1 Hwp Hwi. subst st1.
  unfold with_wrapper_object, with_stmt.
  unfold bind at 1. rewrite (enter_flagged self p Hwp Hwi). cbn [snd fst].
  set (self1 := store_input (input p) (store_print (print p) self)).
  set (p1 := {| print := PrintWrapper (loop self) (websocket self)
                           (output_model self);
                input := InputWrapper (loop self) (websocket self) (locks p);
                locks := S (locks p) |}).
  intros Hkept.
  assert (Hsaved : exit_attributes self1 =
                     (true, true, Some (print p), Some (input p))).
  { subst self1. unfold exit_attributes. simpl. rewrite Hwp, Hwi. reflexivity. }
  rewrite Hsaved in Hkept.
  destruct (body (self1, p1)) as [[b|e] [self' p']] eqn:Hbody;
    cbn [fst snd] in Hkept |- *;
    rewrite (exit_flagged _ self' p' _ _ Hkept);
    exists self', (set_input (input p) (set_print (print p) p'));
    repeat split.
Qed.

(** A used wrapper object and a body that rebinds [print] and then
    raises. *)
Lemma originals_restored_on_exit_witness :
  exists self2 p2,
    with_wrapper_object (on_snd MoreSamples.rebind_and_fail)
      (MoreSamples.used_wrapper, MoreSamples.python_process) =
      (Raise (ValueError "boom"), (self2, p2))
    /\ print p2 = BuiltinFunction "print"
    /\ input p2 = BuiltinFunction "input".
Proof.
  destruct (originals_restored_on_exit (on_snd MoreSamples.rebind_and_fail)
              MoreSamples.used_wrapper MoreSamples.python_process
              eq_refl eq_refl eq_refl)
    as (self2 & p2 & _ & _ & Hrun & Hprint & Hinput).
  exists self2, p2. split; [exact Hrun|]. split; [exact Hprint|exact Hinput].
Defined.

(** C3 as stated fails on the code when one wrapper object is entered again
    inside its own scope.  The inner [__enter__] stores the wrappers of the
    outer scope over the saved originals, so that both exits bind [print]
    and [input] to those wrappers: after the outer scope they are not what
    they were before it, whether the body returned or raised. *)
Lemma originals_restored_on_exit_counterexample :
  (let '(r, (self2, p2)) :=
     with_wrapper_object (with_BuiltinsWrapper (ret tt))
       (MoreSamples.new_wrapper, MoreSamples.python_process) in
   r = Return (Some (Some tt))
   /\ print MoreSamples.python_process = BuiltinFunction "print"
   /\ input MoreSamples.python_process = BuiltinFunction "input"
   /\ print p2 = PrintWrapper 1 2 "Output"
   /\ input p2 = InputWrapper 1 2 0)
  /\ (let '(r, (self2, p2)) :=
        with_wrapper_object (with_BuiltinsWrapper MoreSamples.rebind_and_fail)
          (MoreSamples.new_wrapper, MoreSamples.python_process) in
      r = Raise (ValueError "boom")
      /\ print p2 = PrintWrapper 1 2 "Output"
      /\ input p2 = InputWrapper 1 2 0).
Proof.
  vm_compute. repeat split.
Qed.

End BuiltinsFacts.

(** ** The command line front end *)

Module CliFacts.

Import Cli.

(** *** The [--config] callback *)

Lemma check_instances_stops recognized_tiers pre tier post :
  forallb (recognized recognized_tiers) pre = true ->
  recognized recognized_tiers tier = false ->
  check_instances recognized_tiers (pre ++ tier :: post) =
    Raise (InvalidInstanceError tier).
Proof.
  intros Hpre Hbad. induction pre as [|t pre IH]; simpl in *.
  - rewrite Hbad. reflexivity.
  - apply andb_true_iff in Hpre as [Ht Hpre]. rewrite Ht. exact (IH Hpre).
Qed.

(** A document with an unrecognized tier has a first one. *)
Lemma first_unrecognized recognized_tiers tiers tier :
  tier ∈ tiers ->
  recognized recognized_tiers tier = false ->
  exists pre bad post,
    tiers = pre ++ bad :: post
    /\ forallb (recognized recognized_tiers) pre = true
    /\ recognized recognized_tiers bad = false.
Proof.
  intros Hin Hbad. induction tiers as [|t tiers IH]; [inversion Hin|].
  destruct (recognized recognized_tiers t) eqn:Ht.
  - apply elem_of_cons in Hin as [->|Hin]; [congruence|].
    destruct (IH Hin) as (pre & bad & post & -> & Hpre & Hb).
    exists (t :: pre), bad, post. simpl. rewrite Ht, Hpre. auto.
  - exists [], t, tiers. auto.
Qed.

Lemma contains_middle before sub after :
  contains (before +:+ sub +:+ after) sub.
Proof. exists before, after. reflexivity. Qed.

Lemma string_app_assoc (a b c : string) : (a +:+ b) +:+ c = a +:+ b +:+ c.
Proof.
  induction a as [|x a IH]; [reflexivity|].
  change (String x ((a +:+ b) +:+ c) = String x (a +:+ b +:+ c)).
  rewrite IH. reflexivity.
Qed.

(** C6.  When the file given to [--config] holds a Deployment Config whose
    first instance tier outside the recognized set is [tier], the Config
    Validator raises [InvalidInstanceError] carrying [tier], and the
    callback turns it into a [BadParameter] whose message contains [tier]
    and the documentation URL; with no value (or the empty path) the
    callback returns [None] without opening any file. *)
Theorem invalid_instance_becomes_bad_parameter
    recognized_tiers ctx param path cfg pre tier post fs :
  path <> "" ->
  files fs !! path = Some cfg ->
  instance cfg = pre ++ tier :: post ->
  forallb (recognized recognized_tiers) pre = true ->
  recognized recognized_tiers tier = false ->
  exists message,
    fst (validate_jcloud_config recognized_tiers path fs) =
      Raise (InvalidInstanceError tier)
    /\ fst (validate_jcloud_config_callback recognized_tiers ctx param
              (Some path) fs) = Raise (BadParameter message)
    /\ contains message tier
    /\ contains message docs_url
    /\ validate_jcloud_config_callback recognized_tiers ctx param None fs =
         (Return None, fs)
    /\ validate_jcloud_config_callback recognized_tiers ctx param (Some "") fs =
         (Return None, fs).
Proof.
  intros Hpath Hfile Hdoc Hpre Hbad.
  assert (Hval : validate_jcloud_config recognized_tiers path fs =
                   (Raise (InvalidInstanceError tier),
                    {| files := files fs; opened := opened fs ++ [path] |})).
  { unfold validate_jcloud_config, bind, load_config, eval.
    rewrite Hfile, Hdoc, (check_instances_stops _ _ _ _ Hpre Hbad).
    reflexivity. }
  eexists. split; [rewrite Hval; reflexivity|].
  split.
  { unfold validate_jcloud_config_callback.
    apply String.eqb_neq in Hpath. rewrite Hpath.
    unfold bind, try_catch. rewrite Hval. reflexivity. }
  split; [apply contains_middle|].
  split; [|split; reflexivity].
  exists ("Invalid instance '" +:+ tier +:+
          "' found in config file', please refer to "),
         " for instance definition.".
  rewrite !string_app_assoc. reflexivity.
Qed.

Lemma invalid_instance_becomes_bad_parameter_witness :
  exists message,
    fst (validate_jcloud_config Samples.three_tiers "jcloud.yml" Samples.disk) =
      Raise (InvalidInstanceError "C9")
    /\ fst (validate_jcloud_config_callback Samples.three_tiers VNone VNone
              (Some "jcloud.yml") Samples.disk) = Raise (BadParameter message)
    /\ contains message "C9"
    /\ contains message docs_url.
Proof.
  destruct (invalid_instance_becomes_bad_parameter Samples.three_tiers VNone
              VNone "jcloud.yml" Samples.config_with_C9 [] "C9" []
              Samples.disk ltac:(discriminate) eq_refl eq_refl eq_refl eq_refl)
    as (message & Hval & Hcb & Htier & Hurl & _).
  exists message. split; [exact Hval|]. split; [exact Hcb|].
  split; [exact Htier|exact Hurl].
Defined.

(** *** The [list] command *)

Section Commands.
Context {Ext FlowDict : Type}.
Variable flow : Flow Ext FlowDict.

(** C9.  The default of [--phase] is the five phase names Serving, Failed,
    Starting, Updating and Paused joined by commas, those five and no
    other; and [list] invoked without [--phase] calls the listing operation
    once, with exactly that string as its phase filter. *)
Theorem list_default_phase_filter (name : option string) (run : Run) :
  phase_default = "Serving,Failed,Starting,Updating,Paused"
  /\ str_split ","%char phase_default =
       ["Serving"; "Failed"; "Starting"; "Updating"; "Paused"]
  /\ exists outcome,
       trace (snd (invoke_list flow None name run)) =
         trace run ++
           [Enter (ListAppsOnJcloud "Serving,Failed,Starting,Updating,Paused" name);
            Leave (ListAppsOnJcloud "Serving,Failed,Starting,Updating,Paused" name)
              outcome].
Proof.
  split; [reflexivity|]. split; [reflexivity|].
  unfold invoke_list, syncify, asyncio_run, list_, coro_body, call.
  change (click_option phase_default None)
    with "Serving,Failed,Starting,Updating,Paused".
  destruct (list_apps_on_jcloud flow "Serving,Failed,Starting,Updating,Paused"
              name (ext run)) as [[[]|e] x]; eexists; reflexivity.
Qed.

(** *** The remote deploy pipeline *)

Ltac enter_call H :=
  unfold bind at 1 in H; unfold call at 1 in H; cbn [ext trace] in H.

Ltac no_deploy_call :=
  intros; repeat match goal with
  | H : _ ∈ [] |- _ => inversion H
  | H : _ ∈ _ :: _ |- _ => apply elem_of_cons in H as [H|H]; [discriminate H|]
  end.

(** A run that stops at a raising call before the flow is submitted. *)
Ltac stopped_early H n :=
  injection H as <- <-; cbn [fst snd trace];
  split; [cbn; rewrite <- ?app_assoc; reflexivity|];
  split; [exists n; reflexivity|];
  split; [discriminate|no_deploy_call].

Ltac find_call :=
  solve [repeat first [apply list_elem_of_here | apply list_elem_of_further]].

(** The submitted flow and where its gateway identifier comes from. *)
Ltac submitted_flow tag gid is_ws :=
  let Hin := fresh "Hin" in
  intros ? ? ? ? Hin;
  repeat (apply elem_of_cons in Hin as [Hin|Hin]; [try discriminate Hin|]);
  [injection Hin as <- <- <- <-;
   eexists tag, gid, is_ws, _, _;
   (split; [find_call|]); (split; [find_call|]);
   (split; [reflexivity|]); (split; [find_call|]); reflexivity
  |inversion Hin].

(** C8.  In every run of [serve_on_jcloud] the calls into the deployment
    module come one after the other, each over before the next begins;
    among them the push to the registry, the submission of the flow and the
    status poll occur in this order, a later one only after the earlier
    ones have returned, and all three when the pipeline returns; and the
    flow that is submitted was built with the gateway identifier that the
    push returned, joined by a colon to the random tag that the push was
    given. *)
Theorem deploy_pipeline_in_order module name requirements app_id version
    timeout platform config verbose (run : Run) :
  exists calls,
    trace (snd (await (serve_on_jcloud flow module name requirements app_id
                         version timeout platform config verbose) run)) =
      trace run ++ completed calls
    /\ (exists n, stages calls = take n [Push; Submit; Poll])
    /\ (forall id,
          fst (await (serve_on_jcloud flow module name requirements app_id
                        version timeout platform config verbose) run) =
            Return id ->
          stages calls = [Push; Submit; Poll])
    /\ (forall flow_dict id v outcome,
          (DeployAppOnJcloud flow_dict id v, outcome) ∈ calls ->
          exists tag gateway_id_wo_tag is_websocket push_args flow_args,
            (GetRandomTag, Return (RTag tag)) ∈ calls
            /\ (PushAppToHubble push_args,
                Return (RPushed gateway_id_wo_tag is_websocket)) ∈ calls
            /\ push_tag push_args = tag
            /\ (GetFlowDict flow_args, Return (RFlowDict flow_dict)) ∈ calls
            /\ flow_gateway_id flow_args = gateway_id_wo_tag +:+ ":" +:+ tag).
Proof.
  destruct (await (serve_on_jcloud flow module name requirements app_id
                     version timeout platform config verbose) run)
    as [r run'] eqn:Hrun.
  cbn [fst snd].
  unfold await, serve_on_jcloud, coro_body in Hrun.
  enter_call Hrun.
  destruct (get_app_dir flow module (ext run)) as [[[app app_dir]|e] x1];
    [|eexists [(_, _)]; stopped_early Hrun 0].
  enter_call Hrun. cbn [fst snd] in Hrun.
  destruct (resolve_jcloud_config flow config app_dir x1) as [[config'|e] x2];
    [|eexists [(_, _); (_, _)]; stopped_early Hrun 0].
  enter_call Hrun.
  destruct (get_random_tag flow x2) as [[tag|e] x3];
    [|eexists [(_, _); (_, _); (_, _)]; stopped_early Hrun 0].
  enter_call Hrun.
  match type of Hrun with
  | context [push_app_to_hubble flow ?a x3] =>
      destruct (push_app_to_hubble flow a x3) as [[[gid is_ws]|e] x4]
  end;
    [|eexists [(_, _); (_, _); (_, _); (_, _)]; stopped_early Hrun 1].
  enter_call Hrun. cbn [fst snd] in Hrun.
  match type of Hrun with
  | context [get_flow_dict flow ?a x4] =>
      destruct (get_flow_dict flow a x4) as [[flow_dict|e] x5]
  end;
    [|eexists [(_, _); (_, _); (_, _); (_, _); (_, _)]; stopped_early Hrun 1].
  enter_call Hrun.
  destruct (deploy_app_on_jcloud flow flow_dict app_id verbose x5)
    as [[[app_id' extra]|e] x6].
  - enter_call Hrun. cbn [fst snd] in Hrun.
    destruct (get_app_status_on_jcloud flow app_id' x6) as [[[]|e] x7];
      (eexists [(_, _); (_, _); (_, _); (_, _); (_, _); (_, _); (_, _)];
       injection Hrun as <- <-; cbn [fst snd trace];
       split; [cbn; rewrite <- ?app_assoc; reflexivity|];
       split; [exists 3; reflexivity|];
       split; [intros; reflexivity|]);
      submitted_flow tag gid is_ws.
  - eexists [(_, _); (_, _); (_, _); (_, _); (_, _); (_, _)].
    injection Hrun as <- <-. cbn [fst snd trace].
    split; [cbn; rewrite <- ?app_assoc; reflexivity|].
    split; [exists 2; reflexivity|].
    split; [discriminate|].
    submitted_flow tag gid is_ws.
Qed.

End Commands.

(** *** Instances *)

Example pipeline_stages_of_a_good_run :
  let '(r, run) :=
    await (serve_on_jcloud Samples.sample_flow (OneModule "app") "langchain"
             None None "latest" 120 None None false) Samples.fresh_run in
  r = Return "app-1"
  /\ omap (fun ev => match ev with
                     | Enter c => stage_of c
                     | Leave _ _ => None
                     end) (trace run) = [Push; Submit; Poll]
  /\ omap (fun ev => match ev with
                     | Enter (GetFlowDict args) => Some (flow_gateway_id args)
                     | _ => None
                     end) (trace run) = ["gw:t1"].
Proof. vm_compute. repeat split. Qed.

Example pipeline_stops_at_a_failed_push :
  let '(r, run) :=
    await (serve_on_jcloud Samples.failing_push_flow (OneModule "app")
             "langchain" None None "latest" 120 None None false)
      Samples.fresh_run in
  r = Raise (RuntimeError "push failed")
  /\ omap (fun ev => match ev with
                     | Enter c => stage_of c
                     | Leave _ _ => None
                     end) (trace run) = [Push].
Proof. vm_compute. repeat split. Qed.

End CliFacts.

(** ** More on the tracing handlers *)

Module TracingMore.

Import Tracing TracingSupport.

Section Facts.
Context `{Float}.

(** *** The registry *)

(** After [_register_span run_id span] the registry answers [span] for
    [run_id], whatever it answered before, answers as before for every
    other run, and no span object has changed. *)
Theorem register_then_current run_id ref w :
  exists w1,
    _register_span run_id ref w = (Return tt, w1)
    /\ _current_span run_id w1 = (Return (Some ref), w1)
    /\ (forall other, other <> run_id ->
          fst (_current_span other w1) = fst (_current_span other w))
    /\ spans w1 = spans w
    /\ records w1 = records w.
Proof.
  eexists. split; [reflexivity|].
  unfold _current_span, gets. simpl.
  split; [rewrite lookup_insert_eq; reflexivity|].
  split; [|split; reflexivity].
  intros other Hne. rewrite lookup_insert_ne by congruence. reflexivity.
Qed.

(** X1.  [_end_span run_id] never raises; it removes the entry of [run_id]
    and no other, marks the span that entry referred to as ended and
    changes no other span; for a run with no entry it changes nothing, so
    ending a run twice is the same as ending it once. *)
Theorem end_span_frame run_id w :
  exists w1,
    _end_span run_id w = (Return tt, w1)
    /\ _span_map w1 !! run_id = None
    /\ (forall other, other <> run_id ->
          _span_map w1 !! other = _span_map w !! other)
    /\ (forall i, _span_map w !! run_id <> Some i ->
          spans w1 !! i = spans w !! i)
    /\ (forall i s, _span_map w !! run_id = Some i -> spans w !! i = Some s ->
          spans w1 !! i = Some (with_ended s))
    /\ (_span_map w !! run_id = None -> w1 = w)
    /\ _end_span run_id w1 = (Return tt, w1).
Proof.
  exists (ended_world run_id w).
  split; [apply TracingFacts.end_span_runs|].
  split; [rewrite TracingFacts.ended_world_map; apply lookup_delete_eq|].
  split.
  { intros other Hne. rewrite TracingFacts.ended_world_map.
    apply lookup_delete_ne. congruence. }
  split.
  { intros i Hi. unfold ended_world.
    destruct (_span_map w !! run_id) as [ref|]; simpl; [|reflexivity].
    apply list_lookup_alter_ne. congruence. }
  split.
  { intros i s Hi Hs. unfold ended_world. rewrite Hi. simpl.
    rewrite list_lookup_alter_eq, Hs. reflexivity. }
  split; [apply TracingFacts.ended_world_unregistered|].
  rewrite TracingFacts.end_span_runs. f_equal.
  apply TracingFacts.ended_world_unregistered.
  rewrite TracingFacts.ended_world_map. apply lookup_delete_eq.
Qed.

(** *** Relations that the steps of a handler keep *)

Section Keeping.
Variable R : World -> World -> Prop.
Hypothesis R_refl : forall w, R w w.
Hypothesis R_trans : forall w1 w2 w3, R w1 w2 -> R w2 w3 -> R w1 w3.

Lemma Keeps_ret {A} (a : A) : Keeps R (ret a).
Proof using R_refl. intros w. apply R_refl. Qed.

Lemma Keeps_raise {A} e : Keeps R (@raise World A e).
Proof using R_refl. intros w. apply R_refl. Qed.

Lemma Keeps_eval {A} (o : Outcome A) : Keeps R (eval o).
Proof using R_refl. intros w. apply R_refl. Qed.

Lemma Keeps_gets {A} (f : World -> A) : Keeps R (gets f).
Proof using R_refl. intros w. apply R_refl. Qed.

Lemma Keeps_bind {A B} (m : Eff World A) (k : A -> Eff World B) :
  Keeps R m -> (forall a, Keeps R (k a)) -> Keeps R (bind m k).
Proof using R_trans.
  intros Hm Hk w. unfold bind. specialize (Hm w).
  destruct (m w) as [[a|e] w1]; simpl in *; [|exact Hm].
  eapply R_trans; [exact Hm|apply Hk].
Qed.

Lemma Keeps_try_except {A} (body : Eff World A) handler :
  Keeps R body -> (forall e, Keeps R (handler e)) ->
  Keeps R (try_except body handler).
Proof using R_trans.
  intros Hb Hh w. unfold try_except, try_catch. specialize (Hb w).
  destruct (body w) as [[a|e] w1]; simpl in *; [exact Hb|].
  eapply R_trans; [exact Hb|apply Hh].
Qed.

Lemma Keeps_try_finally {A} (body : Eff World A) final :
  Keeps R body -> Keeps R final -> Keeps R (try_finally body final).
Proof using R_trans.
  intros Hb Hf w. unfold try_finally. specialize (Hb w).
  destruct (body w) as [r w1]. specialize (Hf w1).
  destruct (final w1) as [[u|e] w2]; simpl in *;
    eapply R_trans; eassumption.
Qed.

Lemma Keeps_for_each {A} (xs : list A) (body : A -> Eff World unit) :
  (forall x, Keeps R (body x)) -> Keeps R (for_each xs body).
Proof using R_refl R_trans.
  intros Hb. induction xs as [|x xs IH]; simpl.
  - apply Keeps_ret.
  - apply Keeps_bind; [apply Hb|intros _; exact IH].
Qed.

Lemma Keeps_on_span {A} (o : option SpanRef) method
    (call : SpanRef -> Eff World A) :
  (forall ref, o = Some ref -> Keeps R (call ref)) ->
  Keeps R (on_span o method call).
Proof using R_refl R_trans.
  intros Hc. destruct o as [ref|]; simpl; [apply Hc; reflexivity|].
  apply Keeps_raise.
Qed.

End Keeping.

Lemma same_records_refl w : same_records w w.
Proof. reflexivity. Qed.

Lemma same_records_trans w1 w2 w3 :
  same_records w1 w2 -> same_records w2 w3 -> same_records w1 w3.
Proof. unfold same_records. congruence. Qed.

Lemma only_span_refl o w : only_span o w w.
Proof. repeat split. Qed.

Lemma only_span_trans o w1 w2 w3 :
  only_span o w1 w2 -> only_span o w2 w3 -> only_span o w1 w3.
Proof.
  intros (A1 & B1 & C1) (A2 & B2 & C2).
  split; [congruence|]. split; [congruence|].
  intros i Hi. rewrite C2, C1 by exact Hi. reflexivity.
Qed.

Lemma silent_update_span ref f : Keeps same_records (update_span ref f).
Proof. intros w. reflexivity. Qed.

Lemma silent_get_span_context ref : Keeps same_records (get_span_context ref).
Proof.
  intros w. unfold get_span_context. destruct (spans w !! ref); reflexivity.
Qed.

Lemma silent_register run_id ref : Keeps same_records (_register_span run_id ref).
Proof. intros w. reflexivity. Qed.

Lemma silent_end_span run_id : Keeps same_records (_end_span run_id).
Proof.
  intros w. rewrite TracingFacts.end_span_runs. unfold ended_world.
  simpl. destruct (_span_map w !! run_id); reflexivity.
Qed.

Lemma only_update_span ref f : Keeps (only_span (Some ref)) (update_span ref f).
Proof.
  intros w. split; [reflexivity|]. split; [reflexivity|].
  intros i Hi. simpl. apply list_lookup_alter_ne. congruence.
Qed.

Lemma only_get_span_context o ref : Keeps (only_span o) (get_span_context ref).
Proof.
  intros w. unfold get_span_context.
  destruct (spans w !! ref); apply only_span_refl.
Qed.

Lemma only_logger_info o m : Keeps (only_span o) (logger_info m).
Proof. intros w. repeat split. Qed.

Lemma only_logger_error o m e : Keeps (only_span o) (logger_error m e).
Proof. intros w. repeat split. Qed.

(** *** No handler raises *)

Lemma guarded_returns (body : Eff World unit) w :
  fst (try_except body (logger_error error_message) w) = Return tt.
Proof.
  unfold try_except, try_catch. destruct (body w) as [[[]|e] w1]; reflexivity.
Qed.

Lemma guarded_end_returns (body : Eff World unit) run_id w :
  fst (try_finally (try_except body (logger_error error_message))
         (_end_span run_id) w) = Return tt.
Proof.
  unfold try_finally.
  pose proof (guarded_returns body w) as Hr.
  destruct (try_except body (logger_error error_message) w) as [r w1].
  rewrite TracingFacts.end_span_runs. exact Hr.
Qed.

Lemma handle_returns self e w :
  fst (TracingCallbackHandler_handle self e w) = Return tt.
Proof.
  destruct e; simpl.
  - unfold on_llm_start. destruct (tracer self); [apply guarded_returns|reflexivity].
  - unfold on_llm_end. destruct (tracer self); [apply guarded_end_returns|reflexivity].
  - unfold on_chain_start. destruct (tracer self); [apply guarded_returns|reflexivity].
  - unfold on_chain_end. destruct (tracer self); [apply guarded_end_returns|reflexivity].
  - unfold on_agent_action. destruct (tracer self); [apply guarded_returns|reflexivity].
  - unfold on_tool_start. destruct (tracer self); [apply guarded_returns|reflexivity].
  - unfold on_tool_end. apply guarded_end_returns.
Qed.

(** X2.  No handler of the tracing adapter raises: for every handler, every
    lifecycle event with any arguments (registered run or not, readable
    response or not) and every world, the handler returns. *)
Theorem handlers_never_raise self e w :
  exists w', TracingCallbackHandler_handle self e w = (Return tt, w').
Proof.
  pose proof (handle_returns self e w) as Hr.
  destruct (TracingCallbackHandler_handle self e w) as [r w'].
  exists w'. simpl in Hr. rewrite Hr. reflexivity.
Qed.

(** *** What a handler logs *)

Lemma LogsAtMost_silent P {A} (m : Eff World A) :
  Keeps same_records m -> LogsAtMost P m.
Proof. intros Hm w. left. apply Hm. Qed.

Lemma LogsAtMost_bind P {A B} (m : Eff World A) (k : A -> Eff World B) :
  Keeps same_records m -> (forall a, LogsAtMost P (k a)) ->
  LogsAtMost P (bind m k).
Proof.
  intros Hm Hk w. unfold bind. specialize (Hm w). unfold same_records in Hm.
  destruct (m w) as [[a|e] w1]; simpl in *; [|left; exact Hm].
  rewrite <- Hm. apply Hk.
Qed.

Lemma LogsAtMost_info (P : TraceInfo -> Prop) t {A} (k : Eff World A) :
  P t -> Keeps same_records k -> (forall w, exists a, fst (k w) = Return a) ->
  LogsAtMost P (bind (logger_info (Json t)) (fun _ => k)).
Proof.
  intros Ht Hk Hret w. right. exists t. split; [exact Ht|].
  unfold bind, logger_info, modify.
  specialize (Hk (set_records (records w ++ [info_record t]) w)).
  specialize (Hret (set_records (records w ++ [info_record t]) w)).
  unfold info_record in *.
  destruct (k _) as [r w1]. simpl in *. split; [exact Hk|exact Hret].
Qed.

Lemma LogsAtMost_try_finally P {A} (m : Eff World A) final :
  LogsAtMost P m -> Keeps same_records final ->
  (forall w, exists u, fst (final w) = Return u) ->
  LogsAtMost P (try_finally m final).
Proof.
  intros Hm Hf Hret w. unfold try_finally. specialize (Hm w).
  destruct (m w) as [r w1]. specialize (Hf w1). specialize (Hret w1).
  unfold same_records in Hf.
  destruct (final w1) as [[u|e] w2]; simpl in *;
    [|destruct Hret as [u Hu]; discriminate].
  rewrite Hf. exact Hm.
Qed.

Lemma LogsAtMost_try_except P {A} (m : Eff World A) handler :
  LogsAtMost P m -> (forall e, Keeps same_records (handler e)) ->
  LogsAtMost P (try_except m handler).
Proof.
  intros Hm Hh w. unfold try_except, try_catch. specialize (Hm w).
  destruct (m w) as [[a|e] w1]; simpl in *; [exact Hm|].
  left. specialize (Hh e w1). unfold same_records in Hh. rewrite Hh.
  destruct Hm as [Hm|(t & _ & _ & a & Ha)]; [exact Hm|discriminate].
Qed.

Lemma silent_bind {A B} (m : Eff World A) (k : A -> Eff World B) :
  Keeps same_records m -> (forall a, Keeps same_records (k a)) ->
  Keeps same_records (bind m k).
Proof. apply Keeps_bind. exact same_records_trans. Qed.

Lemma LogsAtMost_start_as_current_span P {B} tr name parent end_on_exit
    (body : SpanRef -> Eff World B) :
  (forall ref, LogsAtMost P (body ref)) ->
  LogsAtMost P (start_as_current_span tr name parent end_on_exit body).
Proof.
  intros Hb. unfold start_as_current_span.
  apply LogsAtMost_bind; [intros w; reflexivity|]. intros ref.
  apply LogsAtMost_try_finally.
  - apply LogsAtMost_try_except.
    + apply LogsAtMost_bind; [intros w; reflexivity|]. intros token.
      apply LogsAtMost_bind; [intros w; reflexivity|]. intros _.
      apply LogsAtMost_try_finally; [apply Hb|intros w; reflexivity|].
      intros w. eexists. reflexivity.
    + intros e. apply silent_bind; [apply silent_update_span|]. intros _.
      apply silent_bind; [apply silent_update_span|]. intros _.
      intros w. reflexivity.
  - destruct end_on_exit; [apply silent_update_span|intros w; reflexivity].
  - intros w. destruct end_on_exit; eexists; reflexivity.
Qed.

Ltac silent_steps :=
  repeat first
    [ apply silent_update_span
    | apply silent_get_span_context
    | apply silent_register
    | apply silent_bind; [|intros ?]
    | apply (Keeps_for_each same_records same_records_refl same_records_trans);
      intros ?
    | apply (Keeps_on_span same_records same_records_refl same_records_trans);
      intros ? ?
    | solve [intros ?; reflexivity] ].

(** The records after the body of a handler and its [except] clause. *)
Lemma guarded_records P (body : Eff World unit) w :
  LogsAtMost P body ->
  let w' := snd (try_except body (logger_error error_message) w) in
  records w' = records w
  \/ (exists exc, records w' = records w ++ [error_record exc])
  \/ (exists t, P t /\ records w' = records w ++ [info_record t]).
Proof.
  intros Hb. unfold try_except, try_catch. specialize (Hb w).
  destruct (body w) as [[a|e] w1]; simpl in *.
  - destruct Hb as [Hb|(t & Ht & Hrec & _)]; [left; exact Hb|].
    right. right. exists t. split; assumption.
  - right. left. exists e.
    destruct Hb as [Hb|(t & _ & _ & a & Ha)]; [|discriminate].
    rewrite Hb. reflexivity.
Qed.

Lemma guarded_end_records P (body : Eff World unit) run_id w :
  LogsAtMost P body ->
  let w' := snd (try_finally (try_except body (logger_error error_message))
                   (_end_span run_id) w) in
  records w' = records w
  \/ (exists exc, records w' = records w ++ [error_record exc])
  \/ (exists t, P t /\ records w' = records w ++ [info_record t]).
Proof.
  intros Hb. pose proof (guarded_records P body w Hb) as Hg.
  unfold try_finally. cbv zeta in Hg.
  destruct (try_except body (logger_error error_message) w) as [r w1].
  pose proof (silent_end_span run_id w1) as Hs. unfold same_records in Hs.
  destruct (_end_span run_id w1) as [[u|e] w2]; simpl in *;
    rewrite Hs; exact Hg.
Qed.

Lemma bind_raise {A B} e (k : A -> Eff World B) w :
  bind (raise e) k w = (Raise e, w).
Proof. reflexivity. Qed.

Lemma records_after_event self e w :
  let w' := snd (TracingCallbackHandler_handle self e w) in
  records w' = records w
  \/ (exists exc, records w' = records w ++ [error_record exc])
  \/ (exists t, describes self e t /\ records w' = records w ++ [info_record t]).
Proof.
  destruct e as [ser ps rid par|response rid|ser inp rid par|outs rid par
                |act rid par|ser inp rid par|out rid]; simpl.
  - unfold on_llm_start. destruct (tracer self) as [tr|]; [|left; reflexivity].
    apply guarded_records. apply LogsAtMost_start_as_current_span. intros ref.
    do 4 (apply LogsAtMost_bind; [silent_steps|intros _]).
    apply LogsAtMost_bind; [silent_steps|intros ctx].
    apply LogsAtMost_info; [repeat split|silent_steps|].
    intros w0. eexists. reflexivity.
  - unfold on_llm_end. destruct (tracer self) as [tr|]; [|left; reflexivity].
    apply guarded_end_records.
    apply LogsAtMost_bind; [silent_steps|intros [ref|]].
    + do 3 (apply LogsAtMost_bind; [silent_steps|intros ?]).
      apply LogsAtMost_bind; [silent_steps|intros ctx].
      apply LogsAtMost_info; [repeat split|silent_steps|].
      intros w0. eexists. reflexivity.
    + apply LogsAtMost_silent.
      do 3 (apply silent_bind; [silent_steps|intros ?]).
      intros w0. reflexivity.
  - unfold on_chain_start. destruct (tracer self) as [tr|]; [|left; reflexivity].
    destruct (guarded_records (fun _ => False)
      (start_as_current_span tr "chain" (parent_span self) false (fun span =>
         bind (set_attribute span "otel.operation.name" (VStr "langchain.chain"))
           (fun _ => bind (eval (json_dumps inp)) (fun data =>
              bind (add_event span "inputs" (VDict [("data", data)]))
                (fun _ => _register_span rid span))))) w)
      as [Hx|[Hx|(t & [] & _)]]; [|left; exact Hx|right; left; exact Hx].
    apply LogsAtMost_start_as_current_span. intros ref.
    apply LogsAtMost_silent. silent_steps.
  - unfold on_chain_end. destruct (tracer self) as [tr|]; [|left; reflexivity].
    destruct (guarded_end_records (fun _ => False)
      (bind (_current_span rid) (fun span =>
         on_span span "add_event" (fun ref =>
           bind (eval (json_dumps outs)) (fun data =>
             add_event ref "outputs" (VDict [("data", data)]))))) rid w)
      as [Hx|[Hx|(t & [] & _)]]; [|left; exact Hx|right; left; exact Hx].
    apply LogsAtMost_silent. silent_steps.
  - unfold on_agent_action. destruct (tracer self) as [tr|]; [|left; reflexivity].
    destruct (guarded_records (fun _ => False)
      (bind (_current_span rid) (fun span =>
         on_span span "add_event" (fun ref =>
           add_event ref "agent_action"
             (VDict [("data", VStr (tool act));
                     ("tool_input", tool_input act);
                     ("log", VStr (log act))])))) w)
      as [Hx|[Hx|(t & [] & _)]]; [|left; exact Hx|right; left; exact Hx].
    apply LogsAtMost_silent. silent_steps.
  - unfold on_tool_start. destruct (tracer self) as [tr|]; [|left; reflexivity].
    destruct (guarded_records (fun _ => False)
      (start_as_current_span tr "tool" (parent_span self) false (fun span =>
         bind (set_attribute span "otel.operation.name" (VStr "langchain.tools"))
           (fun _ => bind (add_event span "input" (VDict [("data", VStr inp)]))
              (fun _ => _register_span rid span)))) w)
      as [Hx|[Hx|(t & [] & _)]]; [|left; exact Hx|right; left; exact Hx].
    apply LogsAtMost_start_as_current_span. intros ref.
    apply LogsAtMost_silent. silent_steps.
  - unfold on_tool_end.
    destruct (guarded_end_records (fun _ => False)
      (bind (_current_span rid) (fun span =>
         on_span span "add_event" (fun ref =>
           add_event ref "output" (VDict [("data", VStr out)])))) rid w)
      as [Hx|[Hx|(t & [] & _)]]; [|left; exact Hx|right; left; exact Hx].
    apply LogsAtMost_silent. silent_steps.
Qed.

(** X3.  A handler call adds at most one record to the log: nothing, or one
    error record, or one Trace Info record.  Only the model handlers
    ([on_llm_start], [on_llm_end]) ever log a Trace Info record; the chain,
    tool and agent-action handlers log nothing but errors. *)
Theorem one_record_per_event self e w :
  let w' := snd (TracingCallbackHandler_handle self e w) in
  records w' = records w
  \/ (exists exc, records w' = records w ++ [error_record exc])
  \/ (exists t, records w' = records w ++ [info_record t]
        /\ ((exists serialized ps run_id parent,
               e = LlmStart serialized ps run_id parent
               /\ action t = "on_llm_start" /\ prompts t = Some ps)
            \/ (exists response run_id,
                  e = LlmEnd response run_id
                  /\ action t = "on_llm_end" /\ prompts t = None))).
Proof.
  destruct (records_after_event self e w) as [Hx|[Hx|(t & Ht & Hx)]];
    [left; exact Hx|right; left; exact Hx|].
  right. right. exists t. split; [exact Hx|].
  destruct e; simpl in Ht; try contradiction;
    destruct Ht as (Ha & Hp & _); [left|right]; eauto 10.
Qed.

(** X4.  A handler as [__init__] makes it (both counters the int 0, which
    nothing in the tracing mixin ever changes) logs no token count and no
    cost: in every Trace Info record it adds, both fields are null. *)
Theorem fresh_handler_logs_no_counters tr parent e w t :
  records (snd (TracingCallbackHandler_handle (__init__ tr parent) e w)) =
    records w ++ [info_record t] ->
  tokens t = None /\ cost t = None.
Proof.
  intros Hrec.
  destruct (records_after_event (__init__ tr parent) e w)
    as [Hx|[(exc & Hx)|(t' & Ht & Hx)]]; cbv zeta in Hx; rewrite Hx in Hrec.
  - apply (f_equal length) in Hrec. rewrite length_app in Hrec. simpl in Hrec. lia.
  - apply app_inv_head in Hrec. discriminate.
  - apply app_inv_head in Hrec. injection Hrec as ->.
    destruct e; simpl in Ht; try contradiction;
      destruct Ht as (_ & _ & Htok & Hcost); split; assumption.
Qed.

(** *** What a handler leaves alone *)

Lemma only_update_span_of o ref f :
  o = Some ref -> Keeps (only_span o) (update_span ref f).
Proof. intros ->. apply only_update_span. Qed.

Ltac only_steps o :=
  repeat first
    [ apply (Keeps_bind (only_span o) (only_span_trans o)); [|intros ?]
    | apply (Keeps_for_each (only_span o) (only_span_refl o) (only_span_trans o));
      intros ?
    | apply (Keeps_on_span (only_span o) (only_span_refl o) (only_span_trans o));
      intros ? ?
    | apply only_update_span_of; assumption
    | apply only_get_span_context
    | apply only_logger_info
    | apply only_logger_error
    | solve [intros ?; apply only_span_refl] ].

Lemma guarded_only (K : option SpanRef -> Eff World unit) run_id w :
  (forall o, Keeps (only_span o) (K o)) ->
  only_span (_span_map w !! run_id) w
    (snd (try_except (bind (_current_span run_id) K)
            (logger_error error_message) w)).
Proof.
  intros HK.
  assert (Hrun : bind (_current_span run_id) K w = K (_span_map w !! run_id) w)
    by reflexivity.
  unfold try_except, try_catch. rewrite Hrun.
  specialize (HK (_span_map w !! run_id) w).
  destruct (K (_span_map w !! run_id) w) as [[u|e] w1]; simpl in *; [exact HK|].
  eapply only_span_trans; [exact HK|]. repeat split.
Qed.

Lemma guarded_end_only (K : option SpanRef -> Eff World unit) run_id w :
  (forall o, Keeps (only_span o) (K o)) ->
  let w' := snd (try_finally (try_except (bind (_current_span run_id) K)
                                (logger_error error_message))
                   (_end_span run_id) w) in
  (forall other, other <> run_id -> _span_map w' !! other = _span_map w !! other)
  /\ (forall i, _span_map w !! run_id <> Some i -> spans w' !! i = spans w !! i)
  /\ current_span w' = current_span w.
Proof.
  intros HK. pose proof (guarded_only K run_id w HK) as (Hmap & Hcur & Hsp).
  unfold try_finally.
  destruct (try_except (bind (_current_span run_id) K)
              (logger_error error_message) w) as [r w1].
  rewrite TracingFacts.end_span_runs. simpl in *.
  split; [|split].
  - intros other Hne. rewrite TracingFacts.ended_world_map, Hmap.
    apply lookup_delete_ne. congruence.
  - intros i Hi. rewrite <- (Hsp i Hi). unfold ended_world. rewrite Hmap.
    destruct (_span_map w !! run_id) as [ref|]; simpl; [|reflexivity].
    apply list_lookup_alter_ne. congruence.
  - rewrite <- Hcur. unfold ended_world.
    destruct (_span_map w1 !! run_id); reflexivity.
Qed.

(** X5.  An end event touches its own run only: the registry entries of
    all other runs, every span other than the one registered for the run,
    and the current span of the tracing context are as before. *)
Theorem end_event_frame self e run_id w :
  end_run_id e = Some run_id ->
  let w' := snd (TracingCallbackHandler_handle self e w) in
  (forall other, other <> run_id -> _span_map w' !! other = _span_map w !! other)
  /\ (forall i, _span_map w !! run_id <> Some i -> spans w' !! i = spans w !! i)
  /\ current_span w' = current_span w.
Proof.
  intros He.
  destruct e as [|response rid| |outs rid par| | |out rid];
    simpl in He; try discriminate; injection He as <-; simpl.
  - unfold on_llm_end. destruct (tracer self) as [tr|];
      [|repeat split; intros; reflexivity].
    match goal with
    | |- context [try_except (bind (_current_span ?r) ?K) _] =>
        apply (guarded_end_only K r)
    end.
    intros o. only_steps o.
  - unfold on_chain_end. destruct (tracer self) as [tr|];
      [|repeat split; intros; reflexivity].
    match goal with
    | |- context [try_except (bind (_current_span ?r) ?K) _] =>
        apply (guarded_end_only K r)
    end.
    intros o. only_steps o.
  - unfold on_tool_end.
    match goal with
    | |- context [try_except (bind (_current_span ?r) ?K) _] =>
        apply (guarded_end_only K r)
    end.
    intros o. only_steps o.
Qed.

(** X6.  [on_agent_action] opens and closes nothing: it never changes the
    registry or a span other than the one registered for the run.  With
    the tracer set and a registered span it adds one [agent_action] event
    carrying the tool, its input and the log to that span and logs
    nothing; with no registered span it logs one error; with the tracer
    unset it does nothing. *)
Theorem agent_action_effect self action run_id parent w :
  exists w',
    on_agent_action self action run_id parent w = (Return tt, w')
    /\ _span_map w' = _span_map w
    /\ (forall i, _span_map w !! run_id <> Some i -> spans w' !! i = spans w !! i)
    /\ (forall tr ref s,
          tracer self = Some tr ->
          _span_map w !! run_id = Some ref ->
          spans w !! ref = Some s ->
          spans w' !! ref =
            Some (with_events s
                    (events s ++
                     [("agent_action",
                       VDict [("data", VStr (tool action));
                              ("tool_input", tool_input action);
                              ("log", VStr (log action))])]))
          /\ records w' = records w)
    /\ (forall tr, tracer self = Some tr -> _span_map w !! run_id = None ->
          w' = logged_error (AttributeError "add_event") w)
    /\ (tracer self = None -> w' = w).
Proof.
  unfold on_agent_action.
  destruct (tracer self) as [tr|].
  - pose proof (guarded_returns
      (bind (_current_span run_id) (fun span =>
         on_span span "add_event" (fun ref =>
           add_event ref "agent_action"
             (VDict [("data", VStr (tool action));
                     ("tool_input", tool_input action);
                     ("log", VStr (log action))])))) w) as Hret.
    pose proof (guarded_only (fun span =>
         on_span span "add_event" (fun ref =>
           add_event ref "agent_action"
             (VDict [("data", VStr (tool action));
                     ("tool_input", tool_input action);
                     ("log", VStr (log action))]))) run_id w) as Honly.
    destruct (try_except _ _ w) as [r w'] eqn:Hrun.
    simpl in Hret. subst r.
    destruct Honly as (Hmap & _ & Hsp); [intros o; only_steps o|].
    exists w'. split; [reflexivity|]. split; [exact Hmap|].
    split; [exact Hsp|].
    unfold try_except, try_catch, bind, _current_span, gets in Hrun.
    split; [|split; [|discriminate]].
    + intros tr' ref s _ Hreg Hs. rewrite Hreg in Hrun. simpl in Hrun.
      injection Hrun as <-. simpl.
      rewrite list_lookup_alter_eq, Hs. split; reflexivity.
    + intros tr' _ Hnone. rewrite Hnone in Hrun. simpl in Hrun.
      injection Hrun as <-. reflexivity.
  - exists w. repeat split; try reflexivity; discriminate.
Qed.

(** *** A start that fails, and an accounting that fails *)

(** X7.  When the inputs of a chain have no JSON encoding, [on_chain_start]
    (tracer set) still returns: it logs the [TypeError], registers nothing,
    and leaves behind the span it had opened, marked as failed and not
    ended.  The [on_chain_end] of that run finds no span, logs a second
    error, and the span stays open. *)
Theorem failed_chain_start_leaves_span_open
    self tr serialized inputs outputs run_id parent w :
  tracer self = Some tr ->
  json_serializable inputs = false ->
  _span_map w !! run_id = None ->
  exists s1 w1 w2 exc1 exc2,
    on_chain_start self serialized inputs run_id parent w = (Return tt, w1)
    /\ _span_map w1 = _span_map w
    /\ spans w1 = spans w ++ [s1]
    /\ ended s1 = false /\ status_error s1 = true
    /\ records w1 = records w ++ [error_record exc1]
    /\ on_chain_end self outputs run_id parent w1 = (Return tt, w2)
    /\ _span_map w2 = _span_map w
    /\ spans w2 = spans w ++ [s1]
    /\ records w2 = records w ++ [error_record exc1; error_record exc2].
Proof.
  intros Ht Hj Hnone.
  assert (Hstart : exists s1 exc1,
    on_chain_start self serialized inputs run_id parent w =
      (Return tt,
       {| _span_map := _span_map w; spans := spans w ++ [s1];
          current_span := current_span w;
          records := records w ++ [error_record exc1] |})
    /\ ended s1 = false /\ status_error s1 = true).
  { unfold on_chain_start. rewrite Ht.
    cbv [try_except try_catch start_as_current_span bind start_span try_finally
         gets modify set_attribute add_event update_span _register_span ret
         eval json_dumps record_exception set_status_error raise logger_error].
    rewrite Hj. cbn. rewrite !TracingFacts.alter_last.
    eexists _, _. split; [reflexivity|]. split; reflexivity. }
  destruct Hstart as (s1 & exc1 & Hstart & Hopen & Hfailed).
  exists s1. eexists. eexists. exists exc1, (AttributeError "add_event").
  split; [exact Hstart|]. simpl.
  split; [reflexivity|]. split; [reflexivity|].
  split; [exact Hopen|]. split; [exact Hfailed|]. split; [reflexivity|].
  rewrite (TracingFacts.on_chain_end_unregistered self tr outputs run_id
             parent _ Ht) by exact Hnone.
  split; [reflexivity|]. simpl.
  split; [reflexivity|]. split; [reflexivity|].
  rewrite <- app_assoc. reflexivity.
Qed.

(** X8.  The call of the token-accounting handler in the OpenAI-backed
    adapter is not guarded: when it raises, the exception reaches the
    caller, the generic end logic does not run, and a span that
    [on_llm_start] registered for the run stays registered and open. *)
Theorem failed_accounting_leaves_span_registered
    accounting self tr serialized ps response run_id parent w exc :
  tracer self = Some tr ->
  accounting response (total_tokens self, total_cost self) = Raise exc ->
  exists w1 s1,
    on_llm_start self serialized ps run_id parent w = (Return tt, w1)
    /\ OpenAITracingCallbackHandler_on_llm_end accounting self response
         run_id w1 = (Raise exc, self, w1)
    /\ _span_map w1 !! run_id = Some (length (spans w))
    /\ spans w1 !! length (spans w) = Some s1
    /\ ended s1 = false.
Proof.
  intros Ht Hacc.
  destruct (TracingFacts.on_llm_start_registers self tr serialized ps run_id
              parent w Ht) as (s1 & r1 & Hstart & Hopen).
  eexists _, s1. split; [exact Hstart|].
  unfold OpenAITracingCallbackHandler_on_llm_end. rewrite Hacc.
  split; [reflexivity|]. simpl.
  split; [apply lookup_insert_eq|].
  split; [apply TracingFacts.lookup_last|exact Hopen].
Qed.

(** *** What a model end leaves on the span *)

Lemma dict_get_set_eq d k v : dict_get (dict_set d k v) k = Some v.
Proof.
  induction d as [|[k' x] d IH]; simpl.
  - rewrite String.eqb_refl. reflexivity.
  - destruct (String.eqb k' k) eqn:Hk; simpl; rewrite Hk; [reflexivity|exact IH].
Qed.

Lemma dict_get_set_ne d k k' v :
  k <> k' -> dict_get (dict_set d k v) k' = dict_get d k'.
Proof.
  intros Hne. induction d as [|[k0 x] d IH]; simpl.
  - apply String.eqb_neq in Hne. rewrite Hne. reflexivity.
  - destruct (String.eqb k0 k) eqn:Hk; simpl.
    + apply String.eqb_eq in Hk. subst k0.
      apply String.eqb_neq in Hne. rewrite Hne. reflexivity.
    + destruct (String.eqb k0 k'); [reflexivity|exact IH].
Qed.

Lemma dict_get_after_sets (items : list (string * Value)) d k :
  (k ∉ items.*1 ->
   dict_get (fold_left (fun a kv => dict_set a (fst kv) (snd kv)) items d) k =
     dict_get d k)
  /\ (forall v, NoDup items.*1 -> (k, v) ∈ items ->
        dict_get (fold_left (fun a kv => dict_set a (fst kv) (snd kv)) items d) k =
          Some v).
Proof.
  revert d. induction items as [|[k0 v0] items IH]; intros d; simpl.
  - split; [reflexivity|]. intros v _ Hin. inversion Hin.
  - destruct (IH (dict_set d k0 v0)) as [IHout IHin]. split.
    + intros Hnot. apply not_elem_of_cons in Hnot as [Hne Hnot].
      rewrite (IHout Hnot). apply dict_get_set_ne. congruence.
    + intros v Hnd Hin. apply NoDup_cons in Hnd as [Hk0 Hnd].
      apply elem_of_cons in Hin as [[= -> ->]|Hin].
      * rewrite (IHout Hk0). apply dict_get_set_eq.
      * apply (IHin v Hnd Hin).
Qed.

Lemma set_attributes_result ref (items : list (string * Value)) w s :
  spans w !! ref = Some s ->
  for_each items (fun kv =>
    on_span (Some ref) "set_attribute"
      (fun r => set_attribute r (fst kv) (snd kv))) w =
    (Return tt,
     set_spans (<[ref := with_attributes s
                   (fold_left (fun a kv => dict_set a (fst kv) (snd kv)) items
                      (attributes s))]> (spans w)) w).
Proof.
  revert w s. induction items as [|kv items IH]; intros w s Hs.
  - simpl. rewrite list_insert_id; [destruct w; reflexivity|].
    rewrite Hs. destruct s; reflexivity.
  - assert (Hstep :
      on_span (Some ref) "set_attribute"
        (fun r => set_attribute r (fst kv) (snd kv)) w =
        (Return tt,
         set_spans (alter (fun x => with_attributes x
                      (dict_set (attributes x) (fst kv) (snd kv))) ref (spans w))
           w)) by reflexivity.
    cbn [for_each]. unfold bind at 1. rewrite Hstep.
    erewrite IH.
    2:{ simpl. rewrite list_lookup_alter_eq, Hs. reflexivity. }
    simpl. f_equal. unfold set_spans. simpl. f_equal.
    apply list_eq. intros i. destruct (decide (i = ref)) as [->|Hne].
    + rewrite !list_lookup_insert_eq;
        [reflexivity| |rewrite length_alter];
        apply lookup_lt_is_Some; eauto.
    + rewrite !list_lookup_insert_ne, list_lookup_alter_ne by congruence.
      reflexivity.
Qed.

(** X9.  A model end for a run with a registered span and a readable
    token usage leaves that span ended, with one more event, [outputs],
    whose data is the generated text (the texts of each generation list
    joined by spaces, the lists by newlines), and with every field of the
    token usage as an attribute of the span holding the reported value;
    attributes of other names are as they were. *)
Theorem llm_end_fills_span self tr response run_id w ref s d usage :
  tracer self = Some tr ->
  _span_map w !! run_id = Some ref ->
  spans w !! ref = Some s ->
  llm_output response = Some d ->
  dict_get d "token_usage" = Some (VDict usage) ->
  NoDup usage.*1 ->
  exists w2 s2,
    on_llm_end self response run_id w = (Return tt, w2)
    /\ spans w2 !! ref = Some s2
    /\ ended s2 = true
    /\ events s2 =
         events s ++
         [("outputs",
           VDict [("data",
                   VStr (String.concat newline
                           (map (fun lst => String.concat " " (map text lst))
                                (generations response))))])]
    /\ (forall k v, (k, v) ∈ usage -> dict_get (attributes s2) k = Some v)
    /\ (forall k, k ∉ usage.*1 ->
          dict_get (attributes s2) k = dict_get (attributes s) k).
Proof.
  intros Ht Hreg Hs Hout Husage Hnd.
  assert (Hlt : ref < length (spans w)) by (apply lookup_lt_is_Some; eauto).
  unfold on_llm_end. rewrite Ht.
  unfold try_finally, try_except, try_catch.
  unfold bind at 1. unfold _current_span, gets. rewrite Hreg.
  unfold bind at 1. unfold eval at 1, llm_output_token_usage.
  rewrite Hout, Husage.
  unfold bind at 1. unfold eval at 1, dict_items.
  unfold bind at 1.
  rewrite (set_attributes_result ref usage w s Hs).
  unfold bind at 1. unfold on_span at 1, get_span_context. simpl spans.
  rewrite list_lookup_insert_eq by exact Hlt.
  unfold bind at 1. unfold logger_info, modify.
  unfold on_span, add_event, update_span, modify.
  rewrite TracingFacts.end_span_runs.
  eexists _, _. split; [reflexivity|].
  unfold ended_world. simpl. rewrite Hreg. simpl.
  rewrite !list_lookup_alter_eq, list_lookup_insert_eq by exact Hlt. simpl.
  split; [reflexivity|]. split; [reflexivity|]. split; [reflexivity|].
  split.
  - intros k v Hin. apply (dict_get_after_sets usage (attributes s) k); assumption.
  - intros k Hnot. apply (dict_get_after_sets usage (attributes s) k). exact Hnot.
Qed.

End Facts.

(** *** Instances *)

Import Samples.

Lemma fresh_handler_logs_no_counters_witness :
  exists t,
    records (snd (TracingCallbackHandler_handle
                    (__init__ (Some sample_tracer) None)
                    (LlmEnd (response_reporting 42) 7%N) world_with_run_7)) =
      records world_with_run_7 ++ [info_record t]
    /\ action t = "on_llm_end"
    /\ tokens t = None /\ cost t = None.
Proof.
  eexists. split; [lazy; reflexivity|]. split; [reflexivity|].
  eapply (fresh_handler_logs_no_counters (Some sample_tracer) None
            (LlmEnd (response_reporting 42) 7%N) world_with_run_7).
  lazy. reflexivity.
Defined.

Lemma end_event_frame_witness :
  let w' := snd (TracingCallbackHandler_handle traced (ToolEnd "4" 8%N)
                   world_with_run_7) in
  (forall other, other <> 8%N ->
     _span_map w' !! other = _span_map world_with_run_7 !! other)
  /\ (forall i, _span_map world_with_run_7 !! 8%N <> Some i ->
        spans w' !! i = spans world_with_run_7 !! i)
  /\ current_span w' = current_span world_with_run_7.
Proof.
  exact (end_event_frame traced (ToolEnd "4" 8%N) 8%N world_with_run_7 eq_refl).
Defined.

Lemma failed_chain_start_leaves_span_open_witness :
  exists s1 w1 w2 exc1 exc2,
    on_chain_start traced VNone inputs_with_document 7%N None empty_world =
      (Return tt, w1)
    /\ spans w1 = [s1] /\ ended s1 = false
    /\ on_chain_end traced VNone 7%N None w1 = (Return tt, w2)
    /\ spans w2 = [s1]
    /\ records w2 = [error_record exc1; error_record exc2].
Proof.
  destruct (failed_chain_start_leaves_span_open traced sample_tracer VNone
              inputs_with_document VNone 7%N None empty_world
              eq_refl eq_refl eq_refl)
    as (s1 & w1 & w2 & exc1 & exc2 & H1 & _ & H2 & H3 & _ & _ & H4 & _ & H5 & H6).
  exists s1, w1, w2, exc1, exc2.
  repeat split; assumption.
Defined.

Lemma failed_accounting_leaves_span_registered_witness :
  exists w1 s1,
    on_llm_start traced VNone ["hi"] 7%N None empty_world = (Return tt, w1)
    /\ OpenAITracingCallbackHandler_on_llm_end
         (fun _ _ => Raise (KeyError "completion_tokens")) traced
         (response_reporting 42) 7%N w1 =
         (Raise (KeyError "completion_tokens"), traced, w1)
    /\ _span_map w1 !! 7%N = Some 0
    /\ spans w1 !! 0 = Some s1
    /\ ended s1 = false.
Proof.
  exact (failed_accounting_leaves_span_registered
           (fun _ _ => Raise (KeyError "completion_tokens")) traced
           sample_tracer VNone ["hi"] (response_reporting 42) 7%N None
           empty_world (KeyError "completion_tokens") eq_refl eq_refl).
Defined.

Lemma llm_end_fills_span_witness :
  exists w2 s2,
    on_llm_end traced (response_reporting 42) 7%N world_with_run_7 =
      (Return tt, w2)
    /\ spans w2 !! 0 = Some s2
    /\ ended s2 = true
    /\ events s2 = [("outputs", VDict [("data", VStr "Hello")])]
    /\ dict_get (attributes s2) "total_tokens" = Some (VInt 42).
Proof.
  destruct (llm_end_fills_span traced sample_tracer (response_reporting 42)
              7%N world_with_run_7 0 open_span _ _
              eq_refl eq_refl eq_refl eq_refl eq_refl
              ltac:(apply NoDup_singleton))
    as (w2 & s2 & Hrun & Hs2 & Hend & Hev & Hattr & _).
  exists w2, s2. split; [exact Hrun|]. split; [exact Hs2|].
  split; [exact Hend|]. split; [exact Hev|].
  apply Hattr. apply list_elem_of_here.
Defined.

Lemma agent_action_effect_witness :
  exists w',
    on_agent_action traced
      {| tool := "calculator"; tool_input := VStr "2+2"; log := "I need to add" |}
      7%N None world_with_run_7 = (Return tt, w')
    /\ _span_map w' = _span_map world_with_run_7
    /\ events <$> spans w' !! 0 =
         Some [("agent_action",
                VDict [("data", VStr "calculator"); ("tool_input", VStr "2+2");
                       ("log", VStr "I need to add")])]
    /\ records w' = [].
Proof.
  destruct (agent_action_effect traced
              {| tool := "calculator"; tool_input := VStr "2+2";
                 log := "I need to add" |} 7%N None world_with_run_7)
    as (w' & Hrun & Hmap & _ & Hreg & _).
  destruct (Hreg sample_tracer 0 open_span eq_refl eq_refl eq_refl)
    as [Hspan Hrec].
  exists w'. split; [exact Hrun|]. split; [exact Hmap|].
  split; [rewrite Hspan; reflexivity|exact Hrec].
Defined.

End TracingMore.


(** ** The logger of the tracing handlers *)

Module LoggingFacts.

Import Logging.

Lemma get_tracing_logger_runs (ls : gmap string Logger) :
  get_tracing_logger ls =
    (Return "tracing",
     <["tracing" := configured (default new_logger (ls !! "tracing"))]> ls).
Proof.
  unfold get_tracing_logger, bind, getLogger.
  destruct (ls !! "tracing") as [l0|] eqn:Hl.
  - unfold setLevel, set_propagate, update_logger, modify, get_handlers, gets.
    cbn [fst snd]. rewrite !lookup_alter_eq, Hl. cbn.
    destruct (handlers l0) as [|h hs] eqn:Hh; cbn; f_equal;
      apply map_eq; intros k;
      (destruct (decide (k = "tracing")) as [->|Hne];
       [rewrite lookup_insert_eq, ?lookup_alter_eq, Hl; cbn;
        unfold configured; rewrite Hh; reflexivity
       |rewrite lookup_insert_ne, ?lookup_alter_ne by congruence; reflexivity]).
  - unfold setLevel, set_propagate, update_logger, modify, get_handlers, gets.
    cbn [fst snd]. rewrite !lookup_alter_eq, lookup_insert_eq. cbn.
    f_equal. apply map_eq; intros k.
    destruct (decide (k = "tracing")) as [->|Hne].
    + rewrite lookup_insert_eq, !lookup_alter_eq, lookup_insert_eq. reflexivity.
    + rewrite !lookup_insert_ne, !lookup_alter_ne, lookup_insert_ne
        by congruence. reflexivity.
Qed.

Lemma configured_twice l : configured (configured l) = configured l.
Proof. unfold configured. simpl. destruct (handlers l); reflexivity. Qed.

(** X10.  [get_tracing_logger] can be called any number of times: the
    first call leaves the logger "tracing" at level INFO, not propagating,
    with the handlers it already had or, if it had none, exactly one
    stream handler with the format "name: message"; every further call
    changes nothing, so that no second handler (and no doubled log line)
    appears, and no other logger is touched. *)
Theorem get_tracing_logger_idempotent (ls : gmap string Logger) :
  exists l,
    let ls1 := snd (get_tracing_logger ls) in
    fst (get_tracing_logger ls) = Return "tracing"
    /\ ls1 !! "tracing" = Some l
    /\ level l = INFO /\ propagate l = false
    /\ (match ls !! "tracing" with
        | Some l0 => handlers l0 <> [] -> handlers l = handlers l0
        | None => True
        end)
    /\ ((forall l0, ls !! "tracing" = Some l0 -> handlers l0 = []) ->
        handlers l = [tracing_handler])
    /\ (forall other, other <> "tracing" -> ls1 !! other = ls !! other)
    /\ get_tracing_logger ls1 = (Return "tracing", ls1).
Proof.
  exists (configured (default new_logger (ls !! "tracing"))).
  rewrite get_tracing_logger_runs. cbn [fst snd].
  split; [reflexivity|]. split; [apply lookup_insert_eq|].
  split; [reflexivity|]. split; [reflexivity|].
  split.
  { destruct (ls !! "tracing") as [l0|]; [|exact I].
    simpl. intros Hne. unfold configured. simpl.
    destruct (handlers l0); [contradiction|reflexivity]. }
  split.
  { intros Hnone. destruct (ls !! "tracing") as [l0|]; simpl.
    - unfold configured. simpl. rewrite (Hnone l0 eq_refl). reflexivity.
    - reflexivity. }
  split.
  { intros other Hne. apply lookup_insert_ne. congruence. }
  rewrite get_tracing_logger_runs, lookup_insert_eq. simpl.
  rewrite configured_twice, insert_insert_eq. reflexivity.
Qed.

End LoggingFacts.

(** ** More on the streaming handlers and on [PrintWrapper] *)

Module StreamingMore.

Import Streaming Wrappers.

(** X11.  [on_llm_new_token] and [on_text] send what the output model
    returns when it accepts the token; an exception of the output model
    other than a validation error is not caught: it reaches the caller and
    nothing is sent.  In every case the messages sent before stay as they
    were and at most one is added. *)
Theorem streaming_outcomes (self : Streaming.Handler) token ws :
  (forall data,
     Streaming.output_model self (VStr token) (VStr "") = Return data ->
     await (on_llm_new_token self token) ws =
       (Return tt, {| sent := sent ws ++ [data] |}))
  /\ (forall e,
        Streaming.output_model self (VStr token) (VStr "") = Raise e ->
        e <> ValidationError ->
        await (on_llm_new_token self token) ws = (Raise e, ws))
  /\ await (on_text self token) ws = await (on_llm_new_token self token) ws
  /\ exists new,
       sent (snd (await (on_llm_new_token self token) ws)) = sent ws ++ new
       /\ length new <= 1.
Proof.
  unfold await, on_llm_new_token, on_text, coro_body, bind, try_catch, eval.
  split; [intros data ->; reflexivity|].
  split; [intros e -> Hne; destruct e; try reflexivity; contradiction|].
  split; [reflexivity|].
  destruct (Streaming.output_model self (VStr token) (VStr "")) as [data|e].
  - exists [data]. split; [reflexivity|simpl; lia].
  - destruct e; simpl;
      first [exists []; split; [rewrite app_nil_r; reflexivity|simpl; lia]
            |eexists [_]; split; [reflexivity|simpl; lia]].
Qed.

Section WithJsonText.
Variable json_text : Value -> string.

Lemma as_strs_none args v :
  v ∈ args -> as_str json_text v = None -> as_strs json_text args = None.
Proof.
  intros Hin Hv. induction args as [|a args IH]; [inversion Hin|].
  simpl. apply elem_of_cons in Hin as [<-|Hin].
  - rewrite Hv. reflexivity.
  - rewrite (IH Hin). destruct (as_str json_text a); reflexivity.
Qed.

(** X12.  Running the coroutine of a wrapped [print] whose arguments are all
    strings sends one message: what the output model makes of an empty
    result, an empty error and the arguments joined by single spaces as
    [stdout].  The keyword arguments of the call ([sep], [end], [file])
    have no effect. *)
Theorem print_sends_joined_arguments self args kwds kwds' strs data ws :
  as_strs json_text args = Some strs ->
  output_model self (VStr "") (VStr "") (VStr (String.concat " " strs)) =
    Return data ->
  await (__acall__ json_text self args kwds) ws =
    (Return tt, {| sent := sent ws ++ [data] |})
  /\ await (__acall__ json_text self args kwds') ws =
       await (__acall__ json_text self args kwds) ws.
Proof.
  intros Hs Hm. split; [|reflexivity].
  unfold await, __acall__, coro_body, bind, eval, str_join.
  rewrite Hs, Hm. reflexivity.
Qed.

(** X13.  The coroutine of a wrapped [print] has no fallback.  An argument
    that is not a string ([print(42)]) makes the join raise [TypeError]
    before the output model is consulted, and an output model that rejects
    the fields raises too, a validation error included; in both cases
    nothing is sent. *)
Theorem print_failures_send_nothing self args kwds ws :
  (forall v, v ∈ args -> as_str json_text v = None ->
     await (__acall__ json_text self args kwds) ws =
       (Raise (TypeError "sequence item: expected str instance"), ws))
  /\ (forall strs e,
        as_strs json_text args = Some strs ->
        output_model self (VStr "") (VStr "") (VStr (String.concat " " strs)) =
          Raise e ->
        await (__acall__ json_text self args kwds) ws = (Raise e, ws)).
Proof.
  unfold await, __acall__, coro_body, bind, eval, str_join. split.
  - intros v Hin Hv. rewrite (as_strs_none args v Hin Hv). reflexivity.
  - intros strs e Hs Hm. rewrite Hs, Hm. reflexivity.
Qed.

End WithJsonText.

Lemma print_sends_joined_arguments_witness :
  await (__acall__ MoreSamples.no_json_text MoreSamples.echo_model
           [VStr "total:"; VStr "42"] [("sep", VStr "-")]) {| sent := [] |} =
    (Return tt,
     {| sent := [VDict [("result", VStr ""); ("error", VStr "");
                        ("stdout", VStr "total: 42")]] |}).
Proof.
  exact (proj1 (print_sends_joined_arguments MoreSamples.no_json_text
                  MoreSamples.echo_model
                  [VStr "total:"; VStr "42"] [("sep", VStr "-")] []
                  ["total:"; "42"] _ {| sent := [] |} eq_refl eq_refl)).
Defined.

Lemma print_failures_send_nothing_witness :
  await (__acall__ MoreSamples.no_json_text MoreSamples.echo_model
           [VStr "total:"; VInt 42] []) {| sent := [] |} =
    (Raise (TypeError "sequence item: expected str instance"), {| sent := [] |}).
Proof.
  apply (proj1 (print_failures_send_nothing MoreSamples.no_json_text
                  MoreSamples.echo_model
                  [VStr "total:"; VInt 42] [] {| sent := [] |}) (VInt 42)).
  - apply list_elem_of_further, list_elem_of_here.
  - reflexivity.
Defined.

End StreamingMore.

(** ** More on the builtins interception scope *)

Module BuiltinsMore.

Import Builtins Scopes.

Lemma enter_any lp ws om wp wi p :
  __enter__ (__init__ lp ws om wp wi, p) =
    (Return tt,
     ((if wi then store_input (input p) else fun s : BuiltinsWrapper => s)
        ((if wp then store_print (print p) else fun s : BuiltinsWrapper => s)
          (__init__ lp ws om wp wi)),
      {| print := if wp then PrintWrapper lp ws om else print p;
         input := if wi then InputWrapper lp ws (locks p) else input p;
         locks := if wi then S (locks p) else locks p |})).
Proof. destruct wp, wi, p; reflexivity. Qed.

Lemma exit_any lp ws om (wp wi : bool) p exc p' :
  __exit__ exc
    ((if wi then store_input (input p) else fun s : BuiltinsWrapper => s)
       ((if wp then store_print (print p) else fun s : BuiltinsWrapper => s)
          (__init__ lp ws om wp wi)),
     p') =
    (Return false,
     ((if wi then store_input (input p) else fun s : BuiltinsWrapper => s)
        ((if wp then store_print (print p) else fun s : BuiltinsWrapper => s)
          (__init__ lp ws om wp wi)),
      {| print := if wp then print p else print p';
         input := if wi then input p else input p';
         locks := locks p' |})).
Proof. destruct wp, wi, p'; reflexivity. Qed.


Lemma scope_runs {B} (body : Eff Process B) lp ws om p :
  let p1 := {| print := PrintWrapper lp ws om;
               input := InputWrapper lp ws (locks p);
               locks := S (locks p) |} in
  scope (__init__ lp ws om true true) body p =
    (match fst (body p1) with
     | Return b => Return (Some b)
     | Raise e => Raise e
     end,
     {| print := print p; input := input p; locks := locks (snd (body p1)) |}).
Proof.
  unfold scope, with_BuiltinsWrapper, with_stmt.
  unfold bind at 1. rewrite BuiltinsFacts.enter_wraps.
  unfold on_snd. cbn [fst snd].
  destruct (body _) as [[b|e] p'] eqn:Hbody;
    rewrite BuiltinsFacts.exit_restores; reflexivity.
Qed.

(** X15.  Scopes of two wrapper objects nest: the body of the inner scope
    runs with the inner wrappers, the inner exit puts the outer wrappers
    back, and after the outer exit [print] and [input] are the original
    bindings, whether the body returned or raised. *)
Theorem nested_scopes_restore {B} (body : Eff Process B)
    la wa oa lb wb ob p :
  exists p_body r p2,
    scope (__init__ la wa oa true true)
      (scope (__init__ lb wb ob true true) body) p = (r, p2)
    /\ print p_body = PrintWrapper lb wb ob
    /\ input p_body = InputWrapper lb wb (S (locks p))
    /\ r = (match fst (body p_body) with
            | Return b => Return (Some (Some b))
            | Raise e => Raise e
            end)
    /\ print p2 = print p
    /\ input p2 = input p.
Proof.
  rewrite scope_runs. cbv zeta.
  set (pa := {| print := PrintWrapper la wa oa;
                input := InputWrapper la wa (locks p);
                locks := S (locks p) |}).
  rewrite (scope_runs body lb wb ob pa). cbv zeta. cbn [fst snd].
  eexists {| print := PrintWrapper lb wb ob;
             input := InputWrapper lb wb (S (locks p));
             locks := S (S (locks p)) |}, _, _.
  split; [reflexivity|]. split; [reflexivity|]. split; [reflexivity|].
  split; [|split; reflexivity].
  subst pa. cbn [locks].
  destruct (body _) as [[b|e] p']; reflexivity.
Qed.

(** X16.  A wrapper object is not reentrant.  When the scope of one object
    is entered again inside itself, the inner [__enter__] overwrites the
    stored originals with the wrappers, and after both exits [print] and
    [input] are still bound to the wrappers of the outer scope: the
    original bindings are lost. *)
Theorem reentered_scope_loses_originals {B} (body : Eff Process B) lp ws om p :
  exists r self2 p2,
    reentered body (__init__ lp ws om true true, p) = (r, (self2, p2))
    /\ print p2 = PrintWrapper lp ws om
    /\ input p2 = InputWrapper lp ws (locks p)
    /\ _print self2 = Some (PrintWrapper lp ws om)
    /\ _input self2 = Some (InputWrapper lp ws (locks p)).
Proof.
  unfold reentered, with_stmt at 1.
  unfold bind at 1. rewrite BuiltinsFacts.enter_wraps.
  unfold with_BuiltinsWrapper, with_stmt.
  unfold bind at 1. cbn -[__exit__ on_snd].
  unfold on_snd. cbn [fst snd].
  destruct (body _) as [[b|e] p']; cbn; eexists _, _, _;
    (split; [reflexivity|]); repeat split.
Qed.

End BuiltinsMore.

(** ** More on the command line front end *)

Module CliMore.

Import Cli.

(** *** The [--config] callback *)

Lemma check_instances_pass recognized_tiers tiers :
  forallb (recognized recognized_tiers) tiers = true ->
  check_instances recognized_tiers tiers = Return tt.
Proof.
  induction tiers as [|t tiers IH]; simpl; [reflexivity|].
  intros Hall. apply andb_true_iff in Hall as [Ht Hall].
  rewrite Ht. exact (IH Hall).
Qed.

Lemma check_autoscale_min_pass mins :
  forallb non_negative_number mins = true ->
  check_autoscale_min mins = Return tt.
Proof.
  induction mins as [|m mins IH]; simpl; [reflexivity|].
  intros Hall. apply andb_true_iff in Hall as [Hm Hall].
  rewrite Hm. exact (IH Hall).
Qed.

Lemma check_autoscale_min_stops pre m post :
  forallb non_negative_number pre = true ->
  non_negative_number m = false ->
  check_autoscale_min (pre ++ m :: post) = Raise (InvalidAutoscaleMinError m).
Proof.
  intros Hpre Hbad. induction pre as [|x pre IH]; simpl in *.
  - rewrite Hbad. reflexivity.
  - apply andb_true_iff in Hpre as [Hx Hpre]. rewrite Hx. exact (IH Hpre).
Qed.

(** X17.  When the validator (modelled from the spec) raises the
    invalid-autoscale condition for the value [m], the callback turns it
    into a [BadParameter] whose message is "Invalid instance '<m>' found in
    config file', it should be a number >= 0.": it names the offending
    value, and like the message for a tier it begins with "Invalid
    instance". *)
Theorem invalid_autoscale_min_becomes_bad_parameter
    recognized_tiers ctx param path cfg pre m post fs :
  path <> "" ->
  files fs !! path = Some cfg ->
  forallb (recognized recognized_tiers) (instance cfg) = true ->
  autoscale_min cfg = pre ++ m :: post ->
  forallb non_negative_number pre = true ->
  non_negative_number m = false ->
  fst (validate_jcloud_config_callback recognized_tiers ctx param (Some path) fs) =
    Raise (BadParameter
      ("Invalid instance '" +:+ format_scalar m +:+
       "' found in config file', it should be a number >= 0."))
  /\ contains
       ("Invalid instance '" +:+ format_scalar m +:+
        "' found in config file', it should be a number >= 0.")
       (format_scalar m).
Proof.
  intros Hpath Hfile Hinst Hdoc Hpre Hbad.
  split; [|apply CliFacts.contains_middle].
  unfold validate_jcloud_config_callback.
  apply String.eqb_neq in Hpath. rewrite Hpath.
  unfold bind at 1. unfold try_catch, validate_jcloud_config, bind, load_config,
    eval.
  rewrite Hfile, (check_instances_pass _ _ Hinst), Hdoc,
    (check_autoscale_min_stops _ _ _ Hpre Hbad).
  reflexivity.
Qed.

(** X18.  For a file whose document the validator (modelled from the spec)
    accepts, the callback returns the path it was given, unchanged, having
    opened that file once and no other; and a failure that is neither of
    the two validation conditions, such as a missing file, is not
    converted: it reaches click as it is. *)
Theorem valid_config_passes_through recognized_tiers ctx param path cfg fs :
  path <> "" ->
  files fs !! path = Some cfg ->
  forallb (recognized recognized_tiers) (instance cfg) = true ->
  forallb non_negative_number (autoscale_min cfg) = true ->
  validate_jcloud_config_callback recognized_tiers ctx param (Some path) fs =
    (Return (Some path), {| files := files fs; opened := opened fs ++ [path] |})
  /\ (forall missing,
        missing <> "" -> files fs !! missing = None ->
        validate_jcloud_config_callback recognized_tiers ctx param
          (Some missing) fs = (Raise (FileNotFoundError missing), fs)).
Proof.
  intros Hpath Hfile Hinst Hmins. split.
  - unfold validate_jcloud_config_callback.
    apply String.eqb_neq in Hpath. rewrite Hpath.
    unfold bind at 1. unfold try_catch, validate_jcloud_config, bind,
      load_config, eval.
    rewrite Hfile, (check_instances_pass _ _ Hinst),
      (check_autoscale_min_pass _ Hmins).
    reflexivity.
  - intros missing Hne Hnone. unfold validate_jcloud_config_callback.
    apply String.eqb_neq in Hne. rewrite Hne.
    unfold bind at 1. unfold try_catch, validate_jcloud_config, bind,
      load_config, eval.
    rewrite Hnone. reflexivity.
Qed.

Lemma invalid_autoscale_min_becomes_bad_parameter_witness :
  fst (validate_jcloud_config_callback Samples.three_tiers VNone VNone
         (Some "scale.yml")
         {| files := {[ "scale.yml" :=
                          {| instance := ["C2"]; autoscale_min := [SInt (-1)] |} ]};
            opened := [] |}) =
    Raise (BadParameter
      "Invalid instance '-1' found in config file', it should be a number >= 0.").
Proof.
  exact (proj1 (invalid_autoscale_min_becomes_bad_parameter Samples.three_tiers
                  VNone VNone "scale.yml"
                  {| instance := ["C2"]; autoscale_min := [SInt (-1)] |}
                  [] (SInt (-1)) []
                  {| files := {[ "scale.yml" :=
                       {| instance := ["C2"]; autoscale_min := [SInt (-1)] |} ]};
                     opened := [] |}
                  ltac:(discriminate) eq_refl eq_refl eq_refl eq_refl eq_refl)).
Defined.

Lemma valid_config_passes_through_witness :
  validate_jcloud_config_callback Samples.three_tiers VNone VNone
    (Some "ok.yml")
    {| files := {[ "ok.yml" :=
                     {| instance := ["C2"]; autoscale_min := [SInt 0] |} ]};
       opened := [] |} =
    (Return (Some "ok.yml"),
     {| files := {[ "ok.yml" :=
                      {| instance := ["C2"]; autoscale_min := [SInt 0] |} ]};
        opened := ["ok.yml"] |}).
Proof.
  exact (proj1 (valid_config_passes_through Samples.three_tiers VNone VNone
                  "ok.yml" {| instance := ["C2"]; autoscale_min := [SInt 0] |}
                  {| files := {[ "ok.yml" :=
                       {| instance := ["C2"]; autoscale_min := [SInt 0] |} ]};
                     opened := [] |}
                  ltac:(discriminate) eq_refl eq_refl eq_refl)).
Defined.

(** *** The remote deploy pipeline, call by call *)

Section Pipeline.
Context {Ext FlowDict : Type}.
Variable flow : Flow Ext FlowDict.

Ltac enter_call H :=
  unfold bind at 1 in H; unfold call at 1 in H; cbn [ext trace] in H.

Ltac all_returned :=
  repeat (apply Forall_cons_2; [eexists; reflexivity|]); apply Forall_nil_2.

Ltac stopped H calls :=
  right; injection H as <- <-;
  exists calls; eexists _, _; cbn [fst snd trace];
  split; [reflexivity|];
  split; [cbn; rewrite <- ?app_assoc; reflexivity|];
  all_returned.

Lemma pipeline_cases module name requirements app_id version timeout platform
    config verbose (run : Run) r run' :
  await (serve_on_jcloud flow module name requirements app_id version timeout
           platform config verbose) run = (r, run') ->
  (exists app app_dir config' tag gateway_id_wo_tag is_websocket flow_dict id,
     r = Return id
     /\ trace run' = trace run ++ completed
          [(GetAppDir module, Return (RAppDir app app_dir));
           (ResolveJcloudConfig config app_dir, Return (RConfig config'));
           (GetRandomTag, Return (RTag tag));
           (PushAppToHubble
              {| push_app := app; push_app_dir := app_dir;
                 push_requirements := requirements; push_tag := tag;
                 push_version := version; push_platform := platform;
                 push_verbose := verbose |},
            Return (RPushed gateway_id_wo_tag is_websocket));
           (GetFlowDict
              {| flow_module := module; flow_jcloud := true; flow_port := 8080;
                 flow_name := name; flow_timeout := timeout;
                 flow_app_id := app_id;
                 flow_gateway_id := gateway_id_wo_tag +:+ ":" +:+ tag;
                 flow_is_websocket := is_websocket;
                 flow_jcloud_config_path := config' |},
            Return (RFlowDict flow_dict));
           (DeployAppOnJcloud flow_dict app_id verbose, Return (RDeployed id));
           (GetAppStatusOnJcloud id, Return RDone)])
  \/ (exists calls c e,
        r = Raise e
        /\ trace run' = trace run ++ completed (calls ++ [(c, Raise e)])
        /\ Forall (fun cr => exists res, snd cr = Return res) calls).
Proof.
  intros Hrun.
  unfold await, serve_on_jcloud, coro_body in Hrun.
  enter_call Hrun.
  destruct (get_app_dir flow module (ext run)) as [[[app app_dir]|e] x1];
    [|stopped Hrun (@nil (@Call FlowDict * Outcome (@Result FlowDict)))].
  enter_call Hrun. cbn [fst snd] in Hrun.
  destruct (resolve_jcloud_config flow config app_dir x1) as [[config'|e] x2];
    [|stopped Hrun [(GetAppDir (FlowDict := FlowDict) module,
                     Return (RAppDir (FlowDict := FlowDict) app app_dir))]].
  enter_call Hrun.
  destruct (get_random_tag flow x2) as [[tag|e] x3];
    [|stopped Hrun [(GetAppDir (FlowDict := FlowDict) module,
                     Return (RAppDir (FlowDict := FlowDict) app app_dir));
                    (ResolveJcloudConfig config app_dir,
                     Return (RConfig config'))]].
  enter_call Hrun.
  set (pa := {| push_app := app; push_app_dir := app_dir;
                push_requirements := requirements; push_tag := tag;
                push_version := version; push_platform := platform;
                push_verbose := verbose |}) in *.
  destruct (push_app_to_hubble flow pa x3) as [[[gid is_ws]|e] x4];
    [|stopped Hrun [(GetAppDir (FlowDict := FlowDict) module,
                     Return (RAppDir (FlowDict := FlowDict) app app_dir));
                    (ResolveJcloudConfig config app_dir,
                     Return (RConfig config'));
                    (GetRandomTag, Return (RTag tag))]].
  enter_call Hrun. cbn [fst snd] in Hrun.
  set (fa := {| flow_module := module; flow_jcloud := true; flow_port := 8080;
                flow_name := name; flow_timeout := timeout;
                flow_app_id := app_id;
                flow_gateway_id := gid +:+ ":" +:+ tag;
                flow_is_websocket := is_ws;
                flow_jcloud_config_path := config' |}) in *.
  destruct (get_flow_dict flow fa x4) as [[flow_dict|e] x5];
    [|stopped Hrun [(GetAppDir (FlowDict := FlowDict) module,
                     Return (RAppDir (FlowDict := FlowDict) app app_dir));
                    (ResolveJcloudConfig config app_dir,
                     Return (RConfig config'));
                    (GetRandomTag, Return (RTag tag));
                    (PushAppToHubble pa, Return (RPushed gid is_ws))]].
  enter_call Hrun.
  destruct (deploy_app_on_jcloud flow flow_dict app_id verbose x5)
    as [[[app_id' extra]|e] x6];
    [|stopped Hrun [(GetAppDir (FlowDict := FlowDict) module,
                     Return (RAppDir (FlowDict := FlowDict) app app_dir));
                    (ResolveJcloudConfig config app_dir,
                     Return (RConfig config'));
                    (GetRandomTag, Return (RTag tag));
                    (PushAppToHubble pa, Return (RPushed gid is_ws));
                    (GetFlowDict fa, Return (RFlowDict flow_dict))]].
  enter_call Hrun. cbn [fst snd] in Hrun.
  destruct (get_app_status_on_jcloud flow app_id' x6) as [[[]|e] x7];
    [|stopped Hrun [(GetAppDir (FlowDict := FlowDict) module,
                     Return (RAppDir (FlowDict := FlowDict) app app_dir));
                    (ResolveJcloudConfig config app_dir,
                     Return (RConfig config'));
                    (GetRandomTag, Return (RTag tag));
                    (PushAppToHubble pa, Return (RPushed gid is_ws));
                    (GetFlowDict fa, Return (RFlowDict flow_dict));
                    (DeployAppOnJcloud flow_dict app_id verbose,
                     Return (RDeployed app_id'))]].
  left. injection Hrun as <- <-.
  exists app, app_dir, config', tag, gid, is_ws, flow_dict, app_id'.
  split; [reflexivity|]. cbn. rewrite <- ?app_assoc. reflexivity.
Qed.

(** X19.  When [serve_on_jcloud] returns, it has made exactly seven calls,
    each after the one before had returned: it located the app, resolved
    the config, drew a tag, pushed (with the caller's requirements, version,
    platform and verbosity and that tag), built the flow (remote mode, port
    8080, the caller's name, timeout and app id, the resolved config path,
    the websocket flag that the push returned), submitted it with the
    caller's app id, and polled the status; what it returns is the app id
    that the submission returned, and that is the id it polled. *)
Theorem pipeline_success_trace module name requirements app_id version timeout
    platform config verbose (run : Run) id run' :
  await (serve_on_jcloud flow module name requirements app_id version timeout
           platform config verbose) run = (Return id, run') ->
  exists app app_dir config' tag gateway_id_wo_tag is_websocket flow_dict,
    trace run' = trace run ++ completed
      [(GetAppDir module, Return (RAppDir app app_dir));
       (ResolveJcloudConfig config app_dir, Return (RConfig config'));
       (GetRandomTag, Return (RTag tag));
       (PushAppToHubble
          {| push_app := app; push_app_dir := app_dir;
             push_requirements := requirements; push_tag := tag;
             push_version := version; push_platform := platform;
             push_verbose := verbose |},
        Return (RPushed gateway_id_wo_tag is_websocket));
       (GetFlowDict
          {| flow_module := module; flow_jcloud := true; flow_port := 8080;
             flow_name := name; flow_timeout := timeout;
             flow_app_id := app_id;
             flow_gateway_id := gateway_id_wo_tag +:+ ":" +:+ tag;
             flow_is_websocket := is_websocket;
             flow_jcloud_config_path := config' |},
        Return (RFlowDict flow_dict));
       (DeployAppOnJcloud flow_dict app_id verbose, Return (RDeployed id));
       (GetAppStatusOnJcloud id, Return RDone)].
Proof.
  intros Hrun.
  destruct (pipeline_cases _ _ _ _ _ _ _ _ _ _ _ _ Hrun)
    as [(app & app_dir & config' & tag & gid & is_ws & fd & id' & [= <-] & Htr)
       |(calls & c & e & Hr & _)]; [|discriminate].
  exists app, app_dir, config', tag, gid, is_ws, fd. exact Htr.
Qed.

(** X20.  When [serve_on_jcloud] raises, the exception is the one that a
    call into the deployment module raised, handed on unchanged; every call
    before that one had returned, and no call is made after it (in
    particular nothing is submitted after a failed push and nothing is
    polled after a failed submission). *)
Theorem pipeline_stops_at_first_failure module name requirements app_id version
    timeout platform config verbose (run : Run) e run' :
  await (serve_on_jcloud flow module name requirements app_id version timeout
           platform config verbose) run = (Raise e, run') ->
  exists calls c,
    trace run' = trace run ++ completed (calls ++ [(c, Raise e)])
    /\ Forall (fun cr => exists res, snd cr = Return res) calls.
Proof.
  intros Hrun.
  destruct (pipeline_cases _ _ _ _ _ _ _ _ _ _ _ _ Hrun)
    as [(app & app_dir & config' & tag & gid & is_ws & fd & id' & Hr & _)
       |(calls & c & e' & [= <-] & Htr & Hall)]; [discriminate|].
  exists calls, c. split; assumption.
Qed.

End Pipeline.

Lemma pipeline_success_trace_witness :
  exists app app_dir config' tag gateway_id_wo_tag is_websocket flow_dict,
    trace (snd (await (serve_on_jcloud Samples.sample_flow (OneModule "app")
                         "langchain" None (Some "app-0") "latest" 120 None None
                         false) Samples.fresh_run)) =
      completed
        [(GetAppDir (OneModule "app"), Return (RAppDir app app_dir));
         (ResolveJcloudConfig None app_dir, Return (RConfig config'));
         (GetRandomTag, Return (RTag tag));
         (PushAppToHubble
            {| push_app := app; push_app_dir := app_dir;
               push_requirements := None; push_tag := tag;
               push_version := "latest"; push_platform := None;
               push_verbose := false |},
          Return (RPushed gateway_id_wo_tag is_websocket));
         (GetFlowDict
            {| flow_module := OneModule "app"; flow_jcloud := true;
               flow_port := 8080; flow_name := "langchain";
               flow_timeout := 120; flow_app_id := Some "app-0";
               flow_gateway_id := gateway_id_wo_tag +:+ ":" +:+ tag;
               flow_is_websocket := is_websocket;
               flow_jcloud_config_path := config' |},
          Return (RFlowDict flow_dict));
         (DeployAppOnJcloud flow_dict (Some "app-0") false,
          Return (RDeployed "app-1"));
         (GetAppStatusOnJcloud "app-1", Return RDone)].
Proof.
  exact (pipeline_success_trace Samples.sample_flow (OneModule "app")
           "langchain" None (Some "app-0") "latest" 120 None None false
           Samples.fresh_run "app-1" _ eq_refl).
Defined.

Lemma pipeline_stops_at_first_failure_witness :
  exists calls c,
    trace (snd (await (serve_on_jcloud Samples.failing_push_flow
                         (OneModule "app") "langchain" None None "latest" 120
                         None None false) Samples.fresh_run)) =
      completed (calls ++ [(c, Raise (RuntimeError "push failed"))])
    /\ Forall (fun cr => exists res, snd cr = Return res) calls.
Proof.
  exact (pipeline_stops_at_first_failure Samples.failing_push_flow
           (OneModule "app") "langchain" None None "latest" 120 None None false
           Samples.fresh_run (RuntimeError "push failed") _ eq_refl).
Defined.

End CliMore.

(** ** The bundled deploys and the shared options *)

Module AppsFacts.

Import Cli Apps.

(** X21.  [add_jcloud_shared_options] decorates a command function exactly
    as stacking the shared options above it in the order of the list
    would: the first option of the list is the outermost decorator; and
    adding the options of two lists one after the other is adding the
    options of their concatenation. *)
Theorem shared_options_stack_in_order {F} (options more : list (F -> F))
    (func : F) :
  add_jcloud_shared_options options func =
    fold_right (fun option f => option f) func options
  /\ add_jcloud_shared_options (options ++ more) func =
       add_jcloud_shared_options options (add_jcloud_shared_options more func).
Proof.
  assert (Hstack : forall l (f : F),
            add_jcloud_shared_options l f =
              fold_right (fun option g => option g) f l).
  { intros l f. unfold add_jcloud_shared_options.
    rewrite <- (rev_involutive l) at 2.
    rewrite fold_left_rev_right. reflexivity. }
  split; [apply Hstack|].
  rewrite !Hstack. apply fold_right_app.
Qed.

Section Bundled.
Context {Ext FlowDict : Type}.
Variable flow : Flow Ext FlowDict.
Variable update_requirements : string -> list string -> Eff Ext unit.
Variable package_dir : string.

(** The session after the update of the requirements file and, when that
    returned, after the pipeline. *)
Lemma bundled_with_requirements_runs path module name reqs app_id
    version timeout platform config verbose (s : Session) :
  updates_requirements_first flow update_requirements
    (Coro (bind (call_update_requirements update_requirements path reqs)
       (fun _ =>
          bind (in_session (await (serve_on_jcloud flow module name (Some reqs)
                                     app_id version timeout platform config
                                     verbose)))
            (fun _ => ret tt))))
    path reqs module name app_id version timeout platform config verbose s.
Proof.
  unfold updates_requirements_first. cbv zeta.
  unfold await. cbn [coro_body].
  destruct (update_requirements path reqs (session_ext s))
    as [[u|e] x1] eqn:Hu; cbn [fst snd];
    unfold bind at 1; unfold call_update_requirements; rewrite Hu;
    [|reflexivity].
  unfold bind at 1. unfold in_session. cbn [session_ext session_trace].
  destruct (coro_body _ _) as [[id|e] run1]; cbn [fst snd ext trace];
    rewrite <- app_assoc; reflexivity.
Qed.

(** X22.  [serve_babyagi_on_jcloud] and [serve_autogpt_on_jcloud] update the
    requirements file of the bundled app before anything is deployed, with
    the caller's extra requirements or, when there are none, the empty
    list.  When the update raises, its exception reaches the caller and no
    call into the deployment pipeline is made; when it returns, the
    pipeline runs for the module of the bundled app, with the same list as
    its requirements, from the state the update left; the app id the
    pipeline returns is dropped. *)
Theorem bundled_deploy_updates_requirements_first name requirements app_id
    version timeout platform config verbose (s : Session) :
  updates_requirements_first flow update_requirements
    (serve_babyagi_on_jcloud flow update_requirements package_dir name
       requirements app_id version timeout platform config verbose)
    (os_path_join package_dir ["apps"; "babyagi"; "requirements.txt"])
    (or_empty requirements) (OneModule "lcserve.apps.babyagi.app")
    name app_id version timeout platform config verbose s
  /\ updates_requirements_first flow update_requirements
       (serve_autogpt_on_jcloud flow update_requirements package_dir name
          requirements app_id version timeout platform config verbose)
       (os_path_join package_dir ["apps"; "autogpt"; "requirements.txt"])
       (or_empty requirements) (OneModule "lcserve.apps.autogpt.app")
       name app_id version timeout platform config verbose s.
Proof.
  split; apply bundled_with_requirements_runs.
Qed.

(** X23.  The requirements file of a bundled app is looked for inside the
    package: for a package directory that is not empty and does not end in
    a slash, the path given to [update_requirements] is that directory
    followed by [/apps/<app>/requirements.txt]; and [requirements or []]
    hands on a list that has an element as it is and turns both no
    requirements and the empty sequence into the empty list. *)
Theorem requirements_path_and_default app (requirements : list string) :
  package_dir <> "" ->
  ends_with_slash package_dir = false ->
  starts_with_slash app = false ->
  app <> "" ->
  ends_with_slash app = false ->
  os_path_join package_dir ["apps"; app; "requirements.txt"] =
    package_dir +:+ "/apps/" +:+ app +:+ "/requirements.txt"
  /\ or_empty None = []
  /\ or_empty (Some []) = []
  /\ (requirements <> [] -> or_empty (Some requirements) = requirements).
Proof.
  intros Hne Hslash Happ Happ_ne Happ_end.
  split; [|split; [reflexivity|split; [reflexivity|]]].
  - unfold os_path_join. cbn [fold_left].
    assert (Hends : forall a b, b <> "" -> ends_with_slash (a +:+ b) = ends_with_slash b).
    { intros a b Hb. induction a as [|c a IH]; [reflexivity|].
      change (String c a +:+ b) with (String c (a +:+ b)).
      cbn [ends_with_slash]. destruct (a +:+ b) eqn:Hab; [|exact IH].
      destruct a; [simpl in Hab; contradiction|discriminate]. }
    assert (Hnonempty : forall a b, b <> "" -> a +:+ b <> "").
    { intros a b Hb. destruct a; [exact Hb|discriminate]. }
    assert (Hassoc : forall a b c : string, (a +:+ b) +:+ c = a +:+ b +:+ c)
      by apply CliFacts.string_app_assoc.
    assert (H1 : path_join2 package_dir "apps" = package_dir +:+ "/apps").
    { unfold path_join2. cbn [starts_with_slash Ascii.eqb]. simpl.
      apply String.eqb_neq in Hne. rewrite Hne, Hslash. reflexivity. }
    rewrite H1.
    assert (H2 : path_join2 (package_dir +:+ "/apps") app =
                 package_dir +:+ "/apps/" +:+ app).
    { unfold path_join2. rewrite Happ.
      assert (Hn : package_dir +:+ "/apps" <> "") by (apply Hnonempty; discriminate).
      apply String.eqb_neq in Hn. rewrite Hn.
      rewrite Hends by discriminate. cbn [ends_with_slash Ascii.eqb]. simpl.
      rewrite !Hassoc. reflexivity. }
    rewrite H2.
    unfold path_join2. cbn [starts_with_slash Ascii.eqb]. simpl.
    assert (Hn : package_dir +:+ "/apps/" +:+ app <> "").
    { apply Hnonempty. discriminate. }
    apply String.eqb_neq in Hn. rewrite Hn.
    replace (package_dir +:+ "/apps/" +:+ app)
      with ((package_dir +:+ "/apps/") +:+ app) by apply Hassoc.
    rewrite Hends by exact Happ_ne. rewrite Happ_end. cbn.
    rewrite !Hassoc. reflexivity.
  - intros Hl. destruct requirements; [contradiction|reflexivity].
Qed.

End Bundled.

Lemma requirements_path_and_default_witness :
  os_path_join "/site/lcserve" ["apps"; "babyagi"; "requirements.txt"] =
    "/site/lcserve/apps/babyagi/requirements.txt"
  /\ or_empty (Some ["foo==1.0"; "bar==2.0"]) = ["foo==1.0"; "bar==2.0"].
Proof.
  destruct (requirements_path_and_default "/site/lcserve" "babyagi"
              ["foo==1.0"; "bar==2.0"]
              ltac:(discriminate) eq_refl eq_refl ltac:(discriminate) eq_refl)
    as (Hpath & _ & _ & Hreqs).
  split; [exact Hpath|]. apply Hreqs. discriminate.
Defined.

End AppsFacts.
